(** * A shallow embedding of [app.py]: the webhook task runner

    The program receives a job, asks a text-generation service for one HTML
    page, publishes it with supporting files to a GitHub repository, and
    reports the outcome to a callback URL.

    Modelling conventions.
    - A Python [str] is the list of its code points ([list Z]); [bytes] is a
      list of integers in [0, 256).
    - A Python exception is a value [Exn] (class and [str(e)]); a computation
      that may raise returns [Res A].  Every class modelled derives from
      [Exception].
    - Network and GitHub calls are answered by an environment [Env] that sees
      the whole history of calls made so far; every call is appended to the
      trace of the state.
    - Mutable dictionaries whose identity matters (the notification payload)
      live in a heap of the state and are passed by location.
    - [print] calls are log output only and are not modelled. *)

From Stdlib Require Import String Ascii DecimalString ZArith List Lia Bool.
Import ListNotations.
Open Scope Z_scope.

Ltac Zify.zify_post_hook ::= Z.to_euclidean_division_equations.

(** ** Strings and bytes *)

Definition str := list Z.
Definition bytes := list Z.

(** A string literal of the source (ASCII text). *)
Definition lit (s : string) : str :=
  map (fun a => Z.of_nat (nat_of_ascii a)) (list_ascii_of_string s).

(** [str(n)] for an [int]. *)
Definition str_of_int (n : Z) : str := lit (NilZero.string_of_int (Z.to_int n)).

Fixpoint str_eqb (a b : str) : bool :=
  match a, b with
  | [], [] => true
  | x :: a', y :: b' => (x =? y) && str_eqb a' b'
  | _, _ => false
  end.

Definition dquote : Z := 34.
Definition newline : Z := 10.
Definition comma : Z := 44.

(** [s.startswith(p)], [s.endswith(p)] *)
Fixpoint startswith (s p : str) : bool :=
  match p, s with
  | [], _ => true
  | c :: p', d :: s' => (c =? d) && startswith s' p'
  | _ :: _, [] => false
  end.

Definition endswith (s p : str) : bool := startswith (rev s) (rev p).

(** [s[n:]] and [s[:-n]] for a positive literal [n]. *)
Definition slice_from (n : nat) (s : str) : str := skipn n s.
Definition slice_to_neg (n : nat) (s : str) : str := firstn (length s - n) s.

(** [str.isspace] for one character: the code points CPython lists in
    [_PyUnicode_IsWhitespace]. *)
Definition isspace (c : Z) : bool :=
  ((9 <=? c) && (c <=? 13)) || ((28 <=? c) && (c <=? 32))
  || (c =? 133) || (c =? 160) || (c =? 5760)
  || ((8192 <=? c) && (c <=? 8202))
  || (c =? 8232) || (c =? 8233) || (c =? 8239) || (c =? 8287) || (c =? 12288).

Fixpoint lstrip (s : str) : str :=
  match s with
  | [] => []
  | c :: r => if isspace c then lstrip r else s
  end.

Definition rstrip (s : str) : str := rev (lstrip (rev s)).

(** [s.strip()] *)
Definition strip (s : str) : str := rstrip (lstrip s).

(** [sep.join(parts)] *)
Fixpoint join (sep : str) (parts : list str) : str :=
  match parts with
  | [] => []
  | [p] => p
  | p :: rest => p ++ sep ++ join sep rest
  end.

(** ** Exceptions *)

Inductive ExnClass :=
| GithubException        (* github.GithubException and its subclasses *)
| RequestException       (* requests.exceptions.RequestException and subclasses *)
| KeyError | IndexError | TypeError | AttributeError | ValueError
| UnicodeDecodeError
| BinasciiError          (* binascii.Error *)
| PlainException         (* Exception(...) raised by the program itself *)
| OtherException.        (* any other subclass of Exception *)

Record Exn := mkExn { exn_class : ExnClass; exn_str : str }.

Inductive Res (A : Type) :=
| Ok (a : A)
| Raise (e : Exn).
Arguments Ok {A} a.
Arguments Raise {A} e.

Definition is_GithubException (e : Exn) : bool :=
  match exn_class e with GithubException => true | _ => false end.
Definition is_RequestException (e : Exn) : bool :=
  match exn_class e with RequestException => true | _ => false end.

Definition res_bind {A B} (r : Res A) (k : A -> Res B) : Res B :=
  match r with Ok a => k a | Raise e => Raise e end.

(** [try: body  except Exception as e: handler e] on pure code. *)
Definition res_try {A} (body : Res A) (handler : Exn -> Res A) : Res A :=
  match body with Ok a => Ok a | Raise e => handler e end.

(** ** Library models: [str.split], [base64.b64decode], UTF-8 *)

(** The text before and after the first [','], when there is one. *)
Fixpoint find_comma (s : str) : option (str * str) :=
  match s with
  | [] => None
  | c :: r =>
      if c =? comma then Some ([], r)
      else match find_comma r with
           | Some (h, t) => Some (c :: h, t)
           | None => None
           end
  end.

(** [s.split(',', 1)] *)
Definition split_comma_1 (s : str) : list str :=
  match find_comma s with
  | Some (h, t) => [h; t]
  | None => [s]
  end.

(** [a, b = parts] *)
Definition unpack2 (parts : list str) : Res (str * str) :=
  match parts with
  | [a; b] => Ok (a, b)
  | [_] => Raise (mkExn ValueError (lit "not enough values to unpack (expected 2, got 1)"))
  | _ => Raise (mkExn ValueError (lit "too many values to unpack (expected 2)"))
  end.

Definition BASE64_PAD : Z := 61.

(** CPython's [table_a2b_base64]: the value of a base64 digit; 255 (the
    unsigned char -1) for a byte outside the alphabet; the pad maps to 0. *)
Definition table_a2b_base64 (c : Z) : Z :=
  if (65 <=? c) && (c <=? 90) then c - 65
  else if (97 <=? c) && (c <=? 122) then c - 71
  else if (48 <=? c) && (c <=? 57) then c + 4
  else if c =? 43 then 62
  else if c =? 47 then 63
  else if c =? BASE64_PAD then 0
  else 255.

Definition binascii_error (quad_pos : nat) (out : bytes) : Exn :=
  if Nat.eqb quad_pos 1 then
    mkExn BinasciiError
      (lit "Invalid base64-encoded string: number of data characters ("
       ++ str_of_int (Z.of_nat (length out) / 3 * 4 + 1)
       ++ lit ") cannot be 1 more than a multiple of 4")
  else mkExn BinasciiError (lit "Incorrect padding").

(** The main loop of [binascii.a2b_base64] with [strict_mode] off, as
    [base64.b64decode] calls it by default.  [out] is the output buffer
    written so far; the result [Ok] at a pad sequence is the [goto done]. *)
Fixpoint a2b_loop (data : bytes) (quad_pos : nat) (leftchar : Z) (pads : nat)
         (out : bytes) : Res bytes :=
  match data with
  | [] => if Nat.eqb quad_pos 0 then Ok out else Raise (binascii_error quad_pos out)
  | this_ch :: rest =>
      if this_ch =? BASE64_PAD then
        if Nat.leb 2 quad_pos then
          if Nat.leb 4 (quad_pos + S pads) then Ok out
          else a2b_loop rest quad_pos leftchar (S pads) out
        else a2b_loop rest quad_pos leftchar pads out
      else
        let d := table_a2b_base64 this_ch in
        if 64 <=? d then a2b_loop rest quad_pos leftchar pads out
        else
          match quad_pos with
          | 0%nat => a2b_loop rest 1 d 0 out
          | 1%nat =>
              a2b_loop rest 2 (Z.land d 15) 0
                (out ++ [Z.lor (Z.shiftl leftchar 2) (Z.shiftr d 4) mod 256])
          | 2%nat =>
              a2b_loop rest 3 (Z.land d 3) 0
                (out ++ [Z.lor (Z.shiftl leftchar 4) (Z.shiftr d 2) mod 256])
          | _ =>
              a2b_loop rest 0 0 0
                (out ++ [Z.lor (Z.shiftl leftchar 6) d mod 256])
          end
  end.

Definition a2b_base64 (data : bytes) : Res bytes := a2b_loop data 0 0 0 [].

Definition is_ascii (c : Z) : bool := (0 <=? c) && (c <? 128).

(** [base64.b64decode(s)] for a [str] argument: the text is encoded as
    ASCII first, and a character outside ASCII is a [ValueError]. *)
Definition b64decode (s : str) : Res bytes :=
  if forallb is_ascii s then a2b_base64 s
  else Raise (mkExn ValueError (lit "string argument should contain only ASCII characters")).

Definition is_cont (b : Z) : bool := (128 <=? b) && (b <=? 191).

(** The strict UTF-8 decoder: shortest form only, no surrogates, nothing
    above U+10FFFF. [None] stands for [UnicodeDecodeError]. *)
Fixpoint utf8_decode (bs : bytes) : option str :=
  match bs with
  | [] => Some []
  | b0 :: r0 =>
      if (0 <=? b0) && (b0 <? 128) then option_map (cons b0) (utf8_decode r0)
      else if (194 <=? b0) && (b0 <? 224) then
        match r0 with
        | b1 :: r1 =>
            if is_cont b1
            then option_map (cons ((b0 - 192) * 64 + (b1 - 128))) (utf8_decode r1)
            else None
        | _ => None
        end
      else if (224 <=? b0) && (b0 <? 240) then
        match r0 with
        | b1 :: b2 :: r2 =>
            if is_cont b1 && is_cont b2
               && (negb (b0 =? 224) || (160 <=? b1))
               && (negb (b0 =? 237) || (b1 <=? 159))
            then option_map
                   (cons ((b0 - 224) * 4096 + (b1 - 128) * 64 + (b2 - 128)))
                   (utf8_decode r2)
            else None
        | _ => None
        end
      else if (240 <=? b0) && (b0 <? 245) then
        match r0 with
        | b1 :: b2 :: b3 :: r3 =>
            if is_cont b1 && is_cont b2 && is_cont b3
               && (negb (b0 =? 240) || (144 <=? b1))
               && (negb (b0 =? 244) || (b1 <=? 143))
            then option_map
                   (cons ((b0 - 240) * 262144 + (b1 - 128) * 4096
                          + (b2 - 128) * 64 + (b3 - 128)))
                   (utf8_decode r3)
            else None
        | _ => None
        end
      else None
  end.

(** [b.decode('utf-8')]; the message of the error names the offending byte
    and its position and is abbreviated here. *)
Definition bytes_decode_utf8 (bs : bytes) : Res str :=
  match utf8_decode bs with
  | Some s => Ok s
  | None => Raise (mkExn UnicodeDecodeError (lit "'utf-8' codec can't decode byte"))
  end.

(** ** The attachment decoder *)

Record Attachment := mkAttachment { att_name : str; att_url : str }.

(** The body of the [try] of [decode_attachment]. *)
Definition decode_attachment_body (attachment : Attachment) : Res str :=
  res_bind (unpack2 (split_comma_1 (att_url attachment))) (fun '(header, encoded) =>
  res_bind (b64decode encoded) (fun raw =>
  bytes_decode_utf8 raw)).

(** [decode_attachment]: [None] is Python's [None]. *)
Definition decode_attachment (attachment : Attachment) : Res (option str) :=
  res_try (res_bind (decode_attachment_body attachment) (fun s => Ok (Some s)))
          (fun e => Ok None).


(** ** The encoder the round trip is stated against

    The program only decodes.  The sender's side is the standard one: the
    text encoded as UTF-8 (RFC 3629), the bytes as base64 with padding
    (RFC 4648, section 4), after a header and a comma. *)

Definition b64_alphabet : str :=
  lit "ABCDEFGHIJKLMNOPQRSTUVWXYZabcdefghijklmnopqrstuvwxyz0123456789+/".

Definition b64_digit (i : Z) : Z := nth (Z.to_nat i) b64_alphabet 0.

Fixpoint b64encode (bs : bytes) : str :=
  match bs with
  | [] => []
  | [b1] => [b64_digit (b1 / 4); b64_digit (b1 mod 4 * 16); BASE64_PAD; BASE64_PAD]
  | [b1; b2] =>
      [b64_digit (b1 / 4); b64_digit (b1 mod 4 * 16 + b2 / 16);
       b64_digit (b2 mod 16 * 4); BASE64_PAD]
  | b1 :: b2 :: b3 :: rest =>
      b64_digit (b1 / 4) :: b64_digit (b1 mod 4 * 16 + b2 / 16)
      :: b64_digit (b2 mod 16 * 4 + b3 / 64) :: b64_digit (b3 mod 64)
      :: b64encode rest
  end.

(** A code point that UTF-8 can encode: a Unicode scalar value. *)
Definition encodable (c : Z) : bool :=
  ((0 <=? c) && (c <? 55296)) || ((57344 <=? c) && (c <=? 1114111)).

Definition utf8_encode_char (c : Z) : bytes :=
  if c <? 128 then [c]
  else if c <? 2048 then [192 + c / 64; 128 + c mod 64]
  else if c <? 65536 then [224 + c / 4096; 128 + c / 64 mod 64; 128 + c mod 64]
  else [240 + c / 262144; 128 + c / 4096 mod 64; 128 + c / 64 mod 64; 128 + c mod 64].

Definition utf8_encode (s : str) : bytes := flat_map utf8_encode_char s.

(** The data URI [<header>,<base64 of x>]. *)
Definition data_uri (header x : str) : str :=
  header ++ comma :: b64encode (utf8_encode x).

Definition is_byte (b : Z) : bool := (0 <=? b) && (b <? 256).

(** Exhaustive checks over an initial segment of the integers. *)
Fixpoint all_below (n : nat) (P : Z -> bool) : bool :=
  match n with
  | O => true
  | S k => P (Z.of_nat k) && all_below k P
  end.

(** ** Python values *)

(** Lines of a multi-line literal, joined by newlines. *)
Definition text_lines (ls : list str) : str := join [newline] ls.

(** [f"{x}"] for a value that may be [None]. *)
Definition format_opt (x : option str) : str :=
  match x with Some s => s | None => lit "None" end.

(** Truthiness of a value that is a [str] or [None]. *)
Definition truthy (x : option str) : bool :=
  match x with
  | Some (_ :: _) => true
  | _ => false
  end.

(** An object as [response.json()] returns it. *)
#[warnings="-register-all"]
Inductive pyobj :=
| JNone
| JBool (b : bool)
| JInt (n : Z)
| JFloat (repr : str)
| JStr (s : str)
| JList (items : list pyobj)
| JDict (items : list (str * pyobj)).

Definition type_name (o : pyobj) : str :=
  match o with
  | JNone => lit "NoneType"
  | JBool _ => lit "bool"
  | JInt _ => lit "int"
  | JFloat _ => lit "float"
  | JStr _ => lit "str"
  | JList _ => lit "list"
  | JDict _ => lit "dict"
  end.

(** Dictionaries keep insertion order; assigning to a key that is present
    replaces the value in place. *)
Definition dict (V : Type) := list (str * V).

Fixpoint dict_get {V} (d : dict V) (k : str) : option V :=
  match d with
  | [] => None
  | (k', v) :: r => if str_eqb k' k then Some v else dict_get r k
  end.

Fixpoint dict_set {V} (d : dict V) (k : str) (v : V) : dict V :=
  match d with
  | [] => [(k, v)]
  | (k', v') :: r =>
      if str_eqb k' k then (k', v) :: r else (k', v') :: dict_set r k v
  end.

(** [d.update(other)] *)
Definition dict_update {V} (d other : dict V) : dict V :=
  fold_left (fun acc kv => dict_set acc (fst kv) (snd kv)) other d.

Definition not_subscriptable {A} (o : pyobj) : Res A :=
  Raise (mkExn TypeError
           (lit "'" ++ type_name o ++ lit "' object is not subscriptable")).

(** [o[key]] for a literal string key without quote characters, for which
    [str(KeyError(key))] is the key between single quotes. *)
Definition getitem_str (o : pyobj) (key : str) : Res pyobj :=
  match o with
  | JDict items =>
      match dict_get items key with
      | Some v => Ok v
      | None => Raise (mkExn KeyError (lit "'" ++ key ++ lit "'"))
      end
  | JList _ =>
      Raise (mkExn TypeError (lit "list indices must be integers or slices, not str"))
  | JStr _ =>
      Raise (mkExn TypeError (lit "string indices must be integers, not 'str'"))
  | _ => not_subscriptable o
  end.

(** [o[0]] *)
Definition getitem_0 (o : pyobj) : Res pyobj :=
  match o with
  | JList (x :: _) => Ok x
  | JList [] => Raise (mkExn IndexError (lit "list index out of range"))
  | JStr (c :: _) => Ok (JStr [c])
  | JStr [] => Raise (mkExn IndexError (lit "string index out of range"))
  | JDict _ => Raise (mkExn KeyError (lit "0"))
  | _ => not_subscriptable o
  end.

Definition no_attribute {A} (o : pyobj) (attr : str) : Res A :=
  Raise (mkExn AttributeError
           (lit "'" ++ type_name o ++ lit "' object has no attribute '"
            ++ attr ++ lit "'")).

(** [o.strip()] *)
Definition method_strip (o : pyobj) : Res str :=
  match o with
  | JStr s => Ok (strip s)
  | _ => no_attribute o (lit "strip")
  end.

(** [o.get('message', '')]; the value is only printed. *)
Definition method_get_message (o : pyobj) : Res unit :=
  match o with
  | JDict _ => Ok tt
  | _ => no_attribute o (lit "get")
  end.

(** A value stored in the notification payload. *)
Inductive pyval :=
| PNone
| PStr (s : str)
| PInt (n : Z).

Definition pyval_of_opt (x : option str) : pyval :=
  match x with Some s => PStr s | None => PNone end.

(** ** The outside world *)

(** Every call that leaves the process.  The three [requests.post] call
    sites are told apart. *)
Inductive Event :=
| EvGetUser                                  (* github_client.get_user() *)
| EvGetRepo (repo_name : str)                (* user.get_repo(repo_name) *)
| EvCreateRepo (repo_name : str)             (* user.create_repo(.., private=False, auto_init=True) *)
| EvSleep (seconds : Z)                      (* time.sleep(seconds) *)
| EvGetContents (path : str)                 (* repo.get_contents(path, ref="main") *)
| EvUpdateFile (path message content sha : str)  (* repo.update_file(.., branch="main") *)
| EvCreateFile (path message content : str)  (* repo.create_file(.., branch="main") *)
| EvUserLogin                                (* user.login *)
| EvGetBranch                                (* repo.get_branch("main").commit.sha *)
| EvPostLLM (url authorization model system_content user_content : str)
| EvPostPages (endpoint authorization : str) (* json={"source": {"branch": "main", "path": "/"}} *)
| EvPostNotify (url : str) (payload : dict pyval).  (* json=payload, timeout=10 *)

Record Response := mkResponse {
  status_code : Z;
  text : str;
  json : Res pyobj                           (* response.json() *)
}.

Record Repo := mkRepo { html_url : str }.

(** The answers of GitHub and of the HTTP endpoints.  Each answer may depend
    on everything done so far (the first argument), and each call may raise
    any exception. *)
Record Env := mkEnv {
  env_get_user : list Event -> Res unit;
  env_get_repo : list Event -> str -> Res Repo;
  env_create_repo : list Event -> str -> Res Repo;
  env_get_contents : list Event -> str -> Res str;
  env_update_file : list Event -> str -> str -> str -> str -> Res unit;
  env_create_file : list Event -> str -> str -> str -> Res unit;
  env_user_login : list Event -> Res str;
  env_get_branch : list Event -> Res str;
  env_post : list Event -> Event -> Res Response
}.

(** [os.environ.get] gives [None] for a variable that is not set. *)
Record Config := mkConfig {
  MY_SECRET : option str;
  GITHUB_TOKEN : option str;
  AI_PIPE_TOKEN : option str
}.

Definition AI_PIPE_URL : str := lit "https://aipipe.org/openai/v1/chat/completions".

Definition MIT_LICENSE_TEXT : str :=
  text_lines
    [ [];
      lit "MIT License";
      [];
      lit "Copyright (c) 2025";
      [];
      lit "Permission is hereby granted, free of charge, to any person obtaining a copy";
      lit "of this software and associated documentation files (the " ++ [dquote] ++ lit "Software" ++ [dquote] ++ lit "), to deal";
      lit "in the Software without restriction, including without limitation the rights";
      lit "to use, copy, modify, merge, publish, distribute, sublicense, and/or sell";
      lit "copies of the Software, and to permit persons to whom the Software is";
      lit "furnished to do so, subject to the following conditions:";
      [];
      lit "The above copyright notice and this permission notice shall be included in all";
      lit "copies or substantial portions of the Software.";
      [];
      lit "THE SOFTWARE IS PROVIDED " ++ [dquote] ++ lit "AS IS" ++ [dquote] ++ lit ", WITHOUT WARRANTY OF ANY KIND, EXPRESS OR";
      lit "IMPLIED, INCLUDING BUT NOT LIMITED TO THE WARRANTIES OF MERCHANTABILITY,";
      lit "FITNESS FOR A PARTICULAR PURPOSE AND NONINFRINGEMENT. IN NO EVENT SHALL THE";
      lit "AUTHORS OR COPYRIGHT HOLDERS BE LIABLE FOR ANY CLAIM, DAMAGES OR OTHER";
      lit "LIABILITY, WHETHER IN AN ACTION OF CONTRACT, TORT OR OTHERWISE, ARISING FROM,";
      lit "OUT OF OR IN CONNECTION WITH THE SOFTWARE OR THE USE OR OTHER DEALINGS IN THE";
      lit "SOFTWARE.";
      [] ].

(** ** State and effects *)

Definition loc := nat.

Record State := mkState {
  trace : list Event;                        (* the calls made so far, oldest first *)
  heap : list (dict pyval)                   (* the dictionaries allocated so far *)
}.

(** A computation reads and changes the state and returns or raises; what
    was done before an exception was raised stays done. *)
Definition M (A : Type) := State -> Res A * State.

Definition ret {A} (a : A) : M A := fun s => (Ok a, s).

Definition raise {A} (e : Exn) : M A := fun s => (Raise e, s).

Definition bind {A B} (m : M A) (k : A -> M B) : M B :=
  fun s => match m s with
           | (Ok a, s') => k a s'
           | (Raise e, s') => (Raise e, s')
           end.

Notation "x <- m ;; k" := (bind m (fun x => k))
  (at level 61, m at next level, right associativity).
Notation "m ;;; k" := (bind m (fun _ => k))
  (at level 61, right associativity).

Definition lift {A} (r : Res A) : M A := fun s => (r, s).

(** [try: body  except <class> as e: handler e]; an exception that the
    clause does not match propagates. *)
Definition try_except {A} (body : M A) (matches : Exn -> bool) (handler : Exn -> M A)
  : M A :=
  fun s => match body s with
           | (Ok a, s') => (Ok a, s')
           | (Raise e, s') => if matches e then handler e s' else (Raise e, s')
           end.

(** [except Exception] matches every exception modelled. *)
Definition any_Exception (e : Exn) : bool := true.

(** Record the call, then ask the environment with the history before it. *)
Definition call {A} (ev : Event) (answer : list Event -> Res A) : M A :=
  fun s => (answer (trace s), mkState (trace s ++ [ev]) (heap s)).

Definition heap_alloc (d : dict pyval) : M loc :=
  fun s => (Ok (List.length (heap s)), mkState (trace s) (heap s ++ [d])).

Definition heap_read (p : loc) (h : list (dict pyval)) : dict pyval := nth p h [].

Fixpoint heap_write (p : loc) (d : dict pyval) (h : list (dict pyval))
  : list (dict pyval) :=
  match h, p with
  | [], _ => []
  | _ :: r, O => d :: r
  | x :: r, S p' => x :: heap_write p' d r
  end.

Definition heap_get (p : loc) : M (dict pyval) :=
  fun s => (Ok (heap_read p (heap s)), s).

Definition heap_modify (p : loc) (f : dict pyval -> dict pyval) : M unit :=
  fun s => (Ok tt, mkState (trace s) (heap_write p (f (heap_read p (heap s))) (heap s))).

Definition sleep (seconds : Z) : M unit :=
  call (EvSleep seconds) (fun _ => Ok tt).

(** ** The program *)

Section Program.

Variable env : Env.
Variable cfg : Config.

Definition requests_post (request : Event) : M Response :=
  call request (fun history => env_post env history request).

(** [create_or_update_repo]: the loop over [files_to_commit.items()]. *)
Fixpoint write_files (files : dict str) (commit_message : str) : M unit :=
  match files with
  | [] => ret tt
  | (file_path, content) :: rest =>
      try_except
        (sha <- call (EvGetContents file_path)
                     (fun h => env_get_contents env h file_path) ;;
         call (EvUpdateFile file_path commit_message content sha)
              (fun h => env_update_file env h file_path commit_message content sha))
        is_GithubException
        (fun _ =>
           call (EvCreateFile file_path commit_message content)
                (fun h => env_create_file env h file_path commit_message content)) ;;;
      write_files rest commit_message
  end.

(** The body of the outer [try] of [create_or_update_repo]. *)
Definition create_or_update_repo_body
           (repo_name : str) (files_to_commit : dict str) (commit_message : str)
  : M (option str * option str * option str) :=
  call EvGetUser (env_get_user env) ;;;
  repo <- try_except
            (call (EvGetRepo repo_name) (fun h => env_get_repo env h repo_name))
            is_GithubException
            (fun _ =>
               repo <- call (EvCreateRepo repo_name)
                            (fun h => env_create_repo env h repo_name) ;;
               sleep 2 ;;;
               ret repo) ;;
  write_files files_to_commit commit_message ;;;
  login <- call EvUserLogin (env_user_login env) ;;
  let pages_url := lit "https://" ++ login ++ lit ".github.io/" ++ repo_name ++ lit "/" in
  login' <- call EvUserLogin (env_user_login env) ;;
  let pages_endpoint :=
    lit "https://api.github.com/repos/" ++ login' ++ lit "/" ++ repo_name ++ lit "/pages" in
  response <- requests_post
                (EvPostPages pages_endpoint (lit "token " ++ format_opt (GITHUB_TOKEN cfg))) ;;
  (if status_code response =? 201 then ret tt
   else body <- lift (json response) ;; lift (method_get_message body)) ;;;
  commit_sha <- call EvGetBranch (env_get_branch env) ;;
  ret (Some (html_url repo), Some pages_url, Some commit_sha).

Definition create_or_update_repo
           (repo_name : str) (files_to_commit : dict str) (commit_message : str)
  : M (option str * option str * option str) :=
  try_except (create_or_update_repo_body repo_name files_to_commit commit_message)
             any_Exception
             (fun _ => ret (None, None, None)).

(** How one pass of the loop of [notify_grader] ends. *)
Inductive Attempt := Delivered | Failed.

(** The [for attempt in range(4)] loop, [n] passes left. *)
Fixpoint notify_attempts (n : nat) (delay : Z) (url : str) (payload : loc) : M unit :=
  match n with
  | O => ret tt
  | S n' =>
      outcome <- try_except
                   (body <- heap_get payload ;;
                    response <- requests_post (EvPostNotify url body) ;;
                    if status_code response =? 200 then ret Delivered else ret Failed)
                   is_RequestException
                   (fun _ => ret Failed) ;;
      match outcome with
      | Delivered => ret tt
      | Failed => sleep delay ;;; notify_attempts n' (delay * 2) url payload
      end
  end.

Definition notify_grader (url : str) (payload : loc) (error_message : option str)
  : M unit :=
  (if truthy error_message
   then heap_modify payload
          (fun d => dict_set d (lit "error") (pyval_of_opt error_message))
   else ret tt) ;;;
  notify_attempts 4 1 url payload.

Record TaskRequest := mkTaskRequest {
  email : str;
  secret : str;
  task : str;
  round : Z;
  nonce : str;
  brief : str;
  checks : list pyobj;
  evaluation_url : str;
  attachments : list Attachment
}.

Definition opt_str_eqb (a b : option str) : bool :=
  match a, b with
  | Some x, Some y => str_eqb x y
  | None, None => true
  | _, _ => false
  end.

(** [handle_task_request]: the response, and the background tasks after the
    call; [background_tasks.add_task] appends. *)
Definition handle_task_request (request : TaskRequest) (background_tasks : list TaskRequest)
  : dict str * list TaskRequest :=
  if negb (opt_str_eqb (Some (secret request)) (MY_SECRET cfg)) then
    ([(lit "status", lit "error"); (lit "message", lit "Invalid secret")],
     background_tasks)
  else
    ([(lit "status", lit "Request received. Processing in background.")],
     background_tasks ++ [request]).

Definition prompt_content (request : TaskRequest) (attachment_info : str) : str :=
  text_lines
    [ [];
      lit "        You are an expert web developer. Your task is to generate a single, self-contained HTML file named 'index.html' based on the following brief.";
      lit "        The final output must be ONLY the raw HTML code, with no explanations, comments, or markdown.";
      lit "        **Brief:** " ]
  ++ brief request
  ++ text_lines
    [ [];
      lit "        **Attachments:** Your code should fetch files like " ]
  ++ attachment_info
  ++ text_lines
    [ lit " from the same directory (e.g., './data.csv').";
      lit "        " ].

Definition readme_content (request : TaskRequest) (repo_name : str) : str :=
  text_lines
    [ [];
      lit "        # Project: " ]
  ++ repo_name
  ++ text_lines
    [ [];
      [];
      lit "        ## Summary";
      lit "        This project was auto-generated for the TDS Project 1 in response to the brief:";
      lit "        " ++ [dquote] ]
  ++ brief request
  ++ text_lines
    [ [dquote];
      [];
      lit "        ## Usage";
      lit "        This is a static site. The deployed version is available via GitHub Pages.";
      [];
      lit "        ## Code Explanation";
      lit "        The `index.html` file is a self-contained application generated by an LLM.";
      lit "        Any attachments, like `data.csv`, are fetched by the HTML file.";
      [];
      lit "        ## License";
      lit "        This project is licensed under the MIT License.";
      lit "        " ].

(** The two [if] statements that remove the code fences. *)
Definition strip_fences (generated_code : str) : str :=
  let generated_code :=
    if startswith generated_code (lit "```html")
    then slice_from 7 generated_code else generated_code in
  if endswith generated_code (lit "```")
  then slice_to_neg 3 generated_code else generated_code.

(** [response.json()['choices'][0]['message']['content']] *)
Definition first_choice_content (response : Response) : Res pyobj :=
  res_bind (json response) (fun body =>
  res_bind (getitem_str body (lit "choices")) (fun choices =>
  res_bind (getitem_0 choices) (fun choice =>
  res_bind (getitem_str choice (lit "message")) (fun message =>
  getitem_str message (lit "content"))))).

(** The request to the generation service: [headers] and [data]. *)
Definition llm_request (request : TaskRequest) : Event :=
  let attachment_info :=
    join [newline] (map (fun a => lit "File: " ++ att_name a) (attachments request)) in
  EvPostLLM AI_PIPE_URL
    (lit "Bearer " ++ format_opt (AI_PIPE_TOKEN cfg))
    (lit "gpt-3.5-turbo")
    (lit "You are an expert web developer who returns only raw HTML code for 'index.html'.")
    (prompt_content request attachment_info).

(** The body of the first [try] of [process_task_in_background]. *)
Definition generate_code (request : TaskRequest) : M str :=
  response <- requests_post (llm_request request) ;;
  if negb (status_code response =? 200) then
    raise (mkExn PlainException
             (lit "AI Pipe API Error: " ++ str_of_int (status_code response)
              ++ lit " - " ++ text response))
  else
    content <- lift (first_choice_content response) ;;
    generated_code <- lift (method_strip content) ;;
    ret (strip_fences generated_code).

(** The loop over [request.attachments]. *)
Fixpoint add_attachments (atts : list Attachment) (files_to_commit : dict str)
  : Res (dict str) :=
  match atts with
  | [] => Ok files_to_commit
  | attachment :: rest =>
      res_bind (decode_attachment attachment) (fun content =>
      match content with
      | Some (c :: s) =>                       (* [if content:] holds *)
          add_attachments rest
            (dict_set files_to_commit (att_name attachment) (c :: s))
      | _ => add_attachments rest files_to_commit   (* [None] or the empty text *)
      end)
  end.

(** The files handed to the publisher. *)
Definition build_files (request : TaskRequest) (generated_code : str) : Res (dict str) :=
  add_attachments (attachments request)
    [ (lit "index.html", generated_code);
      (lit "README.md", readme_content request (task request));
      (lit "LICENSE", MIT_LICENSE_TEXT) ].

(** The body of the second [try] of [process_task_in_background]. *)
Definition deploy (request : TaskRequest) (notification_payload : loc)
           (generated_code : str) : M unit :=
  let repo_name := task request in
  let commit_message :=
    lit "Round " ++ str_of_int (round request) ++ lit ": " ++ brief request in
  files_to_commit <- lift (build_files request generated_code) ;;
  result <- create_or_update_repo repo_name files_to_commit commit_message ;;
  let '(repo_url, pages_url, commit_sha) := result in
  if negb (truthy repo_url) then
    raise (mkExn PlainException (lit "Failed to create or update GitHub repository."))
  else
    heap_modify notification_payload
      (fun d => dict_update d
                  [ (lit "repo_url", pyval_of_opt repo_url);
                    (lit "commit_sha", pyval_of_opt commit_sha);
                    (lit "pages_url", pyval_of_opt pages_url) ]) ;;;
    notify_grader (evaluation_url request) notification_payload None.

(** The dictionary [notification_payload] as it is created. *)
Definition initial_payload (request : TaskRequest) : dict pyval :=
  [ (lit "email", PStr (email request));
    (lit "task", PStr (task request));
    (lit "round", PInt (round request));
    (lit "nonce", PStr (nonce request)) ].

Definition process_task_in_background (request : TaskRequest) : M unit :=
  notification_payload <- heap_alloc (initial_payload request) ;;
  fun s =>
    match generate_code request s with
    | (Raise e, s1) =>
        notify_grader (evaluation_url request) notification_payload
          (Some (lit "LLM generation failed: " ++ exn_str e)) s1
    | (Ok generated_code, s1) =>
        try_except
          (deploy request notification_payload generated_code)
          any_Exception
          (fun e =>
             notify_grader (evaluation_url request) notification_payload
               (Some (lit "Deployment failed: " ++ exn_str e))) s1
    end.

(** The framework runs the tasks that the handler scheduled, in order,
    after the response has been produced. *)
Fixpoint run_background_tasks (tasks : list TaskRequest) : M unit :=
  match tasks with
  | [] => ret tt
  | request :: rest => process_task_in_background request ;;; run_background_tasks rest
  end.

(** One inbound request: the synchronous response, then the background work. *)
Definition serve (request : TaskRequest) : M (dict str) :=
  let '(response, tasks) := handle_task_request request [] in
  run_background_tasks tasks ;;;
  ret response.

End Program.

(** ** Vocabulary of the statements about the notifier *)

(** The answer of the callback endpoint to one attempt, given the history:
    delivered on HTTP 200; failed on another status or on an exception of
    the [requests] library. *)
Definition delivered (env : Env) (history : list Event) (request : Event) : bool :=
  match env_post env history request with
  | Ok response => status_code response =? 200
  | Raise _ => false
  end.

Definition failed (env : Env) (history : list Event) (request : Event) : bool :=
  match env_post env history request with
  | Ok response => negb (status_code response =? 200)
  | Raise e => is_RequestException e
  end.

(** The calls of [n] attempts none of which is delivered: each attempt is
    followed by a wait, and the wait doubles. *)
Fixpoint schedule (n : nat) (delay : Z) (post : Event) : list Event :=
  match n with
  | O => []
  | S n' => post :: EvSleep delay :: schedule n' (delay * 2) post
  end.

Definition retry_schedule (url : str) (body : dict pyval) : list Event :=
  schedule 4 1 (EvPostNotify url body).

Definition is_notify_post (ev : Event) : bool :=
  match ev with EvPostNotify _ _ => true | _ => false end.

Definition count_posts (evs : list Event) : nat :=
  List.length (filter is_notify_post evs).

(** ** Vocabulary of the statements about generation and publishing *)

(** [Some rest] when [s] is [p] followed by [rest]. *)
Fixpoint remove_prefix (p s : str) : option str :=
  match p, s with
  | [], _ => Some s
  | c :: p', d :: s' => if c =? d then remove_prefix p' s' else None
  | _ :: _, [] => None
  end.

Definition remove_suffix (p s : str) : option str :=
  option_map (@rev Z) (remove_prefix (rev p) (rev s)).

(** Fence removal as the specification words it: a leading [```html] is
    removed when present, then a trailing [```] when present, once each. *)
Definition unfence (s : str) : str :=
  let s1 := match remove_prefix (lit "```html") s with Some r => r | None => s end in
  match remove_suffix (lit "```") s1 with Some r => r | None => s1 end.

(** A call to GitHub: repository lookup or creation, file reads and
    writes, the hosting request, the commit lookup. *)
Definition is_repo_event (ev : Event) : bool :=
  match ev with
  | EvGetUser | EvGetRepo _ | EvCreateRepo _ | EvGetContents _
  | EvUpdateFile _ _ _ _ | EvCreateFile _ _ _ | EvUserLogin | EvGetBranch
  | EvPostPages _ _ => true
  | _ => false
  end.

(** The file written by a call, if it writes one: path and content. *)
Definition written_file (ev : Event) : option (str * str) :=
  match ev with
  | EvUpdateFile path _ content _ => Some (path, content)
  | EvCreateFile path _ content => Some (path, content)
  | _ => None
  end.

(** The digits of the base64 alphabet. *)
Definition is_b64_digit (c : Z) : bool :=
  negb (c =? BASE64_PAD) && (table_a2b_base64 c <? 64).

Definition count_digits (s : str) : nat := List.length (filter is_b64_digit s).

(** Base64 text as RFC 4648 defines it: groups of four characters, digits
    only, the last group ending in at most two pads. *)
Fixpoint rfc4648_wellformed (s : str) : bool :=
  match s with
  | [] => true
  | [a; b; c; d] =>
      is_b64_digit a && is_b64_digit b
      && ((is_b64_digit c && (is_b64_digit d || (d =? BASE64_PAD)))
          || ((c =? BASE64_PAD) && (d =? BASE64_PAD)))
  | a :: b :: c :: d :: rest =>
      is_b64_digit a && is_b64_digit b && is_b64_digit c && is_b64_digit d
      && rfc4648_wellformed rest
  | _ => false
  end.

(** ** Vocabulary of the statements about traces *)

(** Every call that [m] makes satisfies [Q]. *)
Definition emits {A} (Q : Event -> Prop) (m : M A) : Prop :=
  forall s, exists evs, trace (snd (m s)) = trace s ++ evs /\ Forall Q evs.

(** The notifier only posts to the callback URL and waits. *)
Definition notifier_event (url : str) (ev : Event) : Prop :=
  (exists body, ev = EvPostNotify url body) \/ (exists w, ev = EvSleep w).

(** The publisher only talks to GitHub, and the files it writes are
    entries of the mapping it was given. *)
Definition publisher_event (files : dict str) (ev : Event) : Prop :=
  (is_repo_event ev = true \/ exists w, ev = EvSleep w)
  /\ forall path content, written_file ev = Some (path, content) ->
                          In (path, content) files.

(** The callback only fails in ways [notify_grader] handles. *)
Definition callback_contained (env : Env) : Prop :=
  forall history url body,
    match env_post env history (EvPostNotify url body) with
    | Ok _ => True
    | Raise e => is_RequestException e = true
    end.

(** [m] leaves every dictionary of the heap as it is. *)
Definition keeps_heap {A} (m : M A) : Prop :=
  forall s, heap (snd (m s)) = heap s.

(** ** Concrete environments and requests for the examples *)

(** A successful answer of the generation service with one choice. *)
Definition llm_response (content : str) : Response :=
  mkResponse 200 []
    (Ok (JDict [(lit "choices",
                 JList [JDict [(lit "message",
                                JDict [(lit "content", JStr content)])]])])).

(** An account without the repository: it is created, every file is new,
    hosting is enabled.  The generation service and the callback endpoint
    answer as given. *)
Definition demo_env (llm : Res Response) (callback : list Event -> Res Response) : Env :=
  mkEnv
    (fun _ => Ok tt)
    (fun _ _ => Raise (mkExn GithubException (lit "404")))
    (fun _ name => Ok (mkRepo (lit "https://github.com/octocat/" ++ name)))
    (fun _ _ => Raise (mkExn GithubException (lit "404")))
    (fun _ _ _ _ _ => Ok tt)
    (fun _ _ _ _ => Ok tt)
    (fun _ => Ok (lit "octocat"))
    (fun _ => Ok (lit "0a1b2c3"))
    (fun history request =>
       match request with
       | EvPostLLM _ _ _ _ _ => llm
       | EvPostPages _ _ => Ok (mkResponse 201 [] (Ok (JDict [])))
       | _ => callback history
       end).

Definition always_200 (history : list Event) : Res Response :=
  Ok (mkResponse 200 [] (Ok (JDict []))).

Definition always_503 (history : list Event) : Res Response :=
  Ok (mkResponse 503 [] (Ok (JDict []))).

(** The first attempt fails with an exception that is not one of the
    [requests] library; later attempts are answered with 200. *)
Definition raises_once (history : list Event) : Res Response :=
  if existsb is_notify_post history then always_200 history
  else Raise (mkExn OtherException (lit "unexpected")).

Definition demo_cfg : Config :=
  mkConfig (Some (lit "s3cret")) (Some (lit "ghp_token")) (Some (lit "pipe_token")).

Definition demo_request (atts : list Attachment) : TaskRequest :=
  mkTaskRequest (lit "a@b.c") (lit "s3cret") (lit "demo-site") 1 (lit "n-1")
                (lit "a calculator") [] (lit "https://grader.example/cb") atts.

Definition empty_state : State := mkState [] [].

(** ** Vocabulary of further statements *)

(** The characters of a payload that the base64 decoder looks at: the
    digits of the alphabet and the pad. *)
Definition significant (c : Z) : bool := (c =? BASE64_PAD) || is_b64_digit c.

(** The payload dictionary still has the four fields it was created with. *)
Definition carries_job_fields
           (email task : str) (round : Z) (nonce : str) (body : dict pyval) : Prop :=
  dict_get body (lit "email") = Some (PStr email)
  /\ dict_get body (lit "task") = Some (PStr task)
  /\ dict_get body (lit "round") = Some (PInt round)
  /\ dict_get body (lit "nonce") = Some (PStr nonce).

(** [m], started with a heap that satisfies [I], ends with such a heap, and
    every call it makes satisfies [Q]. *)
Definition maintains {A} (I : list (dict pyval) -> Prop) (Q : Event -> Prop) (m : M A)
  : Prop :=
  forall s, I (heap s) ->
            I (heap (snd (m s)))
            /\ exists evs, trace (snd (m s)) = trace s ++ evs /\ Forall Q evs.

(** An account whose answers are given: the account lookup, the repository
    lookup, the reading and the updating of a file, the hosting request.
    Creation, login and branch lookup succeed; the generation service
    returns a page and the callback answers 200. *)
Definition account_env (user : Res unit) (lookup : Res Repo)
           (contents : str -> Res str) (update : Res unit) (pages : Res Response)
  : Env :=
  mkEnv
    (fun _ => user)
    (fun _ _ => lookup)
    (fun _ name => Ok (mkRepo (lit "https://github.com/octocat/" ++ name)))
    (fun _ path => contents path)
    (fun _ _ _ _ _ => update)
    (fun _ _ _ _ => Ok tt)
    (fun _ => Ok (lit "octocat"))
    (fun _ => Ok (lit "0a1b2c3"))
    (fun history request =>
       match request with
       | EvPostLLM _ _ _ _ _ => Ok (llm_response (lit "<p>ok</p>"))
       | EvPostPages _ _ => pages
       | _ => always_200 history
       end).

Definition not_found : Exn := mkExn GithubException (lit "404").

Definition demo_repo : Repo := mkRepo (lit "https://github.com/octocat/demo-site").

Definition pages_created : Res Response := Ok (mkResponse 201 [] (Ok (JDict []))).

(** The part of [create_or_update_repo_body] that follows the lookup or
    creation of the repository: the file loop, the hosting request, the
    commit lookup and the result. *)
Definition publish_into (env : Env) (cfg : Config) (repo : Repo)
           (repo_name : str) (files_to_commit : dict str) (commit_message : str)
  : M (option str * option str * option str) :=
  write_files env files_to_commit commit_message ;;;
  login <- call EvUserLogin (env_user_login env) ;;
  let pages_url := lit "https://" ++ login ++ lit ".github.io/" ++ repo_name ++ lit "/" in
  login' <- call EvUserLogin (env_user_login env) ;;
  let pages_endpoint :=
    lit "https://api.github.com/repos/" ++ login' ++ lit "/" ++ repo_name ++ lit "/pages" in
  response <- requests_post env
                (EvPostPages pages_endpoint (lit "token " ++ format_opt (GITHUB_TOKEN cfg))) ;;
  (if status_code response =? 201 then ret tt
   else body <- lift (json response) ;; lift (method_get_message body)) ;;;
  commit_sha <- call EvGetBranch (env_get_branch env) ;;
  ret (Some (html_url repo), Some pages_url, Some commit_sha).

Definition is_create_repo (ev : Event) : bool :=
  match ev with EvCreateRepo _ => true | _ => false end.

Definition is_pages_post (ev : Event) : bool :=
  match ev with EvPostPages _ _ => true | _ => false end.

(** ** Vocabulary of the statements about rejected payloads and trimming *)

(** A pad sequence that ends a group of four, for text read from position
    [q] of a group: a pad where the third digit of a group has been read,
    or two pads in a row where the second has. *)
Definition pad_completes (q : nat) (s : str) : Prop :=
  exists pre post,
    s = pre ++ BASE64_PAD :: post
    /\ (((q + count_digits pre) mod 4 = 3)%nat
        \/ (((q + count_digits pre) mod 4 = 2)%nat
            /\ exists post', post = BASE64_PAD :: post')).

(** Base64 text that ends inside a group: with every character that is
    neither a digit nor a pad left out, the number of digits is not a
    multiple of four and no pad sequence ends a group. *)
Definition incomplete_base64 (encoded : str) : Prop :=
  (count_digits (filter significant encoded) mod 4 <> 0)%nat
  /\ ~ pad_completes 0 (filter significant encoded).

(** The payloads for which the decoder yields no content. *)
Definition Malformed (url : str) : Prop :=
  match find_comma url with
  | None => True
  | Some (_, encoded) =>
      forallb is_ascii encoded = false
      \/ (forallb is_ascii encoded = true /\ incomplete_base64 encoded)
      \/ (exists raw, b64decode encoded = Ok raw /\ utf8_decode raw = None)
  end.

(** [core] is [content] without its leading and trailing whitespace. *)
Definition is_trim_of (content core : str) : Prop :=
  exists pre post,
    content = pre ++ core ++ post
    /\ forallb isspace pre = true
    /\ forallb isspace post = true
    /\ (forall c rest, core = c :: rest -> isspace c = false)
    /\ (forall init c, core = init ++ [c] -> isspace c = false).

(** A callback that answers 503 twice and then fails with an exception that
    is not one of the requests library. *)
Definition fails_then_raises (history : list Event) : Res Response :=
  if Nat.ltb (count_posts history) 2 then always_503 history
  else Raise (mkExn OtherException (lit "unexpected")).

(* ================================================================= *)
(** * Theorems *)

Example decode_hi :
  decode_attachment (mkAttachment (lit "a.txt") (lit "data:text/plain;base64,aGk="))
  = Ok (Some (lit "hi")).
Proof. reflexivity. Qed.

(** ** Proofs: codecs *)

Lemma all_below_spec n P :
  all_below n P = true -> forall z, 0 <= z < Z.of_nat n -> P z = true.
Proof.
  induction n as [|k IH]; simpl; intros H z Hz; [lia|].
  apply andb_true_iff in H as [Hk Hrest].
  destruct (Z.eq_dec z (Z.of_nat k)) as [->|Hne]; [assumption|].
  apply IH; [assumption|lia].
Qed.

Lemma all_below2_spec n m (P : Z -> Z -> bool) :
  all_below n (fun a => all_below m (P a)) = true ->
  forall a b, 0 <= a < Z.of_nat n -> 0 <= b < Z.of_nat m -> P a b = true.
Proof.
  intros H a b Ha Hb.
  apply (all_below_spec m (P a)); [|assumption].
  apply (all_below_spec n (fun a => all_below m (P a))); assumption.
Qed.

Lemma b64_digit_props i :
  0 <= i < 64 ->
  table_a2b_base64 (b64_digit i) = i
  /\ (b64_digit i =? BASE64_PAD) = false
  /\ is_ascii (b64_digit i) = true.
Proof.
  intros Hi.
  assert (H : (table_a2b_base64 (b64_digit i) =? i)
              && negb (b64_digit i =? BASE64_PAD)
              && is_ascii (b64_digit i) = true).
  { revert i Hi. apply (all_below_spec 64). vm_compute. reflexivity. }
  apply andb_true_iff in H as [H H3]. apply andb_true_iff in H as [H1 H2].
  apply Z.eqb_eq in H1. apply negb_true_iff in H2. auto.
Qed.

Lemma merge_2_4 a c :
  0 <= a < 64 -> 0 <= c < 64 ->
  Z.lor (Z.shiftl a 2) (Z.shiftr c 4) mod 256 = a * 4 + c / 16.
Proof.
  intros Ha Hc. apply Z.eqb_eq. revert a c Ha Hc.
  apply (all_below2_spec 64 64 (fun a c =>
           Z.lor (Z.shiftl a 2) (Z.shiftr c 4) mod 256 =? a * 4 + c / 16)).
  vm_compute. reflexivity.
Qed.

Lemma merge_4_2 a c :
  0 <= a < 16 -> 0 <= c < 64 ->
  Z.lor (Z.shiftl a 4) (Z.shiftr c 2) mod 256 = a * 16 + c / 4.
Proof.
  intros Ha Hc. apply Z.eqb_eq. revert a c Ha Hc.
  apply (all_below2_spec 16 64 (fun a c =>
           Z.lor (Z.shiftl a 4) (Z.shiftr c 2) mod 256 =? a * 16 + c / 4)).
  vm_compute. reflexivity.
Qed.

Lemma merge_6_0 a c :
  0 <= a < 4 -> 0 <= c < 64 ->
  Z.lor (Z.shiftl a 6) c mod 256 = a * 64 + c.
Proof.
  intros Ha Hc. apply Z.eqb_eq. revert a c Ha Hc.
  apply (all_below2_spec 4 64 (fun a c =>
           Z.lor (Z.shiftl a 6) c mod 256 =? a * 64 + c)).
  vm_compute. reflexivity.
Qed.

Lemma land_15 c : 0 <= c -> Z.land c 15 = c mod 16.
Proof. intros _. change 15 with (Z.ones 4). rewrite Z.land_ones by lia. reflexivity. Qed.

Lemma land_3 c : 0 <= c -> Z.land c 3 = c mod 4.
Proof. intros _. change 3 with (Z.ones 2). rewrite Z.land_ones by lia. reflexivity. Qed.

(** One step of the decoder on a digit of the alphabet. *)
Lemma a2b_loop_digit i rest q l p out :
  0 <= i < 64 ->
  a2b_loop (b64_digit i :: rest) q l p out =
  match q with
  | 0%nat => a2b_loop rest 1 i 0 out
  | 1%nat => a2b_loop rest 2 (Z.land i 15) 0
               (out ++ [Z.lor (Z.shiftl l 2) (Z.shiftr i 4) mod 256])
  | 2%nat => a2b_loop rest 3 (Z.land i 3) 0
               (out ++ [Z.lor (Z.shiftl l 4) (Z.shiftr i 2) mod 256])
  | _ => a2b_loop rest 0 0 0 (out ++ [Z.lor (Z.shiftl l 6) i mod 256])
  end.
Proof.
  intros Hi. destruct (b64_digit_props i Hi) as (Ht & Hp & _).
  cbn [a2b_loop]. rewrite Hp, Ht.
  destruct (Z.leb_spec 64 i); [lia|]. reflexivity.
Qed.

Lemma list_ind3 {A} (P : list A -> Prop) :
  P [] -> (forall a, P [a]) -> (forall a b, P [a; b]) ->
  (forall a b c l, P l -> P (a :: b :: c :: l)) ->
  forall l, P l.
Proof.
  intros H0 H1 H2 H3.
  refine (fix F l := match l with
                     | [] => H0
                     | [a] => H1 a
                     | [a; b] => H2 a b
                     | a :: b :: c :: l' => H3 a b c l' (F l')
                     end).
Qed.

Lemma is_byte_range b : is_byte b = true -> 0 <= b < 256.
Proof. unfold is_byte. intros H. apply andb_true_iff in H as [H1 H2]. lia. Qed.

Lemma a2b_loop_pad rest q l p out :
  a2b_loop (BASE64_PAD :: rest) q l p out =
  if Nat.leb 2 q then
    if Nat.leb 4 (q + S p) then Ok out else a2b_loop rest q l (S p) out
  else a2b_loop rest q l p out.
Proof. reflexivity. Qed.

Ltac a2b_step :=
  first [ rewrite a2b_loop_digit by lia | rewrite a2b_loop_pad ];
  cbv beta iota; cbn [Nat.leb Nat.add].

Lemma a2b_loop_b64encode bs :
  forallb is_byte bs = true ->
  forall out, a2b_loop (b64encode bs) 0 0 0 out = Ok (out ++ bs).
Proof.
  induction bs as [|b1|b1 b2|b1 b2 b3 rest IH] using list_ind3; intros Hb out.
  - simpl. rewrite app_nil_r. reflexivity.
  - simpl in Hb. rewrite andb_true_r in Hb. apply is_byte_range in Hb.
    cbn [b64encode]. do 4 a2b_step.
    rewrite merge_2_4 by lia. do 3 f_equal. lia.
  - simpl in Hb. rewrite andb_true_r in Hb. apply andb_true_iff in Hb as [Hb1 Hb2].
    apply is_byte_range in Hb1, Hb2.
    cbn [b64encode]. do 4 a2b_step.
    rewrite merge_2_4, land_15, merge_4_2 by lia.
    rewrite <- app_assoc. cbn [app]. do 3 f_equal; [lia|]. f_equal. lia.
  - cbn [forallb] in Hb.
    apply andb_true_iff in Hb as [Hb1 Hb]. apply andb_true_iff in Hb as [Hb2 Hb].
    apply andb_true_iff in Hb as [Hb3 Hb].
    apply is_byte_range in Hb1, Hb2, Hb3.
    cbn [b64encode]. do 4 a2b_step.
    rewrite IH by assumption.
    rewrite merge_2_4, land_15, merge_4_2, land_3, merge_6_0 by lia.
    rewrite <- !app_assoc. cbn [app]. do 3 f_equal; [lia|].
    f_equal; [lia|]. f_equal. lia.
Qed.

(** *** UTF-8 *)

Lemma encodable_range c :
  encodable c = true -> 0 <= c < 55296 \/ 57344 <= c <= 1114111.
Proof.
  unfold encodable. intros H.
  apply orb_true_iff in H as [H|H]; apply andb_true_iff in H as [H1 H2].
  - left. apply Z.leb_le in H1. apply Z.ltb_lt in H2. lia.
  - right. apply Z.leb_le in H1, H2. lia.
Qed.

Ltac decide_cmp :=
  repeat match goal with
         | |- context [?a <? ?b] =>
             first [ replace (a <? b) with true by (symmetry; apply Z.ltb_lt; lia)
                   | replace (a <? b) with false by (symmetry; apply Z.ltb_ge; lia) ]
         | |- context [?a <=? ?b] =>
             first [ replace (a <=? b) with true by (symmetry; apply Z.leb_le; lia)
                   | replace (a <=? b) with false by (symmetry; apply Z.leb_gt; lia) ]
         | |- context [?a =? ?b] =>
             first [ replace (a =? b) with true by (symmetry; apply Z.eqb_eq; lia)
                   | replace (a =? b) with false by (symmetry; apply Z.eqb_neq; lia) ]
         end.

Lemma split64 c :
  0 <= c -> exists q r, c / 64 = q /\ c mod 64 = r /\ c = 64 * q + r /\ 0 <= r < 64 /\ 0 <= q.
Proof.
  intros Hc. exists (c / 64), (c mod 64).
  pose proof (Z.div_mod c 64 ltac:(lia)).
  pose proof (Z.mod_pos_bound c 64 ltac:(lia)).
  pose proof (Z.div_pos c 64 Hc ltac:(lia)). repeat split; lia.
Qed.

Ltac digits64 c q r :=
  let H1 := fresh in let H2 := fresh in let H3 := fresh in
  destruct (split64 c ltac:(lia)) as (q & r & H1 & H2 & H3 & ? & ?);
  rewrite ?H1, ?H2; clear H1 H2.

Lemma utf8_encode_char_digits c :
  utf8_encode_char c =
  if c <? 128 then [c]
  else if c <? 2048 then [192 + c / 64; 128 + c mod 64]
  else if c <? 65536 then [224 + c / 64 / 64; 128 + c / 64 mod 64; 128 + c mod 64]
  else [240 + c / 64 / 64 / 64; 128 + c / 64 / 64 mod 64; 128 + c / 64 mod 64; 128 + c mod 64].
Proof.
  unfold utf8_encode_char. rewrite !Z.div_div by lia. reflexivity.
Qed.

Lemma utf8_decode_encode_char c r :
  encodable c = true ->
  utf8_decode (utf8_encode_char c ++ r) = option_map (cons c) (utf8_decode r).
Proof.
  intros Hc. apply encodable_range in Hc.
  rewrite utf8_encode_char_digits.
  destruct (Z.ltb_spec c 128); [|destruct (Z.ltb_spec c 2048);
                                  [|destruct (Z.ltb_spec c 65536)]].
  - cbn [app utf8_decode]. decide_cmp. reflexivity.
  - digits64 c q1 r1. subst c.
    cbn [app utf8_decode]; unfold is_cont. decide_cmp. cbn [andb orb negb]. do 2 f_equal. lia.
  - digits64 c q1 r1. digits64 q1 q2 r2. subst c q1.
    cbn [app utf8_decode]; unfold is_cont.
    destruct (Z.eq_dec q2 0); destruct (Z.eq_dec q2 13); try lia;
      decide_cmp; cbn [andb orb negb]; do 2 f_equal; lia.
  - digits64 c q1 r1. digits64 q1 q2 r2. digits64 q2 q3 r3. subst c q1 q2.
    cbn [app utf8_decode]; unfold is_cont.
    destruct (Z.eq_dec q3 0); destruct (Z.eq_dec q3 4); try lia;
      decide_cmp; cbn [andb orb negb]; do 2 f_equal; lia.
Qed.

Lemma utf8_decode_encode s :
  forallb encodable s = true -> utf8_decode (utf8_encode s) = Some s.
Proof.
  induction s as [|c s IH]; intros H; [reflexivity|].
  cbn [forallb] in H. apply andb_true_iff in H as [Hc Hs].
  unfold utf8_encode. cbn [flat_map].
  rewrite utf8_decode_encode_char by assumption.
  fold (utf8_encode s). rewrite IH by assumption. reflexivity.
Qed.

Lemma utf8_encode_char_bytes c :
  encodable c = true -> forallb is_byte (utf8_encode_char c) = true.
Proof.
  intros Hc. apply encodable_range in Hc.
  rewrite utf8_encode_char_digits. unfold is_byte.
  destruct (Z.ltb_spec c 128); [|destruct (Z.ltb_spec c 2048);
                                  [|destruct (Z.ltb_spec c 65536)]].
  - cbn [forallb]. decide_cmp. reflexivity.
  - digits64 c q1 r1. subst c. cbn [forallb]. decide_cmp. reflexivity.
  - digits64 c q1 r1. digits64 q1 q2 r2. subst c q1. cbn [forallb]. decide_cmp. reflexivity.
  - digits64 c q1 r1. digits64 q1 q2 r2. digits64 q2 q3 r3. subst c q1 q2.
    cbn [forallb]. decide_cmp. reflexivity.
Qed.

Lemma utf8_encode_bytes s :
  forallb encodable s = true -> forallb is_byte (utf8_encode s) = true.
Proof.
  induction s as [|c s IH]; intros H; [reflexivity|].
  cbn [forallb] in H. apply andb_true_iff in H as [Hc Hs].
  unfold utf8_encode. cbn [flat_map]. rewrite forallb_app.
  rewrite utf8_encode_char_bytes by assumption. apply IH. assumption.
Qed.

(** *** Splitting at the first comma *)

Lemma find_comma_app h t :
  ~ In comma h -> find_comma (h ++ comma :: t) = Some (h, t).
Proof.
  induction h as [|c h IH]; intros Hn; cbn [app find_comma].
  - rewrite Z.eqb_refl. reflexivity.
  - destruct (Z.eqb_spec c comma) as [->|Hne].
    + exfalso. apply Hn. left. reflexivity.
    + rewrite IH; [reflexivity|]. intros Hin. apply Hn. right. assumption.
Qed.

Lemma find_comma_none s : ~ In comma s -> find_comma s = None.
Proof.
  induction s as [|c s IH]; intros Hn; cbn [find_comma]; [reflexivity|].
  destruct (Z.eqb_spec c comma) as [->|Hne].
  - exfalso. apply Hn. left. reflexivity.
  - rewrite IH; [reflexivity|]. intros Hin. apply Hn. right. assumption.
Qed.

Lemma b64encode_ascii bs :
  forallb is_byte bs = true -> forallb is_ascii (b64encode bs) = true.
Proof.
  induction bs as [|b1|b1 b2|b1 b2 b3 rest IH] using list_ind3; intros Hb.
  - reflexivity.
  - simpl in Hb. rewrite andb_true_r in Hb. apply is_byte_range in Hb.
    cbn [b64encode forallb].
    rewrite !(fun i H => proj2 (proj2 (b64_digit_props i H))) by lia. reflexivity.
  - simpl in Hb. rewrite andb_true_r in Hb. apply andb_true_iff in Hb as [Hb1 Hb2].
    apply is_byte_range in Hb1, Hb2.
    cbn [b64encode forallb].
    rewrite !(fun i H => proj2 (proj2 (b64_digit_props i H))) by lia. reflexivity.
  - cbn [forallb] in Hb.
    apply andb_true_iff in Hb as [Hb1 Hb]. apply andb_true_iff in Hb as [Hb2 Hb].
    apply andb_true_iff in Hb as [Hb3 Hb].
    apply is_byte_range in Hb1, Hb2, Hb3.
    cbn [b64encode forallb].
    rewrite !(fun i H => proj2 (proj2 (b64_digit_props i H))) by lia.
    rewrite IH by assumption. reflexivity.
Qed.

Lemma b64decode_b64encode bs :
  forallb is_byte bs = true -> b64decode (b64encode bs) = Ok bs.
Proof.
  intros Hb. unfold b64decode, a2b_base64.
  rewrite b64encode_ascii by assumption.
  rewrite a2b_loop_b64encode by assumption. reflexivity.
Qed.

(** C6. For every text [x] that UTF-8 can encode (every code point a Unicode
    scalar value) and every header without a comma, decoding the attachment
    whose payload is the data URI [<header>,<base64 of the UTF-8 of x>]
    returns [x]. *)
Theorem decode_attachment_roundtrip (name header x : str) :
  ~ In comma header ->
  forallb encodable x = true ->
  decode_attachment (mkAttachment name (data_uri header x)) = Ok (Some x).
Proof.
  intros Hh Hx.
  unfold decode_attachment, decode_attachment_body, data_uri, split_comma_1.
  cbn [att_url].
  rewrite find_comma_app by assumption. cbn [unpack2 res_bind].
  rewrite b64decode_b64encode by (apply utf8_encode_bytes; assumption).
  cbn [res_bind]. unfold bytes_decode_utf8.
  rewrite utf8_decode_encode by assumption. reflexivity.
Qed.

(** ** The request handler *)

Lemma str_eqb_eq a b : str_eqb a b = true <-> a = b.
Proof.
  revert b. induction a as [|x a IH]; intros [|y b]; simpl; split; intros H;
    try reflexivity; try discriminate.
  - apply andb_true_iff in H as [Hx Ha]. apply Z.eqb_eq in Hx. apply IH in Ha.
    subst. reflexivity.
  - injection H as -> ->. rewrite Z.eqb_refl. simpl. apply IH. reflexivity.
Qed.

Lemma str_eqb_refl a : str_eqb a a = true.
Proof. apply str_eqb_eq. reflexivity. Qed.

Lemma str_eqb_neq a b : a <> b -> str_eqb a b = false.
Proof.
  intros H. destruct (str_eqb a b) eqn:E; [|reflexivity].
  apply str_eqb_eq in E. contradiction.
Qed.

Lemma opt_str_eqb_eq a b : opt_str_eqb a b = true <-> a = b.
Proof.
  destruct a as [a|], b as [b|]; simpl; split; intros H;
    try reflexivity; try discriminate.
  - apply str_eqb_eq in H. subst. reflexivity.
  - injection H as ->. apply str_eqb_refl.
Qed.

(** C1. When the secret of the request differs from the configured secret
    (also when none is configured) the handler answers with the rejection
    and leaves the background tasks as they were; serving the request then
    makes no call at all: the state, and with it the trace, is unchanged. *)
Theorem handle_task_request_rejects env cfg request background_tasks s :
  Some (secret request) <> MY_SECRET cfg ->
  handle_task_request cfg request background_tasks
  = ([(lit "status", lit "error"); (lit "message", lit "Invalid secret")],
     background_tasks)
  /\ serve env cfg request s
     = (Ok [(lit "status", lit "error"); (lit "message", lit "Invalid secret")], s).
Proof.
  intros Hne.
  assert (E : opt_str_eqb (Some (secret request)) (MY_SECRET cfg) = false).
  { destruct (opt_str_eqb _ _) eqn:E; [|reflexivity].
    apply opt_str_eqb_eq in E. contradiction. }
  unfold serve, handle_task_request. rewrite E. simpl. split; reflexivity.
Qed.

(** ** The repository publisher *)

Lemma bind_ok_inv {A B} (m : M A) (k : A -> M B) s b s' :
  bind m k s = (Ok b, s') ->
  exists a s1, m s = (Ok a, s1) /\ k a s1 = (Ok b, s').
Proof.
  unfold bind. destruct (m s) as [[a|e] s1]; intros H; [|discriminate].
  exists a, s1. split; [reflexivity|assumption].
Qed.

Lemma create_or_update_repo_body_ok env cfg repo_name files msg s result s' :
  create_or_update_repo_body env cfg repo_name files msg s = (Ok result, s') ->
  exists a b c, result = (Some a, Some b, Some c).
Proof.
  unfold create_or_update_repo_body. intros H.
  repeat (apply bind_ok_inv in H as (? & ? & _ & H)).
  unfold ret in H. injection H as <- _. eauto.
Qed.

(** The outer handler turns every exception into a normal return. *)
Lemma create_or_update_repo_returns env cfg repo_name files commit_message s :
  exists result s',
    create_or_update_repo env cfg repo_name files commit_message s = (Ok result, s').
Proof.
  unfold create_or_update_repo, try_except.
  destruct (create_or_update_repo_body env cfg repo_name files commit_message s)
    as [[result|e] s'].
  - exists result, s'. reflexivity.
  - exists (None, None, None), s'. reflexivity.
Qed.

(** C2. Whatever the environment answers or raises, [create_or_update_repo]
    returns normally, and its result is either three values or three
    [None]s. *)
Theorem create_or_update_repo_atomic env cfg repo_name files_to_commit commit_message s :
  exists result s',
    create_or_update_repo env cfg repo_name files_to_commit commit_message s
    = (Ok result, s')
    /\ (result = (None, None, None)
        \/ exists repo_url pages_url commit_sha,
             result = (Some repo_url, Some pages_url, Some commit_sha)).
Proof.
  unfold create_or_update_repo, try_except.
  destruct (create_or_update_repo_body env cfg repo_name files_to_commit commit_message s)
    as [[result|e] s'] eqn:E.
  - exists result, s'. split; [reflexivity|]. right.
    eapply create_or_update_repo_body_ok. eassumption.
  - exists (None, None, None), s'. split; [reflexivity|]. left. reflexivity.
Qed.

(** ** The grader notifier *)

Example retry_schedule_unfolded url body :
  retry_schedule url body =
  [ EvPostNotify url body; EvSleep 1; EvPostNotify url body; EvSleep 2;
    EvPostNotify url body; EvSleep 4; EvPostNotify url body; EvSleep 8 ].
Proof. reflexivity. Qed.

Lemma notify_attempts_step env n d url p s :
  notify_attempts env (S n) d url p s =
  let P := EvPostNotify url (heap_read p (heap s)) in
  match env_post env (trace s) P with
  | Ok r =>
      if status_code r =? 200 then (Ok tt, mkState (trace s ++ [P]) (heap s))
      else notify_attempts env n (d * 2) url p
             (mkState (trace s ++ [P; EvSleep d]) (heap s))
  | Raise e =>
      if is_RequestException e
      then notify_attempts env n (d * 2) url p
             (mkState (trace s ++ [P; EvSleep d]) (heap s))
      else (Raise e, mkState (trace s ++ [P]) (heap s))
  end.
Proof.
  cbn [notify_attempts].
  unfold bind, try_except, heap_get, requests_post, call, sleep, ret. cbn.
  destruct (env_post env (trace s) (EvPostNotify url (heap_read p (heap s))))
    as [r|e]; cbn.
  - destruct (status_code r =? 200); cbn; rewrite <- ?app_assoc; reflexivity.
  - destruct (is_RequestException e); cbn; rewrite <- ?app_assoc; reflexivity.
Qed.

Lemma notify_attempts_failed env n d url p s :
  failed env (trace s) (EvPostNotify url (heap_read p (heap s))) = true ->
  notify_attempts env (S n) d url p s =
  notify_attempts env n (d * 2) url p
    (mkState (trace s ++ [EvPostNotify url (heap_read p (heap s)); EvSleep d]) (heap s)).
Proof.
  unfold failed. intros H. rewrite notify_attempts_step. cbv zeta.
  destruct (env_post env (trace s) _) as [r|e].
  - destruct (status_code r =? 200); [discriminate|reflexivity].
  - rewrite H. reflexivity.
Qed.

Lemma notify_attempts_delivered env n d url p s :
  delivered env (trace s) (EvPostNotify url (heap_read p (heap s))) = true ->
  notify_attempts env (S n) d url p s =
  (Ok tt, mkState (trace s ++ [EvPostNotify url (heap_read p (heap s))]) (heap s)).
Proof.
  unfold delivered. intros H. rewrite notify_attempts_step. cbv zeta.
  destruct (env_post env (trace s) _) as [r|e]; [|discriminate].
  rewrite H. reflexivity.
Qed.

(** Every run of the loop leaves the heap alone and performs an initial
    part of the schedule. *)
Lemma notify_attempts_prefix env url p n :
  forall d s,
    let run := notify_attempts env n d url p s in
    heap (snd run) = heap s
    /\ exists m, (m <= 2 * n)%nat
         /\ trace (snd run)
            = trace s ++ firstn m (schedule n d (EvPostNotify url (heap_read p (heap s)))).
Proof.
  induction n as [|n IH]; intros d s; cbv zeta.
  - cbn. split; [reflexivity|]. exists 0%nat. rewrite app_nil_r. split; [lia|reflexivity].
  - set (P := EvPostNotify url (heap_read p (heap s))).
    assert (Hstop : forall r : Res unit,
               heap (snd (r, mkState (trace s ++ [P]) (heap s))) = heap s
               /\ exists m, (m <= 2 * S n)%nat
                    /\ trace (snd (r, mkState (trace s ++ [P]) (heap s)))
                       = trace s ++ firstn m (schedule (S n) d P)).
    { intros r. split; [reflexivity|]. exists 1%nat. split; [lia|reflexivity]. }
    assert (Hgo : let run := notify_attempts env n (d * 2) url p
                               (mkState (trace s ++ [P; EvSleep d]) (heap s)) in
                  heap (snd run) = heap s
                  /\ exists m, (m <= 2 * S n)%nat
                       /\ trace (snd run) = trace s ++ firstn m (schedule (S n) d P)).
    { cbv zeta.
      destruct (IH (d * 2) (mkState (trace s ++ [P; EvSleep d]) (heap s)))
        as (Hh & m & Hm & Ht).
      cbn [heap trace] in Hh, Ht. fold P in Ht.
      split; [assumption|]. exists (S (S m)). split; [lia|].
      rewrite Ht, <- app_assoc. reflexivity. }
    rewrite notify_attempts_step. cbv zeta. fold P.
    destruct (env_post env (trace s) P) as [r|e];
      [destruct (status_code r =? 200)|destruct (is_RequestException e)];
      first [apply Hstop | apply Hgo].
Qed.

(** When the attempts before the [k]-th one fail and the [k]-th is
    delivered, the loop returns right after it. *)
Lemma notify_attempts_first_success env url p n :
  forall d s k,
    let P := EvPostNotify url (heap_read p (heap s)) in
    (k < n)%nat ->
    (forall j, (j < k)%nat ->
               failed env (trace s ++ firstn (2 * j) (schedule n d P)) P = true) ->
    delivered env (trace s ++ firstn (2 * k) (schedule n d P)) P = true ->
    notify_attempts env n d url p s
    = (Ok tt, mkState (trace s ++ firstn (2 * k + 1) (schedule n d P)) (heap s)).
Proof.
  induction n as [|n IH]; intros d s k P Hk Hfail Hdel; [lia|].
  destruct k as [|k].
  - cbn [Nat.mul firstn] in Hdel. rewrite app_nil_r in Hdel.
    rewrite notify_attempts_delivered by exact Hdel. reflexivity.
  - pose proof (Hfail 0%nat ltac:(lia)) as H0.
    cbn [Nat.mul firstn] in H0. rewrite app_nil_r in H0.
    rewrite notify_attempts_failed by exact H0. fold P.
    rewrite (IH (d * 2) (mkState (trace s ++ [P; EvSleep d]) (heap s)) k).
    + cbn [trace heap]. fold P. f_equal. f_equal.
      replace (2 * S k + 1)%nat with (S (S (2 * k + 1))) by lia.
      cbn [schedule firstn]. rewrite <- app_assoc. reflexivity.
    + lia.
    + intros j Hj. cbn [trace heap]. fold P.
      specialize (Hfail (S j) ltac:(lia)).
      replace (2 * S j)%nat with (S (S (2 * j))) in Hfail by lia.
      cbn [schedule firstn] in Hfail. rewrite <- app_assoc. exact Hfail.
    + cbn [trace heap]. fold P.
      replace (2 * S k)%nat with (S (S (2 * k))) in Hdel by lia.
      cbn [schedule firstn] in Hdel. rewrite <- app_assoc. exact Hdel.
Qed.

(** When every attempt fails, the loop performs the whole schedule. *)
Lemma notify_attempts_all_fail env url p n :
  forall d s,
    let P := EvPostNotify url (heap_read p (heap s)) in
    (forall k, (k < n)%nat ->
               failed env (trace s ++ firstn (2 * k) (schedule n d P)) P = true) ->
    notify_attempts env n d url p s
    = (Ok tt, mkState (trace s ++ schedule n d P) (heap s)).
Proof.
  induction n as [|n IH]; intros d s P Hfail.
  - cbn. rewrite app_nil_r. destruct s; reflexivity.
  - pose proof (Hfail 0%nat ltac:(lia)) as H0.
    cbn [Nat.mul firstn] in H0. rewrite app_nil_r in H0.
    rewrite notify_attempts_failed by exact H0. fold P.
    rewrite (IH (d * 2) (mkState (trace s ++ [P; EvSleep d]) (heap s))).
    + cbn [trace heap schedule]. fold P. rewrite <- app_assoc. reflexivity.
    + intros k Hk. cbn [trace heap]. fold P.
      specialize (Hfail (S k) ltac:(lia)).
      replace (2 * S k)%nat with (S (S (2 * k))) in Hfail by lia.
      cbn [schedule firstn] in Hfail. rewrite <- app_assoc. exact Hfail.
Qed.

Lemma notify_grader_unfold env url p msg s :
  notify_grader env url p msg s =
  notify_attempts env 4 1 url p
    (if truthy msg
     then mkState (trace s)
            (heap_write p (dict_set (heap_read p (heap s)) (lit "error") (pyval_of_opt msg))
                        (heap s))
     else s).
Proof.
  unfold notify_grader, bind, heap_modify, ret.
  destruct (truthy msg); reflexivity.
Qed.

Lemma count_posts_schedule_prefix m n d P :
  (count_posts (firstn m (schedule n d P)) <= n)%nat.
Proof.
  revert m d. induction n as [|n IH]; intros m d.
  - cbn. destruct m; cbn; lia.
  - destruct m as [|[|m]]; cbn [schedule firstn]; unfold count_posts in *.
    + cbn. lia.
    + cbn [filter]. destruct (is_notify_post P); cbn; lia.
    + cbn [filter is_notify_post]. specialize (IH m (d * 2)).
      destruct (is_notify_post P); cbn [List.length]; lia.
Qed.

(** C3. A call of [notify_grader] posts the payload to the callback URL
    and does nothing else but wait: its calls are an initial part of the
    schedule (post, wait 1, post, wait 2, post, wait 4, post, wait 8), so
    there are at most 4 attempts.  An attempt is delivered only on HTTP 200:
    when the attempts before the [k]-th fail (another status, or an
    exception of the requests library) and the [k]-th is answered with 200,
    the call returns right after that post.  When all four attempts fail,
    the call performs the whole schedule, four posts with waits of 1, 2 and
    4 between them and a last wait of 8, and returns. *)
Theorem notify_grader_retries env url payload error_message s :
  let run := notify_grader env url payload error_message s in
  let body := heap_read payload (heap (snd run)) in
  let P := EvPostNotify url body in
  let history k := trace s ++ firstn (2 * k) (retry_schedule url body) in
  (exists evs m,
      trace (snd run) = trace s ++ evs
      /\ evs = firstn m (retry_schedule url body)
      /\ (count_posts evs <= 4)%nat)
  /\ (forall k,
         (k < 4)%nat ->
         (forall j, (j < k)%nat -> failed env (history j) P = true) ->
         delivered env (history k) P = true ->
         fst run = Ok tt
         /\ trace (snd run) = trace s ++ firstn (2 * k + 1) (retry_schedule url body)
         /\ count_posts (firstn (2 * k + 1) (retry_schedule url body)) = S k)
  /\ ((forall k, (k < 4)%nat -> failed env (history k) P = true) ->
      fst run = Ok tt
      /\ trace (snd run)
         = trace s ++ [ P; EvSleep 1; P; EvSleep 2; P; EvSleep 4; P; EvSleep 8 ]).
Proof.
  cbv zeta. rewrite notify_grader_unfold.
  set (s1 := if truthy error_message then _ else s).
  assert (Ht : trace s1 = trace s) by (subst s1; destruct (truthy error_message); reflexivity).
  destruct (notify_attempts_prefix env url payload 4 1 s1) as (Hh & m & Hm & Hp).
  rewrite Hh. unfold retry_schedule. rewrite <- Ht.
  split; [|split].
  - exists (firstn m (schedule 4 1 (EvPostNotify url (heap_read payload (heap s1))))), m.
    split; [exact Hp|]. split; [reflexivity|]. apply count_posts_schedule_prefix.
  - intros k Hk Hfail Hdel.
    rewrite (notify_attempts_first_success env url payload 4 1 s1 k Hk Hfail Hdel).
    cbn [fst snd trace]. split; [reflexivity|]. split; [reflexivity|].
    destruct k as [|[|[|[|k]]]]; try lia; reflexivity.
  - intros Hfail.
    rewrite (notify_attempts_all_fail env url payload 4 1 s1 Hfail).
    split; reflexivity.
Qed.

(** *** The payload dictionary *)

Lemma dict_get_set_same {V} (d : dict V) k v : dict_get (dict_set d k v) k = Some v.
Proof.
  induction d as [|[k' v'] d IH]; cbn.
  - rewrite str_eqb_refl. reflexivity.
  - destruct (str_eqb k' k) eqn:E; cbn; rewrite E; [reflexivity|exact IH].
Qed.

Lemma dict_get_set_other {V} (d : dict V) k v k' :
  k' <> k -> dict_get (dict_set d k v) k' = dict_get d k'.
Proof.
  intros Hne. induction d as [|[k0 v0] d IH]; cbn.
  - rewrite str_eqb_neq by congruence. reflexivity.
  - destruct (str_eqb k0 k) eqn:E; cbn.
    + apply str_eqb_eq in E. subst k0.
      rewrite str_eqb_neq by congruence. reflexivity.
    + destruct (str_eqb k0 k'); [reflexivity|exact IH].
Qed.

Lemma heap_read_write_same p d h :
  (p < List.length h)%nat -> heap_read p (heap_write p d h) = d.
Proof.
  unfold heap_read. revert p. induction h as [|x h IH]; intros p Hp; cbn in Hp; [lia|].
  destruct p as [|p]; cbn; [reflexivity|]. apply IH. lia.
Qed.

Lemma heap_read_write_other p q d h :
  q <> p -> heap_read q (heap_write p d h) = heap_read q h.
Proof.
  unfold heap_read. revert p q. induction h as [|x h IH]; intros p q Hne.
  - destruct p; reflexivity.
  - destruct p as [|p], q as [|q]; cbn; try reflexivity; try congruence.
    apply IH. congruence.
Qed.

Lemma in_schedule_prefix ev m n d P :
  In ev (firstn m (schedule n d P)) -> ev = P \/ exists w, ev = EvSleep w.
Proof.
  revert m d. induction n as [|n IH]; intros m d Hin.
  - destruct m; cbn in Hin; contradiction.
  - destruct m as [|[|m]]; cbn [schedule firstn] in Hin.
    + contradiction.
    + destruct Hin as [<-|[]]. left. reflexivity.
    + destruct Hin as [<-|[<-|Hin]]; [left; reflexivity|right; eauto|].
      eapply IH. exact Hin.
Qed.

(** C10 (amended). For a valid payload location: when the error message is
    neither [None] nor the empty text, [notify_grader] sets the key
    ["error"] of the caller's dictionary to the message, in place, before
    the first post; every other key and every other dictionary is left as
    it was, and every post carries the dictionary as mutated.  When the
    message is [None] or the empty text, the heap is not changed at all. *)
Theorem notify_grader_payload_frame env url payload error_message s :
  (payload < List.length (heap s))%nat ->
  let s' := snd (notify_grader env url payload error_message s) in
  let before := heap_read payload (heap s) in
  let after := heap_read payload (heap s') in
  (truthy error_message = true ->
   (exists msg, error_message = Some msg /\ msg <> []
                /\ dict_get after (lit "error") = Some (PStr msg))
   /\ (forall k, k <> lit "error" -> dict_get after k = dict_get before k)
   /\ (forall q, q <> payload -> heap_read q (heap s') = heap_read q (heap s))
   /\ (exists evs, trace s' = trace s ++ evs
                   /\ forall url' body, In (EvPostNotify url' body) evs ->
                                        url' = url /\ body = after))
  /\ (truthy error_message = false -> heap s' = heap s).
Proof.
  intros Hp. cbv zeta. rewrite notify_grader_unfold.
  split.
  - intros Htruthy. rewrite Htruthy.
    set (s1 := mkState _ _).
    destruct (notify_attempts_prefix env url payload 4 1 s1) as (Hh & m & Hm & Ht).
    rewrite Hh. subst s1. cbn [heap trace] in *.
    rewrite heap_read_write_same in * by assumption.
    split; [|split; [|split]].
    + destruct error_message as [[|c msg]|]; try discriminate.
      exists (c :: msg). split; [reflexivity|]. split; [discriminate|].
      apply dict_get_set_same.
    + intros k Hk. apply dict_get_set_other. assumption.
    + intros q Hq. apply heap_read_write_other. assumption.
    + eexists. split; [exact Ht|].
      intros url' body Hin. apply in_schedule_prefix in Hin as [Heq|[w Heq]].
      * injection Heq as -> ->. split; reflexivity.
      * discriminate.
  - intros Hfalsy. rewrite Hfalsy.
    destruct (notify_attempts_prefix env url payload 4 1 s) as (Hh & _). exact Hh.
Qed.

(** C10, counterexample. With the empty text as error message, which is
    not [None], the payload gets no ["error"] key: the heap is unchanged. *)
Lemma notify_grader_empty_message_counterexample :
  let s := mkState [] [[(lit "task", PStr (lit "demo-site"))]] in
  let s' := snd (notify_grader (demo_env (Ok (llm_response [])) always_200)
                               (lit "https://grader.example/cb") 0%nat (Some []) s) in
  dict_get (heap_read 0%nat (heap s')) (lit "error") = None
  /\ heap s' = heap s.
Proof. vm_compute. split; reflexivity. Qed.

(** ** Attachments *)

(** [decode_attachment] never raises. *)
Lemma decode_attachment_total a : exists content, decode_attachment a = Ok content.
Proof.
  unfold decode_attachment, res_try, res_bind.
  destruct (decode_attachment_body a) as [s|e]; eauto.
Qed.

(** An attachment whose decoded content is [None] or empty leaves the
    file set as if it were not in the list. *)
Lemma add_attachments_skip a content pre post :
  decode_attachment a = Ok content ->
  truthy content = false ->
  forall files,
    add_attachments (pre ++ a :: post) files = add_attachments (pre ++ post) files.
Proof.
  intros Hd Ht. induction pre as [|b pre IH]; intros files.
  - cbn [app add_attachments]. rewrite Hd. cbn [res_bind].
    destruct content as [[|c s]|]; try reflexivity. discriminate.
  - cbn [app add_attachments].
    destruct (decode_attachment b) as [[[|c s]|]|e]; cbn [res_bind];
      try apply IH; reflexivity.
Qed.

(** C9. An attachment that decodes to the empty text is left out of the
    files to commit: the files are those of the job without it, which are
    also the files of the job with an attachment that fails to decode in
    its place. *)
Theorem empty_attachment_omitted a pre post files :
  decode_attachment a = Ok (Some []) ->
  add_attachments (pre ++ a :: post) files = add_attachments (pre ++ post) files
  /\ forall a', decode_attachment a' = Ok None ->
                add_attachments (pre ++ a :: post) files
                = add_attachments (pre ++ a' :: post) files.
Proof.
  intros Ha.
  assert (E : add_attachments (pre ++ a :: post) files
              = add_attachments (pre ++ post) files)
    by (eapply add_attachments_skip; [exact Ha|reflexivity]).
  split; [exact E|].
  intros a' Ha'. rewrite E. symmetry.
  eapply add_attachments_skip; [exact Ha'|reflexivity].
Qed.

Lemma empty_attachment_omitted_witness :
  decode_attachment (mkAttachment (lit "empty.txt") (lit "data:text/plain;base64,")) = Ok (Some [])
  /\ add_attachments
       ([mkAttachment (lit "a.txt") (lit "data:,aGk=")]
        ++ mkAttachment (lit "empty.txt") (lit "data:text/plain;base64,")
        :: [mkAttachment (lit "b.txt") (lit "data:,aGk=")])
       [(lit "index.html", lit "<p></p>")]
     = Ok [(lit "index.html", lit "<p></p>"); (lit "a.txt", lit "hi"); (lit "b.txt", lit "hi")].
Proof.
  split; [reflexivity|].
  rewrite (proj1 (empty_attachment_omitted
                    (mkAttachment (lit "empty.txt") (lit "data:text/plain;base64,"))
                    [mkAttachment (lit "a.txt") (lit "data:,aGk=")]
                    [mkAttachment (lit "b.txt") (lit "data:,aGk=")]
                    [(lit "index.html", lit "<p></p>")] eq_refl)).
  reflexivity.
Defined.

(** *** What the decoder rejects *)

Lemma is_b64_digit_step c rest q l p out :
  (c =? BASE64_PAD) = false ->
  a2b_loop (c :: rest) q l p out =
  if is_b64_digit c then
    match q with
    | 0%nat => a2b_loop rest 1 (table_a2b_base64 c) 0 out
    | 1%nat => a2b_loop rest 2 (Z.land (table_a2b_base64 c) 15) 0
                 (out ++ [Z.lor (Z.shiftl l 2) (Z.shiftr (table_a2b_base64 c) 4) mod 256])
    | 2%nat => a2b_loop rest 3 (Z.land (table_a2b_base64 c) 3) 0
                 (out ++ [Z.lor (Z.shiftl l 4) (Z.shiftr (table_a2b_base64 c) 2) mod 256])
    | _ => a2b_loop rest 0 0 0
             (out ++ [Z.lor (Z.shiftl l 6) (table_a2b_base64 c) mod 256])
    end
  else a2b_loop rest q l p out.
Proof.
  intros Hp. cbn [a2b_loop]. unfold is_b64_digit. rewrite Hp. cbn [negb andb].
  rewrite Z.leb_antisym. destruct (table_a2b_base64 c <? 64); reflexivity.
Qed.

(** C5, counterexample. The text after the comma is not base64 (it has a
    ['#'] and five characters), yet the decoder yields content, and the
    attachment is among the files to commit. *)
Lemma lenient_base64_counterexample :
  let a := mkAttachment (lit "note.txt") (lit "data:text/plain;base64,aG#k=") in
  find_comma (att_url a) = Some (lit "data:text/plain;base64", lit "aG#k=")
  /\ rfc4648_wellformed (lit "aG#k=") = false
  /\ decode_attachment a = Ok (Some (lit "hi"))
  /\ add_attachments [a] [(lit "index.html", lit "<p></p>")]
     = Ok [(lit "index.html", lit "<p></p>"); (lit "note.txt", lit "hi")].
Proof. vm_compute. repeat split; reflexivity. Qed.

Lemma not_in_by_forallb (c : Z) (s : str) :
  forallb (fun d => negb (d =? c)) s = true -> ~ In c s.
Proof.
  intros H Hin. rewrite forallb_forall in H. specialize (H c Hin).
  rewrite Z.eqb_refl in H. discriminate.
Qed.

Lemma decode_attachment_roundtrip_witness :
  ~ In comma (lit "data:text/plain;base64")
  /\ forallb encodable [8364; 49] = true
  /\ decode_attachment
       (mkAttachment (lit "euro.txt") (data_uri (lit "data:text/plain;base64") [8364; 49]))
     = Ok (Some [8364; 49]).
Proof.
  assert (Hh : ~ In comma (lit "data:text/plain;base64"))
    by (apply not_in_by_forallb; vm_compute; reflexivity).
  assert (Hx : forallb encodable [8364; 49] = true) by (vm_compute; reflexivity).
  split; [exact Hh|]. split; [exact Hx|].
  exact (decode_attachment_roundtrip (lit "euro.txt") (lit "data:text/plain;base64")
                                     [8364; 49] Hh Hx).
Defined.

Lemma handle_task_request_rejects_witness :
  let request := mkTaskRequest (lit "a@b.c") (lit "wrong") (lit "demo-site") 1 (lit "n-1")
                   (lit "a calculator") [] (lit "https://grader.example/cb") [] in
  Some (secret request) <> MY_SECRET demo_cfg
  /\ serve (demo_env (Ok (llm_response [])) always_200) demo_cfg request empty_state
     = (Ok [(lit "status", lit "error"); (lit "message", lit "Invalid secret")],
        empty_state).
Proof.
  cbv zeta.
  assert (Hne : Some (secret (mkTaskRequest (lit "a@b.c") (lit "wrong") (lit "demo-site") 1
                                (lit "n-1") (lit "a calculator") []
                                (lit "https://grader.example/cb") []))
                <> MY_SECRET demo_cfg).
  { vm_compute. discriminate. }
  split; [exact Hne|].
  exact (proj2 (handle_task_request_rejects
                  (demo_env (Ok (llm_response [])) always_200) demo_cfg _ [] empty_state Hne)).
Defined.

(** ** Traces *)

Lemma emits_silent {A} Q (m : M A) :
  (forall s, trace (snd (m s)) = trace s) -> emits Q m.
Proof.
  intros H s. exists []. rewrite app_nil_r. split; [apply H|constructor].
Qed.

Lemma emits_ret {A} Q (a : A) : emits Q (ret a).
Proof. apply emits_silent. reflexivity. Qed.

Lemma emits_raise {A} Q e : emits Q (@raise A e).
Proof. apply emits_silent. reflexivity. Qed.

Lemma emits_lift {A} Q (r : Res A) : emits Q (lift r).
Proof. apply emits_silent. reflexivity. Qed.

Lemma emits_heap_modify Q p f : emits Q (heap_modify p f).
Proof. apply emits_silent. reflexivity. Qed.

Lemma emits_heap_get Q p : emits Q (heap_get p).
Proof. apply emits_silent. reflexivity. Qed.

Lemma emits_call {A} (Q : Event -> Prop) ev (f : list Event -> Res A) :
  Q ev -> emits Q (call ev f).
Proof.
  intros H s. exists [ev]. split; [reflexivity|]. constructor; [exact H|constructor].
Qed.

Lemma emits_bind {A B} Q (m : M A) (k : A -> M B) :
  emits Q m -> (forall a, emits Q (k a)) -> emits Q (bind m k).
Proof.
  intros Hm Hk s. unfold bind.
  destruct (Hm s) as (evs & Ht & Hq).
  destruct (m s) as [[a|e] s1]; cbn [snd] in Ht.
  - destruct (Hk a s1) as (evs' & Ht' & Hq').
    exists (evs ++ evs'). rewrite Ht', Ht, app_assoc. split; [reflexivity|].
    apply Forall_app. split; assumption.
  - exists evs. split; assumption.
Qed.

Lemma emits_try_except {A} Q (body : M A) matches handler :
  emits Q body -> (forall e, emits Q (handler e)) ->
  emits Q (try_except body matches handler).
Proof.
  intros Hb Hh s. unfold try_except.
  destruct (Hb s) as (evs & Ht & Hq).
  destruct (body s) as [[a|e] s1]; cbn [snd] in Ht.
  - exists evs. split; assumption.
  - destruct (matches e).
    + destruct (Hh e s1) as (evs' & Ht' & Hq').
      exists (evs ++ evs'). rewrite Ht', Ht, app_assoc. split; [reflexivity|].
      apply Forall_app. split; assumption.
    + exists evs. split; assumption.
Qed.

Lemma emits_weaken {A} (Q Q' : Event -> Prop) (m : M A) :
  (forall ev, Q ev -> Q' ev) -> emits Q m -> emits Q' m.
Proof.
  intros H Hm s. destruct (Hm s) as (evs & Ht & Hq).
  exists evs. split; [exact Ht|]. eapply Forall_impl; eassumption.
Qed.

Lemma emits_if {A} Q (b : bool) (m1 m2 : M A) :
  emits Q m1 -> emits Q m2 -> emits Q (if b then m1 else m2).
Proof. destruct b; auto. Qed.

Lemma emits_notify_attempts env url p n :
  forall d, emits (notifier_event url) (notify_attempts env n d url p).
Proof.
  induction n as [|n IH]; intros d; cbn [notify_attempts].
  - apply emits_ret.
  - apply emits_bind.
    + apply emits_try_except; [|intros; apply emits_ret].
      apply emits_bind; [apply emits_heap_get|]. intros body.
      apply emits_bind.
      * apply emits_call. left. eauto.
      * intros r. apply emits_if; apply emits_ret.
    + intros [|]; [apply emits_ret|].
      apply emits_bind; [|intros; apply IH].
      apply emits_call. right. eauto.
Qed.

Lemma emits_notify_grader env url p msg :
  emits (notifier_event url) (notify_grader env url p msg).
Proof.
  unfold notify_grader. apply emits_bind.
  - apply emits_if; [apply emits_heap_modify|apply emits_ret].
  - intros _. apply emits_notify_attempts.
Qed.

Lemma publisher_event_plain files ev :
  (is_repo_event ev = true \/ exists w, ev = EvSleep w) ->
  written_file ev = None -> publisher_event files ev.
Proof. intros H Hw. split; [exact H|]. intros ? ? E. congruence. Qed.

Lemma emits_write_files env files commit_message :
  forall all_files, incl files all_files ->
  emits (publisher_event all_files) (write_files env files commit_message).
Proof.
  induction files as [|[path content] files IH]; intros all_files Hincl;
    cbn [write_files].
  - apply emits_ret.
  - assert (Hin : In (path, content) all_files) by (apply Hincl; left; reflexivity).
    apply emits_bind.
    + apply emits_try_except.
      * apply emits_bind.
        -- apply emits_call. apply publisher_event_plain; [left|]; reflexivity.
        -- intros sha. apply emits_call. split; [left; reflexivity|].
           intros ? ? E. injection E as <- <-. exact Hin.
      * intros _. apply emits_call. split; [left; reflexivity|].
        intros ? ? E. injection E as <- <-. exact Hin.
    + intros _. apply IH. intros x Hx. apply Hincl. right. exact Hx.
Qed.

Lemma emits_create_or_update_repo env cfg repo_name files commit_message :
  emits (publisher_event files)
        (create_or_update_repo env cfg repo_name files commit_message).
Proof.
  unfold create_or_update_repo, create_or_update_repo_body, requests_post, sleep.
  apply emits_try_except; [|intros; apply emits_ret].
  repeat first
    [ apply emits_ret
    | apply emits_lift
    | apply emits_if
    | apply emits_write_files; apply incl_refl
    | apply emits_call; apply publisher_event_plain; [first [left; reflexivity | right; eauto]|reflexivity]
    | apply emits_try_except
    | apply emits_bind
    | intro ].
Qed.

(** ** The orchestrator *)

Lemma heap_read_length h d : heap_read (List.length h) (h ++ [d]) = d.
Proof. unfold heap_read. rewrite nth_middle. reflexivity. Qed.

Lemma heap_write_length h d d' : heap_write (List.length h) d' (h ++ [d]) = h ++ [d'].
Proof. induction h as [|x h IH]; cbn; [reflexivity|]. rewrite IH. reflexivity. Qed.

Lemma generate_code_unfold env cfg request s :
  generate_code env cfg request s =
  let s1 := mkState (trace s ++ [llm_request cfg request]) (heap s) in
  match env_post env (trace s) (llm_request cfg request) with
  | Ok response =>
      if negb (status_code response =? 200) then
        (Raise (mkExn PlainException
                  (lit "AI Pipe API Error: " ++ str_of_int (status_code response)
                   ++ lit " - " ++ text response)), s1)
      else
        (res_bind (first_choice_content response) (fun content =>
         res_bind (method_strip content) (fun generated_code =>
         Ok (strip_fences generated_code))), s1)
  | Raise e => (Raise e, s1)
  end.
Proof.
  unfold generate_code, bind, requests_post, call, raise, lift, ret. cbv zeta.
  destruct (env_post env (trace s) (llm_request cfg request)) as [r|e]; [|reflexivity].
  destruct (negb (status_code r =? 200)); [reflexivity|].
  destruct (first_choice_content r) as [c|e]; [|reflexivity]. cbn [res_bind].
  destruct (method_strip c); reflexivity.
Qed.

Lemma process_task_in_background_unfold env cfg request s :
  process_task_in_background env cfg request s =
  let payload := List.length (heap s) in
  match generate_code env cfg request
          (mkState (trace s) (heap s ++ [initial_payload request])) with
  | (Raise e, s1) =>
      notify_grader env (evaluation_url request) payload
        (Some (lit "LLM generation failed: " ++ exn_str e)) s1
  | (Ok generated_code, s1) =>
      try_except
        (deploy env cfg request payload generated_code)
        any_Exception
        (fun e =>
           notify_grader env (evaluation_url request) payload
             (Some (lit "Deployment failed: " ++ exn_str e))) s1
  end.
Proof. reflexivity. Qed.

(** C4. When the generation service answers with a status other than 200,
    the background job is one call of [notify_grader] with the message
    "LLM generation failed: AI Pipe API Error: <status> - <body>", made
    right after the request to the service.  What follows that request in
    the trace is an initial part of the retry schedule for the payload
    carrying that message under "error"; no call to GitHub is among it. *)
Theorem generation_failure_notifies env cfg request s response :
  env_post env (trace s) (llm_request cfg request) = Ok response ->
  status_code response <> 200 ->
  let cause := lit "AI Pipe API Error: " ++ str_of_int (status_code response)
               ++ lit " - " ++ text response in
  let message := lit "LLM generation failed: " ++ cause in
  let url := evaluation_url request in
  let payload := initial_payload request ++ [(lit "error", PStr message)] in
  let run := process_task_in_background env cfg request s in
  run = notify_grader env url (List.length (heap s)) (Some message)
          (mkState (trace s ++ [llm_request cfg request])
                   (heap s ++ [initial_payload request]))
  /\ startswith message (lit "LLM generation failed:") = true
  /\ exists m,
       trace (snd run)
       = trace s ++ llm_request cfg request :: firstn m (retry_schedule url payload)
       /\ forall ev, In ev (llm_request cfg request :: firstn m (retry_schedule url payload)) ->
                     is_repo_event ev = false.
Proof.
  intros Hpost Hstatus. cbv zeta.
  assert (E : process_task_in_background env cfg request s
              = notify_grader env (evaluation_url request) (List.length (heap s))
                  (Some (lit "LLM generation failed: "
                         ++ lit "AI Pipe API Error: " ++ str_of_int (status_code response)
                         ++ lit " - " ++ text response))
                  (mkState (trace s ++ [llm_request cfg request])
                           (heap s ++ [initial_payload request]))).
  { rewrite process_task_in_background_unfold. cbv zeta.
    rewrite generate_code_unfold. cbn [trace heap]. cbv zeta. rewrite Hpost.
    apply Z.eqb_neq in Hstatus. rewrite Hstatus. reflexivity. }
  split; [exact E|]. split; [reflexivity|].
  rewrite E, notify_grader_unfold.
  change (truthy (Some (lit "LLM generation failed: "
                        ++ lit "AI Pipe API Error: " ++ str_of_int (status_code response)
                        ++ lit " - " ++ text response))) with true.
  cbv iota. cbn [trace heap pyval_of_opt].
  rewrite heap_read_length, heap_write_length.
  match goal with
  | |- context [notify_attempts env 4 1 ?u ?p ?s1] =>
      destruct (notify_attempts_prefix env u p 4 1 s1) as (_ & m & _ & Ht)
  end.
  cbn [trace heap] in Ht. rewrite heap_read_length in Ht.
  exists m. split.
  - rewrite Ht, <- app_assoc. reflexivity.
  - intros ev [<-|Hin]; [reflexivity|].
    apply in_schedule_prefix in Hin as [->|[w ->]]; reflexivity.
Qed.

(** *** Fence removal *)

Lemma remove_prefix_startswith p :
  forall s, remove_prefix p s
            = if startswith s p then Some (skipn (List.length p) s) else None.
Proof.
  induction p as [|c p IH]; intros s; [destruct s; reflexivity|].
  destruct s as [|d s]; cbn [remove_prefix startswith List.length skipn]; [reflexivity|].
  destruct (c =? d); [apply IH|reflexivity].
Qed.

Lemma remove_suffix_endswith p s :
  remove_suffix p s
  = if endswith s p then Some (firstn (List.length s - List.length p) s) else None.
Proof.
  unfold remove_suffix, endswith. rewrite remove_prefix_startswith.
  destruct (startswith (rev s) (rev p)); [|reflexivity].
  cbn [option_map]. rewrite length_rev, skipn_rev, rev_involutive. reflexivity.
Qed.

(** The two [if] statements of the source remove the fences as the
    specification says. *)
Lemma strip_fences_unfence s : strip_fences s = unfence s.
Proof.
  unfold strip_fences, unfence, slice_from, slice_to_neg.
  rewrite remove_prefix_startswith.
  change (List.length (lit "```html")) with 7%nat.
  destruct (startswith s (lit "```html"));
    rewrite remove_suffix_endswith; change (List.length (lit "```")) with 3%nat;
    match goal with |- context [endswith ?x ?y] => destruct (endswith x y) end;
    reflexivity.
Qed.

(** Only one layer of fences is removed. *)
Example unfence_one_layer :
  unfence (lit "```html```html<p></p>``````") = lit "```html<p></p>```".
Proof. reflexivity. Qed.

(** *** What the background job writes *)

Lemma emits_bind_lift {A B} Q (r : Res A) (k : A -> M B) :
  (forall a, r = Ok a -> emits Q (k a)) -> emits Q (bind (lift r) k).
Proof.
  intros Hk s. unfold bind, lift. destruct r as [a|e].
  - apply Hk. reflexivity.
  - exists []. rewrite app_nil_r. split; [reflexivity|constructor].
Qed.

Lemma emits_deploy env cfg request payload generated_code :
  emits (fun ev =>
           forall path content,
             written_file ev = Some (path, content) ->
             exists files, build_files request generated_code = Ok files
                           /\ In (path, content) files)
        (deploy env cfg request payload generated_code).
Proof.
  unfold deploy. cbv zeta. apply emits_bind_lift. intros files Hfiles.
  apply emits_bind.
  - eapply emits_weaken; [|apply emits_create_or_update_repo].
    intros ev [_ Hw] path content E. exists files. split; [exact Hfiles|]. apply Hw, E.
  - intros [[repo_url pages_url] commit_sha].
    apply emits_if; [apply emits_raise|].
    apply emits_bind; [apply emits_heap_modify|]. intros _.
    eapply emits_weaken; [|apply emits_notify_grader].
    intros ev [[body ->]|[w ->]] path content E; discriminate.
Qed.

Lemma generate_code_trace env cfg request s :
  trace (snd (generate_code env cfg request s)) = trace s ++ [llm_request cfg request].
Proof.
  rewrite generate_code_unfold. cbv zeta.
  destruct (env_post env (trace s) (llm_request cfg request)) as [r|e]; [|reflexivity].
  destruct (negb (status_code r =? 200)); reflexivity.
Qed.

Lemma generate_code_heap_irrelevant env cfg request s h :
  fst (generate_code env cfg request (mkState (trace s) h))
  = fst (generate_code env cfg request s).
Proof.
  rewrite !generate_code_unfold. cbv zeta. cbn [trace].
  destruct (env_post env (trace s) (llm_request cfg request)) as [r|e]; [|reflexivity].
  destruct (negb (status_code r =? 200)); reflexivity.
Qed.

(** Every file that the background job writes is an entry of the mapping
    built from the generated code. *)
Lemma process_task_in_background_writes env cfg request s :
  exists evs,
    trace (snd (process_task_in_background env cfg request s)) = trace s ++ evs
    /\ forall ev path content,
         In ev evs -> written_file ev = Some (path, content) ->
         exists generated_code files,
           fst (generate_code env cfg request s) = Ok generated_code
           /\ build_files request generated_code = Ok files
           /\ In (path, content) files.
Proof.
  rewrite process_task_in_background_unfold. cbv zeta.
  pose proof (generate_code_trace env cfg request
                (mkState (trace s) (heap s ++ [initial_payload request]))) as Ht.
  pose proof (generate_code_heap_irrelevant env cfg request s
                (heap s ++ [initial_payload request])) as Hf.
  destruct (generate_code env cfg request
              (mkState (trace s) (heap s ++ [initial_payload request])))
    as [[generated_code|e] s1]; cbn [fst snd trace] in Ht, Hf.
  - assert (Hd : emits (fun ev =>
                          forall path content,
                            written_file ev = Some (path, content) ->
                            exists files, build_files request generated_code = Ok files
                                          /\ In (path, content) files)
                       (try_except
                          (deploy env cfg request (List.length (heap s)) generated_code)
                          any_Exception
                          (fun e =>
                             notify_grader env (evaluation_url request)
                               (List.length (heap s))
                               (Some (lit "Deployment failed: " ++ exn_str e))))).
    { apply emits_try_except; [apply emits_deploy|]. intros e.
      eapply emits_weaken; [|apply emits_notify_grader].
      intros ev [[body ->]|[w ->]] path content E; discriminate. }
    destruct (Hd s1) as (evs & Ht' & Hq).
    exists (llm_request cfg request :: evs). split.
    + rewrite Ht', Ht, <- app_assoc. reflexivity.
    + intros ev path content [<-|Hin] E; [discriminate|].
      rewrite Forall_forall in Hq. destruct (Hq ev Hin path content E) as (files & Hb & Hi).
      exists generated_code, files. rewrite <- Hf. auto.
  - destruct (emits_notify_grader env (evaluation_url request) (List.length (heap s))
                (Some (lit "LLM generation failed: " ++ exn_str e)) s1)
      as (evs & Ht' & Hq).
    exists (llm_request cfg request :: evs). split.
    + rewrite Ht', Ht, <- app_assoc. reflexivity.
    + intros ev path content [<-|Hin] E; [discriminate|].
      rewrite Forall_forall in Hq.
      destruct (Hq ev Hin) as [[body ->]|[w ->]]; discriminate.
Qed.

(** ** Concrete runs *)

Lemma generation_failure_notifies_witness :
  let env := demo_env (Ok (mkResponse 500 (lit "boom") (Ok JNone))) always_200 in
  let request := demo_request [] in
  trace (snd (process_task_in_background env demo_cfg request empty_state))
  = [ llm_request demo_cfg request;
      EvPostNotify (lit "https://grader.example/cb")
        (initial_payload request
         ++ [(lit "error",
              PStr (lit "LLM generation failed: AI Pipe API Error: 500 - boom"))]) ].
Proof.
  cbv zeta.
  destruct (generation_failure_notifies
              (demo_env (Ok (mkResponse 500 (lit "boom") (Ok JNone))) always_200)
              demo_cfg (demo_request []) empty_state
              (mkResponse 500 (lit "boom") (Ok JNone))
              eq_refl ltac:(vm_compute; discriminate)) as (E & _ & _).
  rewrite E. vm_compute. reflexivity.
Defined.

Lemma notify_grader_retries_witness :
  let env := demo_env (Ok (llm_response [])) always_503 in
  let url := lit "https://grader.example/cb" in
  let s := mkState [] [[(lit "task", PStr (lit "demo-site"))]] in
  let P := EvPostNotify url [(lit "task", PStr (lit "demo-site"))] in
  trace (snd (notify_grader env url 0%nat None s))
  = [ P; EvSleep 1; P; EvSleep 2; P; EvSleep 4; P; EvSleep 8 ].
Proof.
  cbv zeta.
  destruct (notify_grader_retries
              (demo_env (Ok (llm_response [])) always_503)
              (lit "https://grader.example/cb") 0%nat None
              (mkState [] [[(lit "task", PStr (lit "demo-site"))]]))
    as (_ & _ & Hall).
  destruct Hall as [_ Ht]; [intros k Hk; reflexivity|].
  exact Ht.
Defined.

Lemma notify_grader_payload_frame_witness :
  let env := demo_env (Ok (llm_response [])) always_200 in
  let s := mkState [] [[(lit "task", PStr (lit "demo-site"))]] in
  let s' := snd (notify_grader env (lit "https://grader.example/cb") 0%nat
                               (Some (lit "oops")) s) in
  (0 < List.length (heap s))%nat
  /\ truthy (Some (lit "oops")) = true
  /\ exists msg, Some (lit "oops") = Some msg /\ msg <> []
                 /\ dict_get (heap_read 0%nat (heap s')) (lit "error") = Some (PStr msg).
Proof.
  cbv zeta.
  assert (Hp : (0 < List.length (heap (mkState [] [[(lit "task", PStr (lit "demo-site"))]])))%nat)
    by (simpl; lia).
  split; [exact Hp|]. split; [reflexivity|].
  destruct (notify_grader_payload_frame
              (demo_env (Ok (llm_response [])) always_200)
              (lit "https://grader.example/cb") 0%nat (Some (lit "oops"))
              (mkState [] [[(lit "task", PStr (lit "demo-site"))]]) Hp) as [H _].
  destruct (H eq_refl) as [Hmsg _]. exact Hmsg.
Defined.

(** A run in which everything succeeds: the repository is created, the
    three files are written, hosting is enabled, and the payload with the
    three result fields is posted once. *)
Example process_task_in_background_success :
  let env := demo_env (Ok (llm_response (lit "<p>ok</p>"))) always_200 in
  let request := demo_request [] in
  let message := lit "Round 1: a calculator" in
  process_task_in_background env demo_cfg request empty_state
  = (Ok tt,
     mkState
       [ llm_request demo_cfg request;
         EvGetUser; EvGetRepo (lit "demo-site"); EvCreateRepo (lit "demo-site"); EvSleep 2;
         EvGetContents (lit "index.html");
         EvCreateFile (lit "index.html") message (lit "<p>ok</p>");
         EvGetContents (lit "README.md");
         EvCreateFile (lit "README.md") message (readme_content request (lit "demo-site"));
         EvGetContents (lit "LICENSE");
         EvCreateFile (lit "LICENSE") message MIT_LICENSE_TEXT;
         EvUserLogin; EvUserLogin;
         EvPostPages (lit "https://api.github.com/repos/octocat/demo-site/pages")
                     (lit "token ghp_token");
         EvGetBranch;
         EvPostNotify (lit "https://grader.example/cb")
           (initial_payload request
            ++ [ (lit "repo_url", PStr (lit "https://github.com/octocat/demo-site"));
                 (lit "commit_sha", PStr (lit "0a1b2c3"));
                 (lit "pages_url", PStr (lit "https://octocat.github.io/demo-site/")) ]) ]
       [ initial_payload request
         ++ [ (lit "repo_url", PStr (lit "https://github.com/octocat/demo-site"));
              (lit "commit_sha", PStr (lit "0a1b2c3"));
              (lit "pages_url", PStr (lit "https://octocat.github.io/demo-site/")) ] ]).
Proof. vm_compute. reflexivity. Qed.

(** C8, the failing run. Generation and publishing succeed; the first post
    to the callback raises an exception that is not one of the requests
    library.  [notify_grader] lets it through, the handler of the second
    [try] catches it and calls [notify_grader] again: two posts are made,
    with two different payloads, and the second carries the result fields
    and the error together. *)
Theorem notifier_called_twice :
  let env := demo_env (Ok (llm_response (lit "<p>ok</p>"))) raises_once in
  let request := demo_request [] in
  let success :=
    initial_payload request
    ++ [ (lit "repo_url", PStr (lit "https://github.com/octocat/demo-site"));
         (lit "commit_sha", PStr (lit "0a1b2c3"));
         (lit "pages_url", PStr (lit "https://octocat.github.io/demo-site/")) ] in
  let run := process_task_in_background env demo_cfg request empty_state in
  fst run = Ok tt
  /\ filter is_notify_post (trace (snd run))
     = [ EvPostNotify (lit "https://grader.example/cb") success;
         EvPostNotify (lit "https://grader.example/cb")
           (success ++ [(lit "error", PStr (lit "Deployment failed: unexpected"))]) ].
Proof. vm_compute. split; reflexivity. Qed.

(** ** One notification per job, when the notifier returns *)

Lemma keeps_heap_ret {A} (a : A) : keeps_heap (ret a).
Proof. intros s. reflexivity. Qed.

Lemma keeps_heap_lift {A} (r : Res A) : keeps_heap (lift r).
Proof. intros s. reflexivity. Qed.

Lemma keeps_heap_call {A} ev (f : list Event -> Res A) : keeps_heap (call ev f).
Proof. intros s. reflexivity. Qed.

Lemma keeps_heap_bind {A B} (m : M A) (k : A -> M B) :
  keeps_heap m -> (forall a, keeps_heap (k a)) -> keeps_heap (bind m k).
Proof.
  intros Hm Hk s. unfold bind. specialize (Hm s).
  destruct (m s) as [[a|e] s1]; cbn [snd] in *; [|exact Hm].
  rewrite Hk. exact Hm.
Qed.

Lemma keeps_heap_try_except {A} (body : M A) matches handler :
  keeps_heap body -> (forall e, keeps_heap (handler e)) ->
  keeps_heap (try_except body matches handler).
Proof.
  intros Hb Hh s. unfold try_except. specialize (Hb s).
  destruct (body s) as [[a|e] s1]; cbn [snd] in *; [exact Hb|].
  destruct (matches e); [rewrite Hh|]; exact Hb.
Qed.

Lemma keeps_heap_if {A} (b : bool) (m1 m2 : M A) :
  keeps_heap m1 -> keeps_heap m2 -> keeps_heap (if b then m1 else m2).
Proof. destruct b; auto. Qed.

Lemma keeps_heap_write_files env files commit_message :
  keeps_heap (write_files env files commit_message).
Proof.
  induction files as [|[path content] files IH]; cbn [write_files].
  - apply keeps_heap_ret.
  - apply keeps_heap_bind; [|intros _; exact IH].
    apply keeps_heap_try_except.
    + apply keeps_heap_bind; [apply keeps_heap_call|]. intros sha. apply keeps_heap_call.
    + intros _. apply keeps_heap_call.
Qed.

Lemma keeps_heap_create_or_update_repo env cfg repo_name files commit_message :
  keeps_heap (create_or_update_repo env cfg repo_name files commit_message).
Proof.
  unfold create_or_update_repo, create_or_update_repo_body, requests_post, sleep.
  repeat first
    [ apply keeps_heap_ret
    | apply keeps_heap_lift
    | apply keeps_heap_call
    | apply keeps_heap_if
    | apply keeps_heap_write_files
    | apply keeps_heap_try_except
    | apply keeps_heap_bind
    | intro ].
Qed.

Lemma notify_attempts_returns env url p n :
  callback_contained env ->
  forall d s, fst (notify_attempts env n d url p s) = Ok tt.
Proof.
  intros Hc. induction n as [|n IH]; intros d s; [reflexivity|].
  rewrite notify_attempts_step. cbv zeta.
  specialize (Hc (trace s) url (heap_read p (heap s))).
  destruct (env_post env (trace s) (EvPostNotify url (heap_read p (heap s)))) as [r|e].
  - destruct (status_code r =? 200); [reflexivity|apply IH].
  - rewrite Hc. apply IH.
Qed.

Lemma notify_grader_returns env url p msg s :
  callback_contained env -> fst (notify_grader env url p msg s) = Ok tt.
Proof.
  intros Hc. rewrite notify_grader_unfold. apply notify_attempts_returns. exact Hc.
Qed.

Lemma generate_code_heap env cfg request s :
  heap (snd (generate_code env cfg request s)) = heap s.
Proof.
  rewrite generate_code_unfold. cbv zeta.
  destruct (env_post env (trace s) (llm_request cfg request)) as [r|e]; [|reflexivity].
  destruct (negb (status_code r =? 200)); reflexivity.
Qed.

(** X1. When the callback only fails in ways [notify_grader] handles, the
    background job is one call of [notify_grader], made after calls none of
    which is a post to the callback: either without a message, on the
    payload extended with the three result fields, or with a message, on
    the payload as it was created. *)
Theorem process_task_in_background_notifies_once env cfg request s :
  callback_contained env ->
  let payload := List.length (heap s) in
  exists message s2 evs,
    process_task_in_background env cfg request s
    = notify_grader env (evaluation_url request) payload message s2
    /\ trace s2 = trace s ++ evs
    /\ Forall (fun ev => is_notify_post ev = false) evs
    /\ ((message = None
         /\ exists repo_url commit_sha pages_url,
              heap_read payload (heap s2)
              = initial_payload request
                ++ [ (lit "repo_url", repo_url); (lit "commit_sha", commit_sha);
                     (lit "pages_url", pages_url) ])
        \/ (truthy message = true
            /\ heap_read payload (heap s2) = initial_payload request)).
Proof.
  intros Hc. cbv zeta. rewrite process_task_in_background_unfold. cbv zeta.
  set (s0 := mkState (trace s) (heap s ++ [initial_payload request])).
  pose proof (generate_code_trace env cfg request s0) as Ht.
  pose proof (generate_code_heap env cfg request s0) as Hh.
  destruct (generate_code env cfg request s0) as [[generated_code|e] s1];
    cbn [snd] in Ht, Hh; subst s0; cbn [trace heap] in Ht, Hh.
  - unfold try_except, deploy. cbv zeta. unfold bind at 1, lift.
    destruct (build_files request generated_code) as [files|e].
    + unfold bind at 1.
      pose proof (keeps_heap_create_or_update_repo env cfg (task request) files
                    (lit "Round " ++ str_of_int (round request) ++ lit ": " ++ brief request)
                    s1) as Hh3.
      destruct (emits_create_or_update_repo env cfg (task request) files
                  (lit "Round " ++ str_of_int (round request) ++ lit ": " ++ brief request)
                  s1) as (evs & Ht3 & Hq).
      destruct (create_or_update_repo_returns env cfg (task request) files
                  (lit "Round " ++ str_of_int (round request) ++ lit ": " ++ brief request)
                  s1) as (result & s3 & E).
      rewrite E in *. cbn [snd] in Hh3, Ht3.
      destruct result as [[repo_url pages_url] commit_sha].
      assert (Hevs : Forall (fun ev => is_notify_post ev = false)
                            (llm_request cfg request :: evs)).
      { constructor; [reflexivity|].
        eapply Forall_impl; [|exact Hq].
        intros ev [[Hr|[w ->]] _]; [|reflexivity].
        destruct ev; try reflexivity; discriminate. }
      destruct (truthy repo_url) eqn:Hrepo; cbn [negb].
      * unfold bind at 1, heap_modify.
        pose proof (notify_grader_returns env (evaluation_url request)
                      (List.length (heap s)) None
                      (mkState (trace s3)
                         (heap_write (List.length (heap s))
                            (dict_update (heap_read (List.length (heap s)) (heap s3))
                               [ (lit "repo_url", pyval_of_opt repo_url);
                                 (lit "commit_sha", pyval_of_opt commit_sha);
                                 (lit "pages_url", pyval_of_opt pages_url) ])
                            (heap s3))) Hc) as Hret.
        destruct (notify_grader env (evaluation_url request) (List.length (heap s)) None _)
          as [[[]|e] s'] eqn:En; cbn [fst] in Hret; [|discriminate].
        exists None. eexists. exists (llm_request cfg request :: evs).
        split; [symmetry; exact En|]. cbn [trace heap].
        split; [rewrite Ht3, Ht, <- app_assoc; reflexivity|].
        split; [exact Hevs|]. left. split; [reflexivity|].
        rewrite Hh3, Hh, heap_read_length, heap_write_length, heap_read_length.
        eexists _, _, _. reflexivity.
      * unfold raise.
        eexists. exists s3, (llm_request cfg request :: evs).
        split; [reflexivity|].
        split; [rewrite Ht3, Ht, <- app_assoc; reflexivity|].
        split; [exact Hevs|]. right. split; [reflexivity|].
        rewrite Hh3, Hh. apply heap_read_length.
    + eexists. exists s1, [llm_request cfg request].
      split; [reflexivity|]. split; [exact Ht|].
      split; [constructor; [reflexivity|constructor]|]. right. split; [reflexivity|].
      rewrite Hh. apply heap_read_length.
  - eexists. exists s1, [llm_request cfg request].
    split; [reflexivity|]. split; [exact Ht|].
    split; [constructor; [reflexivity|constructor]|]. right. split; [reflexivity|].
    rewrite Hh. apply heap_read_length.
Qed.

(** * Further properties *)

(** ** The decoder *)

Lemma a2b_loop_filter data :
  forall q l p out,
    a2b_loop (filter significant data) q l p out = a2b_loop data q l p out.
Proof.
  induction data as [|c data IH]; intros q l p out; [reflexivity|].
  cbn [filter]. unfold significant.
  destruct (Z.eqb_spec c BASE64_PAD) as [->|Hne].
  - cbn [orb]. rewrite !a2b_loop_pad.
    destruct (Nat.leb 2 q); [destruct (Nat.leb 4 (q + S p))|]; try reflexivity; apply IH.
  - cbn [orb]. apply Z.eqb_neq in Hne.
    rewrite (is_b64_digit_step c data) by exact Hne.
    destruct (is_b64_digit c) eqn:Hd; [|apply IH].
    rewrite (is_b64_digit_step c (filter significant data)) by exact Hne.
    rewrite Hd. destruct q as [|[|[|q]]]; apply IH.
Qed.

Lemma forallb_filter {A} (f g : A -> bool) l :
  forallb f l = true -> forallb f (filter g l) = true.
Proof.
  induction l as [|x l IH]; cbn; [reflexivity|].
  intros H. apply andb_true_iff in H as [Hx Hl].
  destruct (g x); cbn; [rewrite Hx|]; auto.
Qed.

(** X2. Characters of the payload that are neither base64 digits nor the
    pad (line breaks, spaces, punctuation) are skipped: an attachment
    decodes as the same attachment with those characters removed, provided
    the text after the first comma is ASCII. *)
Theorem decode_attachment_skips_junk name header encoded :
  ~ In comma header ->
  forallb is_ascii encoded = true ->
  decode_attachment (mkAttachment name (header ++ comma :: encoded))
  = decode_attachment (mkAttachment name (header ++ comma :: filter significant encoded)).
Proof.
  intros Hh Ha.
  unfold decode_attachment, decode_attachment_body, split_comma_1. cbn [att_url].
  rewrite !find_comma_app by assumption. cbn [unpack2 res_bind].
  unfold b64decode, a2b_base64.
  rewrite Ha, (forallb_filter is_ascii significant encoded Ha), a2b_loop_filter.
  reflexivity.
Qed.

Lemma decode_attachment_skips_junk_witness :
  ~ In comma (lit "data:text/plain;base64")
  /\ forallb is_ascii [97; 71; 10; 32; 107; 35; 61] = true
  /\ filter significant [97; 71; 10; 32; 107; 35; 61] = lit "aGk="
  /\ decode_attachment
       (mkAttachment (lit "a.txt")
          (lit "data:text/plain;base64" ++ comma :: [97; 71; 10; 32; 107; 35; 61]))
     = Ok (Some (lit "hi")).
Proof.
  assert (Hh : ~ In comma (lit "data:text/plain;base64"))
    by (apply not_in_by_forallb; vm_compute; reflexivity).
  assert (Ha : forallb is_ascii [97; 71; 10; 32; 107; 35; 61] = true)
    by (vm_compute; reflexivity).
  split; [exact Hh|]. split; [exact Ha|]. split; [vm_compute; reflexivity|].
  rewrite (decode_attachment_skips_junk (lit "a.txt") (lit "data:text/plain;base64")
             [97; 71; 10; 32; 107; 35; 61] Hh Ha).
  vm_compute. reflexivity.
Defined.

Lemma a2b_loop_b64encode_tail bs :
  forallb is_byte bs = true ->
  (List.length bs mod 3 <> 0)%nat ->
  forall tail out, a2b_loop (b64encode bs ++ tail) 0 0 0 out = Ok (out ++ bs).
Proof.
  induction bs as [|b1|b1 b2|b1 b2 b3 rest IH] using list_ind3; intros Hb Hlen tail out.
  - exfalso. apply Hlen. reflexivity.
  - simpl in Hb. rewrite andb_true_r in Hb. apply is_byte_range in Hb.
    cbn [b64encode app]. do 4 a2b_step.
    rewrite merge_2_4 by lia. do 3 f_equal. lia.
  - simpl in Hb. rewrite andb_true_r in Hb. apply andb_true_iff in Hb as [Hb1 Hb2].
    apply is_byte_range in Hb1, Hb2.
    cbn [b64encode app]. do 4 a2b_step.
    rewrite merge_2_4, land_15, merge_4_2 by lia.
    rewrite <- app_assoc. cbn [app]. do 3 f_equal; [lia|]. f_equal. lia.
  - cbn [forallb] in Hb.
    apply andb_true_iff in Hb as [Hb1 Hb]. apply andb_true_iff in Hb as [Hb2 Hb].
    apply andb_true_iff in Hb as [Hb3 Hb].
    apply is_byte_range in Hb1, Hb2, Hb3.
    cbn [b64encode app]. do 4 a2b_step.
    rewrite IH; [|assumption|].
    + rewrite merge_2_4, land_15, merge_4_2, land_3, merge_6_0 by lia.
      rewrite <- !app_assoc. cbn [app]. do 3 f_equal; [lia|].
      f_equal; [lia|]. f_equal. lia.
    + cbn [List.length] in Hlen. intros H. apply Hlen.
      replace (S (S (S (List.length rest)))) with (List.length rest + 1 * 3)%nat by lia.
      rewrite Nat.Div0.mod_add. exact H.
Qed.

(** X3. When the encoded bytes end in a pad sequence (their number is not a
    multiple of 3), whatever ASCII text follows the padding is ignored: the
    attachment still decodes to the text. *)
Theorem decode_attachment_ignores_trailing_data name header x tail :
  ~ In comma header ->
  forallb encodable x = true ->
  (List.length (utf8_encode x) mod 3 <> 0)%nat ->
  forallb is_ascii tail = true ->
  decode_attachment (mkAttachment name (data_uri header x ++ tail)) = Ok (Some x).
Proof.
  intros Hh Hx Hlen Ht.
  unfold decode_attachment, decode_attachment_body, data_uri, split_comma_1.
  cbn [att_url]. rewrite <- app_assoc. cbn [app].
  rewrite find_comma_app by assumption. cbn [unpack2 res_bind].
  unfold b64decode, a2b_base64. rewrite forallb_app, Ht.
  rewrite b64encode_ascii by (apply utf8_encode_bytes; assumption). cbn [andb].
  rewrite a2b_loop_b64encode_tail by (try apply utf8_encode_bytes; assumption).
  cbn [app res_bind]. unfold bytes_decode_utf8.
  rewrite utf8_decode_encode by assumption. reflexivity.
Qed.

Lemma decode_attachment_ignores_trailing_data_witness :
  ~ In comma (lit "data:text/plain;base64")
  /\ forallb encodable (lit "hi") = true
  /\ (List.length (utf8_encode (lit "hi")) mod 3 <> 0)%nat
  /\ forallb is_ascii (lit "aGk= and more") = true
  /\ decode_attachment
       (mkAttachment (lit "a.txt")
          (data_uri (lit "data:text/plain;base64") (lit "hi") ++ lit "aGk= and more"))
     = Ok (Some (lit "hi")).
Proof.
  assert (Hh : ~ In comma (lit "data:text/plain;base64"))
    by (apply not_in_by_forallb; vm_compute; reflexivity).
  assert (Hx : forallb encodable (lit "hi") = true) by (vm_compute; reflexivity).
  assert (Hl : (List.length (utf8_encode (lit "hi")) mod 3 <> 0)%nat)
    by (vm_compute; discriminate).
  assert (Ht : forallb is_ascii (lit "aGk= and more") = true) by (vm_compute; reflexivity).
  split; [exact Hh|]. split; [exact Hx|]. split; [exact Hl|]. split; [exact Ht|].
  exact (decode_attachment_ignores_trailing_data (lit "a.txt") (lit "data:text/plain;base64")
           (lit "hi") (lit "aGk= and more") Hh Hx Hl Ht).
Defined.

(** *** What the decoder accepts is UTF-8 *)

Lemma digits_div q r : 0 <= r < 64 -> (q * 64 + r) / 64 = q.
Proof.
  intros Hr. symmetry. apply (Z.div_unique (q * 64 + r) 64 q r); lia.
Qed.

Lemma digits_mod q r : 0 <= r < 64 -> (q * 64 + r) mod 64 = r.
Proof.
  intros Hr. symmetry. apply (Z.mod_unique (q * 64 + r) 64 q r); lia.
Qed.

Lemma utf8_decode_cons_inv b0 r0 x :
  utf8_decode (b0 :: r0) = Some x ->
  exists c rest x',
    x = c :: x' /\ b0 :: r0 = utf8_encode_char c ++ rest
    /\ encodable c = true /\ utf8_decode rest = Some x'.
Proof.
  cbn [utf8_decode].
  destruct ((0 <=? b0) && (b0 <? 128)) eqn:C1.
  { intros H. destruct (utf8_decode r0) as [x'|] eqn:E; [|discriminate].
    injection H as <-. exists b0, r0, x'.
    apply andb_true_iff in C1 as [Ha Hb]. apply Z.leb_le in Ha. apply Z.ltb_lt in Hb.
    unfold utf8_encode_char, encodable. decide_cmp. repeat split; first [reflexivity|assumption]. }
  destruct ((194 <=? b0) && (b0 <? 224)) eqn:C2.
  { destruct r0 as [|b1 r1]; [discriminate|].
    unfold is_cont. destruct ((128 <=? b1) && (b1 <=? 191)) eqn:K1; [|discriminate].
    intros H. destruct (utf8_decode r1) as [x'|] eqn:E; [|discriminate].
    injection H as <-.
    apply andb_true_iff in C2 as [Ha Hb]. apply Z.leb_le in Ha. apply Z.ltb_lt in Hb.
    apply andb_true_iff in K1 as [Hc Hd]. apply Z.leb_le in Hc, Hd.
    exists ((b0 - 192) * 64 + (b1 - 128)), r1, x'.
    rewrite utf8_encode_char_digits.
    rewrite !digits_div, !digits_mod by lia.
    unfold encodable. decide_cmp. cbn [app andb orb].
    repeat split; try reflexivity; try assumption. repeat (f_equal; try lia). }
  destruct ((224 <=? b0) && (b0 <? 240)) eqn:C3.
  { destruct r0 as [|b1 [|b2 r2]]; try discriminate.
    unfold is_cont.
    destruct ((128 <=? b1) && (b1 <=? 191) && ((128 <=? b2) && (b2 <=? 191))
              && (negb (b0 =? 224) || (160 <=? b1))
              && (negb (b0 =? 237) || (b1 <=? 159))) eqn:K; [|discriminate].
    intros H. destruct (utf8_decode r2) as [x'|] eqn:E; [|discriminate].
    injection H as <-.
    apply andb_true_iff in C3 as [Ha Hb]. apply Z.leb_le in Ha. apply Z.ltb_lt in Hb.
    apply andb_true_iff in K as [K K4]. apply andb_true_iff in K as [K K3].
    apply andb_true_iff in K as [K1 K2].
    apply andb_true_iff in K1 as [Hc Hd]. apply Z.leb_le in Hc, Hd.
    apply andb_true_iff in K2 as [He Hf]. apply Z.leb_le in He, Hf.
    assert (Hlo : b0 = 224 -> 160 <= b1).
    { intros ->. cbn in K3. apply Z.leb_le in K3. exact K3. }
    assert (Hhi : b0 = 237 -> b1 <= 159).
    { intros ->. cbn in K4. apply Z.leb_le in K4. exact K4. }
    exists ((b0 - 224) * 4096 + (b1 - 128) * 64 + (b2 - 128)), r2, x'.
    rewrite utf8_encode_char_digits.
    replace ((b0 - 224) * 4096 + (b1 - 128) * 64 + (b2 - 128))
      with (((b0 - 224) * 64 + (b1 - 128)) * 64 + (b2 - 128)) by lia.
    rewrite !digits_div, !digits_mod by lia.
    unfold encodable. decide_cmp. cbn [app andb orb].
    repeat split; try reflexivity; try assumption.
    - repeat (f_equal; try lia).
    - destruct (Z.ltb_spec (((b0 - 224) * 64 + (b1 - 128)) * 64 + (b2 - 128)) 55296);
        [reflexivity|].
      destruct (Z.leb_spec 57344 (((b0 - 224) * 64 + (b1 - 128)) * 64 + (b2 - 128)));
        [reflexivity|]. exfalso. lia. }
  destruct ((240 <=? b0) && (b0 <? 245)) eqn:C4; [|discriminate].
  destruct r0 as [|b1 [|b2 [|b3 r3]]]; try discriminate.
  unfold is_cont.
  destruct ((128 <=? b1) && (b1 <=? 191) && ((128 <=? b2) && (b2 <=? 191))
            && ((128 <=? b3) && (b3 <=? 191))
            && (negb (b0 =? 240) || (144 <=? b1))
            && (negb (b0 =? 244) || (b1 <=? 143))) eqn:K; [|discriminate].
  intros H. destruct (utf8_decode r3) as [x'|] eqn:E; [|discriminate].
  injection H as <-.
  apply andb_true_iff in C4 as [Ha Hb]. apply Z.leb_le in Ha. apply Z.ltb_lt in Hb.
  apply andb_true_iff in K as [K K5]. apply andb_true_iff in K as [K K4].
  apply andb_true_iff in K as [K K3]. apply andb_true_iff in K as [K1 K2].
  apply andb_true_iff in K1 as [Hc Hd]. apply Z.leb_le in Hc, Hd.
  apply andb_true_iff in K2 as [He Hf]. apply Z.leb_le in He, Hf.
  apply andb_true_iff in K3 as [Hg Hh]. apply Z.leb_le in Hg, Hh.
  assert (Hlo : b0 = 240 -> 144 <= b1).
  { intros ->. cbn in K4. apply Z.leb_le in K4. exact K4. }
  assert (Hhi : b0 = 244 -> b1 <= 143).
  { intros ->. cbn in K5. apply Z.leb_le in K5. exact K5. }
  exists ((b0 - 240) * 262144 + (b1 - 128) * 4096 + (b2 - 128) * 64 + (b3 - 128)), r3, x'.
  rewrite utf8_encode_char_digits.
  replace ((b0 - 240) * 262144 + (b1 - 128) * 4096 + (b2 - 128) * 64 + (b3 - 128))
    with ((((b0 - 240) * 64 + (b1 - 128)) * 64 + (b2 - 128)) * 64 + (b3 - 128)) by lia.
  rewrite !digits_div, !digits_mod by lia.
  unfold encodable. decide_cmp. cbn [app andb orb].
  repeat split; try reflexivity; try assumption.
  repeat (f_equal; try lia).
Qed.

Lemma utf8_decode_sound_bounded n :
  forall bs x,
    (List.length bs <= n)%nat ->
    utf8_decode bs = Some x ->
    utf8_encode x = bs /\ forallb encodable x = true.
Proof.
  induction n as [|n IH]; intros bs x Hlen H.
  - destruct bs; [|cbn in Hlen; lia]. injection H as <-. split; reflexivity.
  - destruct bs as [|b0 r0]; [injection H as <-; split; reflexivity|].
    destruct (utf8_decode_cons_inv b0 r0 x H) as (c & rest & x' & -> & Hbs & Hc & Hrest).
    assert (Hshort : (List.length rest <= n)%nat).
    { apply (f_equal (@List.length Z)) in Hbs. rewrite length_app in Hbs.
      cbn [List.length] in Hbs, Hlen.
      assert (0 < List.length (utf8_encode_char c))%nat; [|lia].
      unfold utf8_encode_char.
      destruct (c <? 128); [|destruct (c <? 2048); [|destruct (c <? 65536)]]; cbn; lia. }
    destruct (IH rest x' Hshort Hrest) as [He Hf].
    split.
    + unfold utf8_encode in *. cbn [flat_map]. rewrite He. symmetry. exact Hbs.
    + cbn [forallb]. rewrite Hc, Hf. reflexivity.
Qed.

(** X4. The content that [decode_attachment] yields is text that UTF-8 can
    encode, and the bytes that the base64 text after the first comma
    decodes to are exactly its UTF-8 encoding: nothing is replaced or
    dropped by the text decoding. *)
Theorem decode_attachment_sound a x :
  decode_attachment a = Ok (Some x) ->
  forallb encodable x = true
  /\ exists header encoded,
       find_comma (att_url a) = Some (header, encoded)
       /\ b64decode encoded = Ok (utf8_encode x).
Proof.
  unfold decode_attachment, decode_attachment_body, split_comma_1.
  destruct (find_comma (att_url a)) as [[header encoded]|]; [|discriminate].
  cbn [unpack2 res_bind].
  destruct (b64decode encoded) as [raw|e] eqn:Eb; [|discriminate].
  cbn [res_bind]. unfold bytes_decode_utf8.
  destruct (utf8_decode raw) as [s|] eqn:E; [|discriminate].
  cbn [res_bind res_try]. intros H. injection H as ->.
  destruct (utf8_decode_sound_bounded (List.length raw) raw x (le_n _) E) as [He Hf].
  split; [exact Hf|]. exists header, encoded. split; [reflexivity|]. rewrite He. exact Eb.
Qed.

Lemma decode_attachment_sound_witness :
  decode_attachment (mkAttachment (lit "a.txt") (lit "data:,4oKs")) = Ok (Some [8364])
  /\ forallb encodable [8364] = true
  /\ b64decode (lit "4oKs") = Ok (utf8_encode [8364]).
Proof.
  assert (H : decode_attachment (mkAttachment (lit "a.txt") (lit "data:,4oKs"))
              = Ok (Some [8364])) by (vm_compute; reflexivity).
  split; [exact H|].
  destruct (decode_attachment_sound _ _ H) as [Hf _].
  split; [exact Hf|]. vm_compute. reflexivity.
Defined.

(** ** The generated code *)

Lemma startswith_app p s : startswith (p ++ s) p = true.
Proof.
  induction p as [|c p IH]; [destruct s; reflexivity|].
  cbn [app startswith]. rewrite Z.eqb_refl. exact IH.
Qed.

Lemma endswith_app s p : endswith (s ++ p) p = true.
Proof. unfold endswith. rewrite rev_app_distr. apply startswith_app. Qed.

Lemma lstrip_padded pre c r :
  forallb isspace pre = true -> isspace c = false ->
  lstrip (pre ++ c :: r) = c :: r.
Proof.
  intros Hpre Hc. induction pre as [|d pre IH]; cbn [app lstrip].
  - rewrite Hc. reflexivity.
  - cbn [forallb] in Hpre. apply andb_true_iff in Hpre as [Hd Hpre].
    rewrite Hd. apply IH. exact Hpre.
Qed.

Lemma forallb_rev {A} (f : A -> bool) l : forallb f l = true -> forallb f (rev l) = true.
Proof.
  intros H. apply forallb_forall. intros x Hx. apply in_rev in Hx.
  rewrite forallb_forall in H. apply H. exact Hx.
Qed.

Lemma rstrip_padded r c post :
  forallb isspace post = true -> isspace c = false ->
  rstrip (r ++ c :: post) = r ++ [c].
Proof.
  intros Hpost Hc. unfold rstrip.
  rewrite rev_app_distr. cbn [rev]. rewrite <- !app_assoc. cbn [app].
  rewrite lstrip_padded by (try apply forallb_rev; assumption).
  change (c :: rev r) with ([c] ++ rev r).
  rewrite rev_app_distr, rev_involutive. reflexivity.
Qed.

(** X5. When the first choice's content is a page between a leading
    [```html] and a trailing [```], with any whitespace before and after,
    the generated code is exactly the text between the two fences (which
    may itself begin or end with whitespace or contain fences). *)
Theorem generate_code_between_fences env cfg request s response pre body post :
  env_post env (trace s) (llm_request cfg request) = Ok response ->
  status_code response = 200 ->
  first_choice_content response
  = Ok (JStr (pre ++ lit "```html" ++ body ++ lit "```" ++ post)) ->
  forallb isspace pre = true ->
  forallb isspace post = true ->
  fst (generate_code env cfg request s) = Ok body.
Proof.
  intros Hpost Hstatus Hcontent Hpre Hpo.
  rewrite generate_code_unfold. cbv zeta. rewrite Hpost, Hstatus. cbn [Z.eqb Pos.eqb negb].
  rewrite Hcontent. cbn [res_bind method_strip fst]. f_equal.
  unfold strip.
  change (lit "```html") with (96 :: lit "``html").
  cbn [app]. rewrite lstrip_padded by (try assumption; reflexivity).
  replace (96 :: lit "``html" ++ body ++ lit "```" ++ post)
    with ((lit "```html" ++ body ++ lit "``") ++ 96 :: post).
  2:{ rewrite <- !app_assoc. reflexivity. }
  rewrite rstrip_padded by (try assumption; reflexivity).
  replace ((lit "```html" ++ body ++ lit "``") ++ [96])
    with (lit "```html" ++ body ++ lit "```").
  2:{ rewrite <- !app_assoc. reflexivity. }
  unfold strip_fences, slice_from, slice_to_neg.
  rewrite startswith_app.
  change (skipn 7 (lit "```html" ++ body ++ lit "```")) with (body ++ lit "```").
  rewrite endswith_app, length_app.
  change (List.length (lit "```")) with 3%nat.
  replace (List.length body + 3 - 3)%nat with (List.length body + 0)%nat by lia.
  rewrite firstn_app_2. cbn [firstn]. apply app_nil_r.
Qed.

Lemma generate_code_between_fences_witness :
  let content := lit " " ++ lit "```html" ++ [newline; 60; 112; 62; newline]
                 ++ lit "```" ++ [newline] in
  let env := demo_env (Ok (llm_response content)) always_200 in
  forallb isspace (lit " ") = true
  /\ forallb isspace [newline] = true
  /\ fst (generate_code env demo_cfg (demo_request []) empty_state)
     = Ok [newline; 60; 112; 62; newline].
Proof.
  cbv zeta. split; [reflexivity|]. split; [reflexivity|].
  exact (generate_code_between_fences
           (demo_env (Ok (llm_response (lit " " ++ lit "```html"
                                        ++ [newline; 60; 112; 62; newline]
                                        ++ lit "```" ++ [newline]))) always_200)
           demo_cfg (demo_request []) empty_state
           (llm_response (lit " " ++ lit "```html" ++ [newline; 60; 112; 62; newline]
                          ++ lit "```" ++ [newline]))
           (lit " ") [newline; 60; 112; 62; newline] [newline]
           eq_refl eq_refl eq_refl eq_refl eq_refl).
Defined.

(** ** The files to commit *)

Lemma add_attachments_total atts :
  forall files, exists d, add_attachments atts files = Ok d.
Proof.
  induction atts as [|a atts IH]; intros files; cbn [add_attachments]; [eauto|].
  destruct (decode_attachment_total a) as [content ->]. cbn [res_bind].
  destruct content as [[|c s]|]; apply IH.
Qed.

Lemma add_attachments_frame atts k :
  (forall a, In a atts -> att_name a <> k) ->
  forall files d, add_attachments atts files = Ok d -> dict_get d k = dict_get files k.
Proof.
  induction atts as [|a atts IH]; intros Hk files d H; cbn [add_attachments] in H.
  - injection H as <-. reflexivity.
  - assert (Hrest : forall b, In b atts -> att_name b <> k)
      by (intros b Hb; apply Hk; right; exact Hb).
    destruct (decode_attachment a) as [[[|c s]|]|e]; cbn [res_bind] in H;
      try discriminate; try (apply (IH Hrest _ _ H)).
    rewrite (IH Hrest _ _ H). apply dict_get_set_other.
    intros E. apply (Hk a); [left; reflexivity|]. symmetry. exact E.
Qed.

Lemma add_attachments_app pre post files :
  add_attachments (pre ++ post) files
  = res_bind (add_attachments pre files) (add_attachments post).
Proof.
  revert files. induction pre as [|a pre IH]; intros files; [reflexivity|].
  cbn [app add_attachments].
  destruct (decode_attachment a) as [[[|c s]|]|e]; cbn [res_bind]; try apply IH; reflexivity.
Qed.

(** X6. Building the files to commit never fails.  An entry whose name no
    attachment bears is as in the fixed set: the generated code under
    [index.html], the README, the licence.  An attachment that decodes to
    non-empty content is stored under its name and replaces whatever was
    there, the generated page included, unless a later attachment bears
    the same name. *)
Theorem build_files_entries request generated_code :
  exists files,
    build_files request generated_code = Ok files
    /\ (forall k,
           (forall a, In a (attachments request) -> att_name a <> k) ->
           dict_get files k
           = dict_get [ (lit "index.html", generated_code);
                        (lit "README.md", readme_content request (task request));
                        (lit "LICENSE", MIT_LICENSE_TEXT) ] k)
    /\ (forall pre a post c t,
           attachments request = pre ++ a :: post ->
           decode_attachment a = Ok (Some (c :: t)) ->
           (forall b, In b post -> att_name b <> att_name a) ->
           dict_get files (att_name a) = Some (c :: t)).
Proof.
  unfold build_files.
  destruct (add_attachments_total (attachments request)
              [ (lit "index.html", generated_code);
                (lit "README.md", readme_content request (task request));
                (lit "LICENSE", MIT_LICENSE_TEXT) ]) as [files Hfiles].
  exists files. split; [exact Hfiles|]. split.
  - intros k Hk. eapply add_attachments_frame; eassumption.
  - intros pre a post c t Hatts Ha Hpost.
    rewrite Hatts, add_attachments_app in Hfiles.
    destruct (add_attachments pre _) as [d1|e]; [|discriminate].
    cbn [res_bind add_attachments] in Hfiles. rewrite Ha in Hfiles.
    cbn [res_bind] in Hfiles.
    rewrite (add_attachments_frame post (att_name a) Hpost _ _ Hfiles).
    apply dict_get_set_same.
Qed.

Lemma build_files_entries_witness :
  let page := mkAttachment (lit "index.html") (lit "data:,aGk=") in
  let request := demo_request [page] in
  attachments request = [] ++ page :: []
  /\ decode_attachment page = Ok (Some (lit "hi"))
  /\ exists files,
       build_files request (lit "<p>generated</p>") = Ok files
       /\ dict_get files (lit "index.html") = Some (lit "hi")
       /\ dict_get files (lit "LICENSE") = Some MIT_LICENSE_TEXT.
Proof.
  cbv zeta. split; [reflexivity|]. split; [reflexivity|].
  destruct (build_files_entries
              (demo_request [mkAttachment (lit "index.html") (lit "data:,aGk=")])
              (lit "<p>generated</p>")) as (files & Hb & Hframe & Hover).
  exists files. split; [exact Hb|]. split.
  - apply (Hover [] (mkAttachment (lit "index.html") (lit "data:,aGk=")) [] 104 [105]).
    + reflexivity.
    + reflexivity.
    + intros b [].
  - rewrite (Hframe (lit "LICENSE")); [reflexivity|].
    intros a [<-|[]]. vm_compute. discriminate.
Defined.

(** ** The request handler, accepting *)

(** X7. When the secret of the request equals the configured secret, the
    handler answers that the request was received and schedules exactly
    this request after the tasks already there; what serving the request
    then does to the state is what one background job does. *)
Theorem handle_task_request_accepts env cfg request background_tasks s :
  Some (secret request) = MY_SECRET cfg ->
  handle_task_request cfg request background_tasks
  = ([(lit "status", lit "Request received. Processing in background.")],
     background_tasks ++ [request])
  /\ snd (serve env cfg request s)
     = snd (process_task_in_background env cfg request s).
Proof.
  intros Heq.
  assert (E : opt_str_eqb (Some (secret request)) (MY_SECRET cfg) = true)
    by (apply opt_str_eqb_eq; exact Heq).
  unfold serve, handle_task_request. rewrite E. cbn [negb app run_background_tasks].
  split; [reflexivity|].
  unfold bind, ret.
  destruct (process_task_in_background env cfg request s) as [[[]|e] s']; reflexivity.
Qed.

Lemma handle_task_request_accepts_witness :
  let env := demo_env (Ok (llm_response (lit "<p>ok</p>"))) always_200 in
  Some (secret (demo_request [])) = MY_SECRET demo_cfg
  /\ snd (handle_task_request demo_cfg (demo_request []) []) = [demo_request []]
  /\ List.length (trace (snd (serve env demo_cfg (demo_request []) empty_state))) = 16%nat.
Proof.
  cbv zeta.
  destruct (handle_task_request_accepts
              (demo_env (Ok (llm_response (lit "<p>ok</p>"))) always_200)
              demo_cfg (demo_request []) [] empty_state eq_refl) as [Hh Hs].
  split; [reflexivity|]. split; [rewrite Hh; reflexivity|].
  rewrite Hs. vm_compute. reflexivity.
Defined.

(** ** Generation failures *)

(** X8. Whatever exception the generation step raises (the request to the
    service fails, the body is not the expected JSON, the content is not
    text), the background job is one call of [notify_grader] with the
    message "LLM generation failed: " followed by the text of the
    exception, made right after the request to the service, and no call to
    GitHub follows. *)
Theorem generation_exception_notifies env cfg request s e :
  fst (generate_code env cfg request s) = Raise e ->
  let message := lit "LLM generation failed: " ++ exn_str e in
  let url := evaluation_url request in
  let payload := initial_payload request ++ [(lit "error", PStr message)] in
  let run := process_task_in_background env cfg request s in
  run = notify_grader env url (List.length (heap s)) (Some message)
          (mkState (trace s ++ [llm_request cfg request])
                   (heap s ++ [initial_payload request]))
  /\ exists m,
       trace (snd run)
       = trace s ++ llm_request cfg request :: firstn m (retry_schedule url payload)
       /\ forall ev, In ev (llm_request cfg request :: firstn m (retry_schedule url payload)) ->
                     is_repo_event ev = false.
Proof.
  intros Hgen. cbv zeta.
  assert (E : process_task_in_background env cfg request s
              = notify_grader env (evaluation_url request) (List.length (heap s))
                  (Some (lit "LLM generation failed: " ++ exn_str e))
                  (mkState (trace s ++ [llm_request cfg request])
                           (heap s ++ [initial_payload request]))).
  { rewrite process_task_in_background_unfold. cbv zeta.
    pose proof (generate_code_heap_irrelevant env cfg request s
                  (heap s ++ [initial_payload request])) as Hf.
    pose proof (generate_code_trace env cfg request
                  (mkState (trace s) (heap s ++ [initial_payload request]))) as Ht.
    pose proof (generate_code_heap env cfg request
                  (mkState (trace s) (heap s ++ [initial_payload request]))) as Hh.
    rewrite Hgen in Hf.
    destruct (generate_code env cfg request
                (mkState (trace s) (heap s ++ [initial_payload request])))
      as [[code|e'] [tr hp]]; cbn [fst snd trace heap] in *; [discriminate|].
    injection Hf as ->. subst tr hp. reflexivity. }
  split; [exact E|].
  rewrite E, notify_grader_unfold.
  change (truthy (Some (lit "LLM generation failed: " ++ exn_str e))) with true.
  cbv iota. cbn [trace heap pyval_of_opt].
  rewrite heap_read_length, heap_write_length.
  match goal with
  | |- context [notify_attempts env 4 1 ?u ?p ?s1] =>
      destruct (notify_attempts_prefix env u p 4 1 s1) as (_ & m & _ & Ht)
  end.
  cbn [trace heap] in Ht. rewrite heap_read_length in Ht.
  exists m. split.
  - rewrite Ht, <- app_assoc. reflexivity.
  - intros ev [<-|Hin]; [reflexivity|].
    apply in_schedule_prefix in Hin as [->|[w ->]]; reflexivity.
Qed.

(** X9. What the generation step raises on a response it cannot use: the
    exception of the request itself; the exception of [response.json()];
    [KeyError] with text ['choices'] when the body has no such key;
    [IndexError] when the list of choices is empty; [AttributeError] when
    the content is [None]. *)
Theorem generate_code_unusable_response env cfg request s :
  (forall e, env_post env (trace s) (llm_request cfg request) = Raise e ->
             fst (generate_code env cfg request s) = Raise e)
  /\ (forall response,
         env_post env (trace s) (llm_request cfg request) = Ok response ->
         status_code response = 200 ->
         (forall e, json response = Raise e ->
                    fst (generate_code env cfg request s) = Raise e)
         /\ (forall body, json response = Ok (JDict body) ->
                          dict_get body (lit "choices") = None ->
                          fst (generate_code env cfg request s)
                          = Raise (mkExn KeyError (lit "'choices'")))
         /\ (forall body, json response = Ok (JDict body) ->
                          dict_get body (lit "choices") = Some (JList []) ->
                          fst (generate_code env cfg request s)
                          = Raise (mkExn IndexError (lit "list index out of range")))
         /\ (forall body first rest message,
                json response = Ok (JDict body) ->
                dict_get body (lit "choices") = Some (JList (JDict first :: rest)) ->
                dict_get first (lit "message") = Some (JDict message) ->
                dict_get message (lit "content") = Some JNone ->
                fst (generate_code env cfg request s)
                = Raise (mkExn AttributeError
                           (lit "'NoneType' object has no attribute 'strip'")))).
Proof.
  split.
  - intros e He. rewrite generate_code_unfold. cbv zeta. rewrite He. reflexivity.
  - intros response Hpost Hstatus.
    assert (E : fst (generate_code env cfg request s)
                = res_bind (first_choice_content response) (fun content =>
                  res_bind (method_strip content) (fun generated_code =>
                  Ok (strip_fences generated_code)))).
    { rewrite generate_code_unfold. cbv zeta. rewrite Hpost, Hstatus. reflexivity. }
    rewrite E. unfold first_choice_content.
    split; [|split; [|split]].
    + intros e ->. reflexivity.
    + intros body -> Hc. cbn [res_bind getitem_str]. rewrite Hc. reflexivity.
    + intros body -> Hc. cbn [res_bind getitem_str]. rewrite Hc. reflexivity.
    + intros body first rest message -> Hc Hm Hn.
      cbn [res_bind getitem_str]. rewrite Hc. cbn [res_bind getitem_0 getitem_str].
      rewrite Hm. cbn [res_bind getitem_str]. rewrite Hn. reflexivity.
Qed.

Lemma generate_code_unusable_response_witness :
  let response := mkResponse 200 [] (Ok (JDict [(lit "choices", JList [])])) in
  let env := demo_env (Ok response) always_200 in
  fst (generate_code env demo_cfg (demo_request []) empty_state)
  = Raise (mkExn IndexError (lit "list index out of range")).
Proof.
  cbv zeta.
  destruct (generate_code_unusable_response
              (demo_env (Ok (mkResponse 200 [] (Ok (JDict [(lit "choices", JList [])]))))
                        always_200)
              demo_cfg (demo_request []) empty_state) as [_ H].
  destruct (H _ eq_refl eq_refl) as (_ & _ & Hi & _).
  exact (Hi _ eq_refl eq_refl).
Defined.

Lemma generation_exception_notifies_witness :
  let response := mkResponse 200 [] (Ok (JDict [(lit "error", JStr (lit "quota"))])) in
  let env := demo_env (Ok response) always_200 in
  let request := demo_request [] in
  fst (generate_code env demo_cfg request empty_state)
  = Raise (mkExn KeyError (lit "'choices'"))
  /\ trace (snd (process_task_in_background env demo_cfg request empty_state))
     = [ llm_request demo_cfg request;
         EvPostNotify (lit "https://grader.example/cb")
           (initial_payload request
            ++ [(lit "error", PStr (lit "LLM generation failed: 'choices'"))]) ].
Proof.
  cbv zeta.
  assert (H : fst (generate_code
                     (demo_env (Ok (mkResponse 200 []
                                      (Ok (JDict [(lit "error", JStr (lit "quota"))]))))
                               always_200)
                     demo_cfg (demo_request []) empty_state)
              = Raise (mkExn KeyError (lit "'choices'"))) by (vm_compute; reflexivity).
  split; [exact H|].
  destruct (generation_exception_notifies _ _ _ _ _ H) as [E _].
  rewrite E. vm_compute. reflexivity.
Defined.

(** ** The publisher, call by call *)

(** X11. The publisher only talks to GitHub (and waits after creating a
    repository): it makes no request to the generation service or to the
    callback, every file it writes is an entry of the mapping it was given,
    with that entry's content, and it changes no dictionary of the heap. *)
Theorem create_or_update_repo_footprint env cfg repo_name files commit_message s :
  let s' := snd (create_or_update_repo env cfg repo_name files commit_message s) in
  heap s' = heap s
  /\ exists evs,
       trace s' = trace s ++ evs
       /\ forall ev, In ev evs ->
            (is_repo_event ev = true \/ exists w, ev = EvSleep w)
            /\ forall path content, written_file ev = Some (path, content) ->
                                    In (path, content) files.
Proof.
  cbv zeta. split.
  - apply keeps_heap_create_or_update_repo.
  - destruct (emits_create_or_update_repo env cfg repo_name files commit_message s)
      as (evs & Ht & Hq).
    exists evs. split; [exact Ht|].
    intros ev Hin. rewrite Forall_forall in Hq. exact (Hq ev Hin).
Qed.

Lemma write_files_cons env path content rest commit_message s :
  write_files env ((path, content) :: rest) commit_message s =
  let s1 := mkState (trace s ++ [EvGetContents path]) (heap s) in
  match env_get_contents env (trace s) path with
  | Ok sha =>
      let s2 := mkState (trace s1 ++ [EvUpdateFile path commit_message content sha])
                        (heap s) in
      match env_update_file env (trace s1) path commit_message content sha with
      | Ok _ => write_files env rest commit_message s2
      | Raise e =>
          if is_GithubException e then
            match env_create_file env (trace s2) path commit_message content with
            | Ok _ =>
                write_files env rest commit_message
                  (mkState (trace s2 ++ [EvCreateFile path commit_message content]) (heap s))
            | Raise e' =>
                (Raise e',
                 mkState (trace s2 ++ [EvCreateFile path commit_message content]) (heap s))
            end
          else (Raise e, s2)
      end
  | Raise e =>
      if is_GithubException e then
        match env_create_file env (trace s1) path commit_message content with
        | Ok _ =>
            write_files env rest commit_message
              (mkState (trace s1 ++ [EvCreateFile path commit_message content]) (heap s))
        | Raise e' =>
            (Raise e',
             mkState (trace s1 ++ [EvCreateFile path commit_message content]) (heap s))
        end
      else (Raise e, s1)
  end.
Proof.
  cbn [write_files]. unfold bind, try_except, call. cbn [trace heap]. cbv zeta.
  destruct (env_get_contents env (trace s) path) as [sha|e].
  - destruct (env_update_file env _ path commit_message content sha) as [[]|e].
    + reflexivity.
    + destruct (is_GithubException e); [|reflexivity].
      destruct (env_create_file env _ path commit_message content) as [[]|e'];
        reflexivity.
  - destruct (is_GithubException e); [|reflexivity].
    destruct (env_create_file env _ path commit_message content) as [[]|e']; reflexivity.
Qed.

(** X12. In a repository where no file exists yet (every read fails with a
    GitHub exception) and creation succeeds, the loop reads and then
    creates each file of the mapping, in the order of the mapping, and
    updates none. *)
Theorem write_files_all_new env commit_message :
  (forall history path, exists e,
      env_get_contents env history path = Raise e /\ is_GithubException e = true) ->
  (forall history path content,
      env_create_file env history path commit_message content = Ok tt) ->
  forall files s,
    write_files env files commit_message s
    = (Ok tt,
       mkState (trace s
                ++ flat_map (fun file =>
                               [ EvGetContents (fst file);
                                 EvCreateFile (fst file) commit_message (snd file) ])
                            files)
               (heap s)).
Proof.
  intros Hread Hcreate files. induction files as [|[path content] files IH]; intros s.
  - cbn. rewrite app_nil_r. destruct s; reflexivity.
  - rewrite write_files_cons. cbv zeta.
    destruct (Hread (trace s) path) as (e & -> & ->).
    cbn [trace]. rewrite Hcreate, IH. cbn [trace heap flat_map fst snd].
    rewrite <- !app_assoc. reflexivity.
Qed.

(** X13. In a repository where every file exists and updating succeeds, the
    loop reads each file of the mapping and updates it with the version
    token that the read returned, in the order of the mapping, and creates
    none. *)
Theorem write_files_all_existing env commit_message (sha : str -> str) :
  (forall history path, env_get_contents env history path = Ok (sha path)) ->
  (forall history path content,
      env_update_file env history path commit_message content (sha path) = Ok tt) ->
  forall files s,
    write_files env files commit_message s
    = (Ok tt,
       mkState (trace s
                ++ flat_map (fun file =>
                               [ EvGetContents (fst file);
                                 EvUpdateFile (fst file) commit_message (snd file)
                                              (sha (fst file)) ])
                            files)
               (heap s)).
Proof.
  intros Hread Hupdate files. induction files as [|[path content] files IH]; intros s.
  - cbn. rewrite app_nil_r. destruct s; reflexivity.
  - rewrite write_files_cons. cbv zeta.
    rewrite Hread. cbn [trace]. rewrite Hupdate, IH. cbn [trace heap flat_map fst snd].
    rewrite <- !app_assoc. reflexivity.
Qed.

(** X14. A file whose update fails with a GitHub exception is created
    instead: the handler of the read also covers the update.  A read that
    fails with another exception ends the loop at once: the rest of the
    mapping is not touched. *)
Theorem write_files_fallbacks env path content rest commit_message s :
  (forall sha e,
      env_get_contents env (trace s) path = Ok sha ->
      env_update_file env (trace s ++ [EvGetContents path]) path commit_message content sha
      = Raise e ->
      is_GithubException e = true ->
      env_create_file env
        (trace s ++ [EvGetContents path; EvUpdateFile path commit_message content sha])
        path commit_message content = Ok tt ->
      write_files env ((path, content) :: rest) commit_message s
      = write_files env rest commit_message
          (mkState (trace s ++ [ EvGetContents path;
                                 EvUpdateFile path commit_message content sha;
                                 EvCreateFile path commit_message content ])
                   (heap s)))
  /\ (forall e,
         env_get_contents env (trace s) path = Raise e ->
         is_GithubException e = false ->
         write_files env ((path, content) :: rest) commit_message s
         = (Raise e, mkState (trace s ++ [EvGetContents path]) (heap s))).
Proof.
  split.
  - intros sha e Hread Hupdate He Hcreate.
    rewrite write_files_cons. cbv zeta. rewrite Hread. cbn [trace].
    rewrite Hupdate, He. rewrite <- !app_assoc. cbn [app].
    rewrite Hcreate. reflexivity.
  - intros e Hread He. rewrite write_files_cons. cbv zeta. rewrite Hread, He. reflexivity.
Qed.

Lemma write_files_all_new_witness :
  let env := account_env (Ok tt) (Ok demo_repo) (fun _ => Raise not_found) (Ok tt)
                         pages_created in
  write_files env [(lit "a", lit "1"); (lit "b", lit "2")] (lit "msg") empty_state
  = (Ok tt,
     mkState [ EvGetContents (lit "a"); EvCreateFile (lit "a") (lit "msg") (lit "1");
               EvGetContents (lit "b"); EvCreateFile (lit "b") (lit "msg") (lit "2") ]
             []).
Proof.
  cbv zeta.
  rewrite (write_files_all_new
             (account_env (Ok tt) (Ok demo_repo) (fun _ => Raise not_found) (Ok tt)
                          pages_created)
             (lit "msg")
             (fun _ _ => ex_intro _ not_found (conj eq_refl eq_refl))
             (fun _ _ _ => eq_refl)).
  reflexivity.
Defined.

Lemma write_files_all_existing_witness :
  let env := account_env (Ok tt) (Ok demo_repo) (fun path => Ok (lit "sha-" ++ path))
                         (Ok tt) pages_created in
  write_files env [(lit "a", lit "1"); (lit "b", lit "2")] (lit "msg") empty_state
  = (Ok tt,
     mkState [ EvGetContents (lit "a");
               EvUpdateFile (lit "a") (lit "msg") (lit "1") (lit "sha-a");
               EvGetContents (lit "b");
               EvUpdateFile (lit "b") (lit "msg") (lit "2") (lit "sha-b") ]
             []).
Proof.
  cbv zeta.
  rewrite (write_files_all_existing
             (account_env (Ok tt) (Ok demo_repo) (fun path => Ok (lit "sha-" ++ path))
                          (Ok tt) pages_created)
             (lit "msg") (fun path => lit "sha-" ++ path)
             (fun _ _ => eq_refl) (fun _ _ _ => eq_refl)).
  reflexivity.
Defined.

Lemma write_files_fallbacks_witness :
  let env := account_env (Ok tt) (Ok demo_repo) (fun path => Ok (lit "sha-" ++ path))
                         (Raise not_found) pages_created in
  write_files env [(lit "a", lit "1")] (lit "msg") empty_state
  = (Ok tt,
     mkState [ EvGetContents (lit "a");
               EvUpdateFile (lit "a") (lit "msg") (lit "1") (lit "sha-a");
               EvCreateFile (lit "a") (lit "msg") (lit "1") ]
             []).
Proof.
  cbv zeta.
  destruct (write_files_fallbacks
              (account_env (Ok tt) (Ok demo_repo) (fun path => Ok (lit "sha-" ++ path))
                           (Raise not_found) pages_created)
              (lit "a") (lit "1") [] (lit "msg") empty_state) as [H _].
  rewrite (H (lit "sha-a") not_found eq_refl eq_refl eq_refl eq_refl).
  reflexivity.
Defined.

(** *** Lookup, creation and the rest *)

Lemma create_or_update_repo_body_unfold env cfg repo_name files commit_message s :
  create_or_update_repo_body env cfg repo_name files commit_message s =
  let s1 := mkState (trace s ++ [EvGetUser]) (heap s) in
  let s2 := mkState (trace s1 ++ [EvGetRepo repo_name]) (heap s) in
  let s3 := mkState (trace s2 ++ [EvCreateRepo repo_name]) (heap s) in
  let s4 := mkState (trace s3 ++ [EvSleep 2]) (heap s) in
  match env_get_user env (trace s) with
  | Raise e => (Raise e, s1)
  | Ok _ =>
      match env_get_repo env (trace s1) repo_name with
      | Ok repo => publish_into env cfg repo repo_name files commit_message s2
      | Raise e =>
          if is_GithubException e then
            match env_create_repo env (trace s2) repo_name with
            | Ok repo => publish_into env cfg repo repo_name files commit_message s4
            | Raise e' => (Raise e', s3)
            end
          else (Raise e, s2)
      end
  end.
Proof.
  unfold create_or_update_repo_body, publish_into. cbv zeta.
  unfold bind at 1. unfold call at 1.
  destruct (env_get_user env (trace s)) as [[]|e]; [|reflexivity].
  unfold bind at 1. unfold try_except at 1. unfold call at 1. cbn [trace heap].
  destruct (env_get_repo env (trace s ++ [EvGetUser]) repo_name) as [repo|e];
    [reflexivity|].
  destruct (is_GithubException e); [|reflexivity].
  unfold bind at 1. unfold call at 1. cbn [trace heap].
  destruct (env_create_repo env _ repo_name) as [repo|e']; [|reflexivity].
  reflexivity.
Qed.

Lemma emits_write_files_kind env (Q : Event -> Prop) files commit_message :
  (forall ev, is_create_repo ev = false -> is_pages_post ev = false ->
              is_repo_event ev = true -> Q ev) ->
  emits Q (write_files env files commit_message).
Proof.
  intros HQ. induction files as [|[path content] files IH]; cbn [write_files].
  - apply emits_ret.
  - apply emits_bind; [|intros _; exact IH].
    apply emits_try_except.
    + apply emits_bind; [apply emits_call; apply HQ; reflexivity|].
      intros sha. apply emits_call. apply HQ; reflexivity.
    + intros _. apply emits_call. apply HQ; reflexivity.
Qed.

Lemma emits_publish_into env cfg repo repo_name files commit_message :
  emits (fun ev => is_create_repo ev = false)
        (publish_into env cfg repo repo_name files commit_message).
Proof.
  unfold publish_into, requests_post.
  repeat first
    [ apply emits_ret
    | apply emits_lift
    | apply emits_if
    | apply emits_write_files_kind; intros; assumption
    | apply emits_call; reflexivity
    | apply emits_bind
    | intro ].
Qed.

Lemma create_or_update_repo_trace env cfg repo_name files commit_message s :
  trace (snd (create_or_update_repo env cfg repo_name files commit_message s))
  = trace (snd (create_or_update_repo_body env cfg repo_name files commit_message s)).
Proof.
  unfold create_or_update_repo, try_except.
  destruct (create_or_update_repo_body env cfg repo_name files commit_message s)
    as [[r|e] s']; reflexivity.
Qed.

(** X15. The publisher creates a repository only when the lookup of the name
    failed with a GitHub exception: a creation among its calls is for the
    given name and follows such a lookup.  When the lookup finds the
    repository, or fails in another way, nothing is created. *)
Theorem create_repo_only_when_absent env cfg repo_name files commit_message s :
  exists evs,
    trace (snd (create_or_update_repo env cfg repo_name files commit_message s))
    = trace s ++ evs
    /\ forall name,
         In (EvCreateRepo name) evs ->
         name = repo_name
         /\ exists e,
              env_get_repo env (trace s ++ [EvGetUser]) repo_name = Raise e
              /\ is_GithubException e = true.
Proof.
  rewrite create_or_update_repo_trace, create_or_update_repo_body_unfold. cbv zeta.
  cbn [trace heap].
  assert (Hnone : forall evs : list Event,
             Forall (fun ev => is_create_repo ev = false) evs ->
             forall name, ~ In (EvCreateRepo name) evs).
  { intros evs Hq name Hin. rewrite Forall_forall in Hq.
    specialize (Hq _ Hin). discriminate. }
  destruct (env_get_user env (trace s)) as [[]|e0].
  2:{ exists [EvGetUser]. split; [reflexivity|].
      intros name [H|[]]. discriminate. }
  destruct (env_get_repo env (trace s ++ [EvGetUser]) repo_name) as [repo|e].
  - destruct (emits_publish_into env cfg repo repo_name files commit_message
                (mkState ((trace s ++ [EvGetUser]) ++ [EvGetRepo repo_name]) (heap s)))
      as (evs & Ht & Hq).
    exists ([EvGetUser; EvGetRepo repo_name] ++ evs). split.
    + rewrite Ht. cbn [trace]. rewrite <- !app_assoc. reflexivity.
    + intros name [H|[H|Hin]]; try discriminate.
      exfalso. exact (Hnone evs Hq name Hin).
  - destruct (is_GithubException e) eqn:He.
    + destruct (env_create_repo env _ repo_name) as [repo|e'].
      * destruct (emits_publish_into env cfg repo repo_name files commit_message
                    (mkState ((((trace s ++ [EvGetUser]) ++ [EvGetRepo repo_name])
                               ++ [EvCreateRepo repo_name]) ++ [EvSleep 2]) (heap s)))
          as (evs & Ht & Hq).
        exists ([EvGetUser; EvGetRepo repo_name; EvCreateRepo repo_name; EvSleep 2] ++ evs).
        split.
        -- rewrite Ht. cbn [trace]. rewrite <- !app_assoc. reflexivity.
        -- intros name [H|[H|[H|[H|Hin]]]]; try discriminate.
           ++ injection H as <-. split; [reflexivity|]. exists e. split; [reflexivity|exact He].
           ++ exfalso. exact (Hnone evs Hq name Hin).
      * exists [EvGetUser; EvGetRepo repo_name; EvCreateRepo repo_name]. split.
        -- cbn [snd trace]. rewrite <- !app_assoc. reflexivity.
        -- intros name [H|[H|[H|[]]]]; try discriminate.
           injection H as <-. split; [reflexivity|]. exists e. split; [reflexivity|exact He].
    + exists [EvGetUser; EvGetRepo repo_name]. split.
      * cbn [snd trace]. rewrite <- !app_assoc. reflexivity.
      * intros name [H|[H|[]]]; discriminate.
Qed.

Lemma create_repo_only_when_absent_witness :
  let env := account_env (Ok tt) (Ok demo_repo) (fun _ => Raise not_found) (Ok tt)
                         pages_created in
  existsb is_create_repo
    (trace (snd (create_or_update_repo env demo_cfg (lit "demo-site")
                   [(lit "index.html", lit "<p></p>")] (lit "msg") empty_state)))
  = false.
Proof.
  cbv zeta.
  destruct (create_repo_only_when_absent
              (account_env (Ok tt) (Ok demo_repo) (fun _ => Raise not_found) (Ok tt)
                           pages_created)
              demo_cfg (lit "demo-site") [(lit "index.html", lit "<p></p>")] (lit "msg")
              empty_state) as (evs & Ht & Hc).
  rewrite Ht. cbn [trace empty_state app].
  destruct (existsb is_create_repo evs) eqn:E; [|reflexivity].
  apply existsb_exists in E as (ev & Hin & Hev).
  destruct ev; try discriminate.
  destruct (Hc _ Hin) as (_ & e & He & _). discriminate.
Defined.

Lemma call_ok_inv {A} ev (f : list Event -> Res A) s a s' :
  call ev f s = (Ok a, s') -> f (trace s) = Ok a.
Proof. unfold call. intros H. injection H as H _. exact H. Qed.

Lemma publish_into_ok_inv env cfg repo repo_name files commit_message s result s' :
  publish_into env cfg repo repo_name files commit_message s = (Ok result, s') ->
  exists login response commit_sha h_login h_pages endpoint h_branch,
    env_user_login env h_login = Ok login
    /\ env_post env h_pages
         (EvPostPages endpoint (lit "token " ++ format_opt (GITHUB_TOKEN cfg)))
       = Ok response
    /\ (status_code response = 201 \/ exists items, json response = Ok (JDict items))
    /\ env_get_branch env h_branch = Ok commit_sha
    /\ result = (Some (html_url repo),
                 Some (lit "https://" ++ login ++ lit ".github.io/" ++ repo_name ++ lit "/"),
                 Some commit_sha).
Proof.
  unfold publish_into, requests_post. intros H.
  apply bind_ok_inv in H as (? & sa & _ & H).
  apply bind_ok_inv in H as (login & sb & Hlogin & H).
  apply bind_ok_inv in H as (login' & sc & _ & H).
  apply bind_ok_inv in H as (response & sd & Hpages & H).
  apply bind_ok_inv in H as (? & se & Hif & H).
  apply bind_ok_inv in H as (commit_sha & sf & Hbranch & H).
  apply call_ok_inv in Hlogin, Hpages, Hbranch.
  unfold ret in H. injection H as <- _.
  exists login, response, commit_sha, (trace sa), (trace sc). eexists. exists (trace se).
  split; [exact Hlogin|]. split; [exact Hpages|]. split; [|split; [exact Hbranch|reflexivity]].
  destruct (Z.eqb_spec (status_code response) 201) as [E|_]; [left; exact E|right].
  apply bind_ok_inv in Hif as (body & sg & Hjson & Hget).
  unfold lift in Hjson, Hget. injection Hjson as Hjson _.
  destruct body; try discriminate. eauto.
Qed.

Lemma create_or_update_repo_body_ok_inv env cfg repo_name files commit_message s result s' :
  create_or_update_repo_body env cfg repo_name files commit_message s = (Ok result, s') ->
  exists repo s0,
    (env_get_repo env (trace s ++ [EvGetUser]) repo_name = Ok repo
     \/ env_create_repo env (trace s ++ [EvGetUser; EvGetRepo repo_name]) repo_name = Ok repo)
    /\ publish_into env cfg repo repo_name files commit_message s0 = (Ok result, s').
Proof.
  rewrite create_or_update_repo_body_unfold. cbv zeta. cbn [trace heap].
  rewrite <- !app_assoc. cbn [app].
  destruct (env_get_user env (trace s)) as [[]|e0]; [|discriminate].
  destruct (env_get_repo env (trace s ++ [EvGetUser]) repo_name) as [repo|e].
  - intros H. exists repo. eexists. split; [left; reflexivity|exact H].
  - destruct (is_GithubException e); [|discriminate].
    destruct (env_create_repo env _ repo_name) as [repo|e']; [|discriminate].
    intros H. exists repo. eexists. split; [right; reflexivity|exact H].
Qed.

(** X16. When the publisher reports success, the three results are the web
    address of the repository that the lookup or the creation returned,
    the address [https://<login>.github.io/<repository name>/] for the
    login of the account, and the commit id that the branch lookup
    returned; and the hosting request was answered, with status 201 or
    with a body that is a JSON object. *)
Theorem create_or_update_repo_success
        env cfg repo_name files commit_message s repo_url pages_url commit_sha :
  fst (create_or_update_repo env cfg repo_name files commit_message s)
  = Ok (Some repo_url, Some pages_url, Some commit_sha) ->
  exists repo login response h_login h_pages endpoint h_branch,
    (env_get_repo env (trace s ++ [EvGetUser]) repo_name = Ok repo
     \/ env_create_repo env (trace s ++ [EvGetUser; EvGetRepo repo_name]) repo_name = Ok repo)
    /\ repo_url = html_url repo
    /\ env_user_login env h_login = Ok login
    /\ pages_url = lit "https://" ++ login ++ lit ".github.io/" ++ repo_name ++ lit "/"
    /\ env_post env h_pages
         (EvPostPages endpoint (lit "token " ++ format_opt (GITHUB_TOKEN cfg)))
       = Ok response
    /\ (status_code response = 201 \/ exists items, json response = Ok (JDict items))
    /\ env_get_branch env h_branch = Ok commit_sha.
Proof.
  unfold create_or_update_repo, try_except.
  destruct (create_or_update_repo_body env cfg repo_name files commit_message s)
    as [[result|e] s'] eqn:E; cbn [fst any_Exception ret]; [|discriminate].
  intros H. injection H as ->.
  apply create_or_update_repo_body_ok_inv in E as (repo & s0 & Hrepo & Hp).
  apply publish_into_ok_inv in Hp
    as (login & response & sha & h1 & h2 & ep & h3 & Hl & Hpost & Hst & Hb & Hres).
  injection Hres as -> -> ->.
  exists repo, login, response, h1, h2, ep, h3. repeat split; assumption.
Qed.

Lemma create_or_update_repo_success_witness :
  let env := account_env (Ok tt) (Ok demo_repo) (fun _ => Raise not_found) (Ok tt)
               (Ok (mkResponse 409 [] (Ok (JDict [(lit "message", JStr (lit "exists"))])))) in
  fst (create_or_update_repo env demo_cfg (lit "demo-site")
         [(lit "index.html", lit "<p></p>")] (lit "msg") empty_state)
  = Ok (Some (lit "https://github.com/octocat/demo-site"),
        Some (lit "https://octocat.github.io/demo-site/"),
        Some (lit "0a1b2c3"))
  /\ exists login,
       lit "https://octocat.github.io/demo-site/"
       = lit "https://" ++ login ++ lit ".github.io/" ++ lit "demo-site" ++ lit "/".
Proof.
  cbv zeta.
  assert (H : fst (create_or_update_repo
                     (account_env (Ok tt) (Ok demo_repo) (fun _ => Raise not_found) (Ok tt)
                        (Ok (mkResponse 409 []
                               (Ok (JDict [(lit "message", JStr (lit "exists"))])))))
                     demo_cfg (lit "demo-site") [(lit "index.html", lit "<p></p>")]
                     (lit "msg") empty_state)
              = Ok (Some (lit "https://github.com/octocat/demo-site"),
                    Some (lit "https://octocat.github.io/demo-site/"),
                    Some (lit "0a1b2c3"))) by (vm_compute; reflexivity).
  split; [exact H|].
  destruct (create_or_update_repo_success _ _ _ _ _ _ _ _ _ H)
    as (repo & login & _ & _ & _ & _ & _ & _ & _ & _ & Hp & _).
  exists login. exact Hp.
Defined.

(** X17. When the hosting request is answered with a status other than 201
    and a body that is not a JSON object (an HTML error page, say), the
    publisher reports failure, whatever was written before: evaluating
    [response.json().get] for the log line raises inside the outer [try]. *)
Theorem create_or_update_repo_hosting_body env cfg repo_name files commit_message s :
  (forall history request response,
      is_pages_post request = true ->
      env_post env history request = Ok response ->
      status_code response <> 201
      /\ forall items, json response <> Ok (JDict items)) ->
  fst (create_or_update_repo env cfg repo_name files commit_message s)
  = Ok (None, None, None).
Proof.
  intros Hpages. unfold create_or_update_repo, try_except.
  destruct (create_or_update_repo_body env cfg repo_name files commit_message s)
    as [[result|e] s'] eqn:E; [|reflexivity].
  exfalso.
  apply create_or_update_repo_body_ok_inv in E as (repo & s0 & _ & Hp).
  apply publish_into_ok_inv in Hp
    as (login & response & sha & h1 & h2 & ep & h3 & _ & Hpost & Hst & _).
  destruct (Hpages h2 (EvPostPages ep (lit "token " ++ format_opt (GITHUB_TOKEN cfg)))
                   response eq_refl Hpost) as [Hne Hjson].
  destruct Hst as [H|[items H]]; [contradiction|exact (Hjson items H)].
Qed.

Lemma create_or_update_repo_hosting_body_witness :
  let env := account_env (Ok tt) (Ok demo_repo) (fun _ => Raise not_found) (Ok tt)
               (Ok (mkResponse 502 (lit "<html>Bad Gateway</html>")
                      (Raise (mkExn RequestException (lit "Expecting value"))))) in
  let run := create_or_update_repo env demo_cfg (lit "demo-site")
               [(lit "index.html", lit "<p></p>")] (lit "msg") empty_state in
  fst run = Ok (None, None, None)
  /\ In (EvCreateFile (lit "index.html") (lit "msg") (lit "<p></p>")) (trace (snd run)).
Proof.
  cbv zeta. split.
  - apply create_or_update_repo_hosting_body.
    intros history request response Hk Hpost.
    destruct request; try discriminate.
    cbn in Hpost. injection Hpost as <-. split; [discriminate|].
    intros items H. discriminate.
  - vm_compute. do 3 right. left. reflexivity.
Defined.

(** ** The background job, stage by stage *)

Lemma generate_code_state env cfg request s :
  snd (generate_code env cfg request s)
  = mkState (trace s ++ [llm_request cfg request]) (heap s).
Proof.
  rewrite generate_code_unfold. cbv zeta.
  destruct (env_post env (trace s) (llm_request cfg request)) as [r|e]; [|reflexivity].
  destruct (negb (status_code r =? 200)); reflexivity.
Qed.

Lemma process_after_generation env cfg request s generated_code :
  fst (generate_code env cfg request s) = Ok generated_code ->
  process_task_in_background env cfg request s
  = try_except
      (deploy env cfg request (List.length (heap s)) generated_code)
      any_Exception
      (fun e =>
         notify_grader env (evaluation_url request) (List.length (heap s))
           (Some (lit "Deployment failed: " ++ exn_str e)))
      (mkState (trace s ++ [llm_request cfg request])
               (heap s ++ [initial_payload request])).
Proof.
  intros Hgen. rewrite process_task_in_background_unfold. cbv zeta.
  pose proof (generate_code_heap_irrelevant env cfg request s
                (heap s ++ [initial_payload request])) as Hf.
  pose proof (generate_code_state env cfg request
                (mkState (trace s) (heap s ++ [initial_payload request]))) as Hs.
  rewrite Hgen in Hf.
  destruct (generate_code env cfg request
              (mkState (trace s) (heap s ++ [initial_payload request])))
    as [[code|e] s1]; cbn [fst snd trace heap] in *; [|discriminate].
  injection Hf as ->. subst s1. reflexivity.
Qed.

Lemma deploy_unfold env cfg request payload generated_code files s :
  build_files request generated_code = Ok files ->
  deploy env cfg request payload generated_code s =
  match create_or_update_repo env cfg (task request) files
          (lit "Round " ++ str_of_int (round request) ++ lit ": " ++ brief request) s with
  | (Ok (repo_url, pages_url, commit_sha), s3) =>
      if negb (truthy repo_url) then
        (Raise (mkExn PlainException
                  (lit "Failed to create or update GitHub repository.")), s3)
      else
        notify_grader env (evaluation_url request) payload None
          (mkState (trace s3)
             (heap_write payload
                (dict_update (heap_read payload (heap s3))
                   [ (lit "repo_url", pyval_of_opt repo_url);
                     (lit "commit_sha", pyval_of_opt commit_sha);
                     (lit "pages_url", pyval_of_opt pages_url) ])
                (heap s3)))
  | (Raise e, s3) => (Raise e, s3)
  end.
Proof.
  intros Hb. unfold deploy. cbv zeta. rewrite Hb.
  unfold bind at 1, lift. unfold bind at 1.
  destruct (create_or_update_repo env cfg (task request) files _ s)
    as [[[[repo_url pages_url] commit_sha]|e] s3]; [|reflexivity].
  destruct (negb (truthy repo_url)); reflexivity.
Qed.

(** X18. When generation succeeds and the publisher returns no repository
    address, the background job is one call of [notify_grader] with the
    fixed message "Deployment failed: Failed to create or update GitHub
    repository." (the exception that the publisher caught is not part of
    it), on the payload as it was created: no result field has been
    added.  What was done on GitHub before the failure stays in the trace. *)
Theorem publish_failure_notifies
        env cfg request s generated_code files repo_url pages_url commit_sha :
  let s1 := mkState (trace s ++ [llm_request cfg request])
                    (heap s ++ [initial_payload request]) in
  let published := create_or_update_repo env cfg (task request) files
                     (lit "Round " ++ str_of_int (round request) ++ lit ": "
                      ++ brief request) s1 in
  let message := lit "Deployment failed: Failed to create or update GitHub repository." in
  fst (generate_code env cfg request s) = Ok generated_code ->
  build_files request generated_code = Ok files ->
  fst published = Ok (repo_url, pages_url, commit_sha) ->
  truthy repo_url = false ->
  process_task_in_background env cfg request s
  = notify_grader env (evaluation_url request) (List.length (heap s)) (Some message)
      (snd published)
  /\ heap_read (List.length (heap s)) (heap (snd published)) = initial_payload request
  /\ exists m,
       trace (snd (process_task_in_background env cfg request s))
       = trace (snd published)
         ++ firstn m (retry_schedule (evaluation_url request)
                        (initial_payload request ++ [(lit "error", PStr message)])).
Proof.
  cbv zeta. intros Hgen Hb Hpub Hrepo.
  set (s1 := mkState (trace s ++ [llm_request cfg request])
                     (heap s ++ [initial_payload request])) in *.
  set (commit_message := lit "Round " ++ str_of_int (round request) ++ lit ": "
                         ++ brief request) in *.
  pose proof (keeps_heap_create_or_update_repo env cfg (task request) files
                commit_message s1) as Hh.
  assert (E : process_task_in_background env cfg request s
              = notify_grader env (evaluation_url request) (List.length (heap s))
                  (Some (lit "Deployment failed: Failed to create or update GitHub repository."))
                  (snd (create_or_update_repo env cfg (task request) files
                          commit_message s1))).
  { rewrite (process_after_generation _ _ _ _ _ Hgen). fold s1.
    unfold try_except. rewrite (deploy_unfold _ _ _ _ _ _ _ Hb). fold commit_message.
    destruct (create_or_update_repo env cfg (task request) files commit_message s1)
      as [[result|e] s3]; cbn [fst snd] in *; [|discriminate].
    injection Hpub as ->. rewrite Hrepo. reflexivity. }
  assert (Hpayload : heap_read (List.length (heap s))
                       (heap (snd (create_or_update_repo env cfg (task request) files
                                     commit_message s1)))
                     = initial_payload request).
  { rewrite Hh. subst s1. cbn [heap]. apply heap_read_length. }
  split; [exact E|]. split; [exact Hpayload|].
  rewrite E, notify_grader_unfold.
  change (truthy (Some (lit "Deployment failed: Failed to create or update GitHub repository.")))
    with true. cbv iota. cbn [pyval_of_opt].
  rewrite Hpayload, Hh. subst s1. cbn [heap]. rewrite heap_write_length.
  match goal with
  | |- context [notify_attempts env 4 1 ?u ?p ?s2] =>
      destruct (notify_attempts_prefix env u p 4 1 s2) as (_ & m & _ & Ht)
  end.
  cbn [trace heap] in Ht. rewrite heap_read_length in Ht.
  exists m. exact Ht.
Qed.

Lemma publish_failure_notifies_witness :
  let env := account_env (Raise (mkExn GithubException (lit "401 Bad credentials")))
               (Ok demo_repo) (fun _ => Raise not_found) (Ok tt) pages_created in
  let request := demo_request [] in
  let message := lit "Deployment failed: Failed to create or update GitHub repository." in
  trace (snd (process_task_in_background env demo_cfg request empty_state))
  = [ llm_request demo_cfg request; EvGetUser;
      EvPostNotify (lit "https://grader.example/cb")
        (initial_payload request ++ [(lit "error", PStr message)]) ].
Proof.
  cbv zeta.
  destruct (publish_failure_notifies
              (account_env (Raise (mkExn GithubException (lit "401 Bad credentials")))
                 (Ok demo_repo) (fun _ => Raise not_found) (Ok tt) pages_created)
              demo_cfg (demo_request []) empty_state (lit "<p>ok</p>")
              [ (lit "index.html", lit "<p>ok</p>");
                (lit "README.md", readme_content (demo_request []) (lit "demo-site"));
                (lit "LICENSE", MIT_LICENSE_TEXT) ]
              None None None eq_refl eq_refl eq_refl eq_refl) as (E & _ & _).
  rewrite E. vm_compute. reflexivity.
Defined.

Lemma notify_attempts_first_post env url p n d s :
  exists rest,
    trace (snd (notify_attempts env (S n) d url p s))
    = trace s ++ EvPostNotify url (heap_read p (heap s)) :: rest.
Proof.
  rewrite notify_attempts_step. cbv zeta.
  destruct (emits_notify_attempts env url p n (d * 2)
              (mkState (trace s ++ [EvPostNotify url (heap_read p (heap s)); EvSleep d])
                       (heap s))) as (evs & Ht & _).
  cbn [trace] in Ht.
  destruct (env_post env (trace s) _) as [r|e];
    [destruct (status_code r =? 200)|destruct (is_RequestException e)];
    try (exists []; reflexivity);
    exists (EvSleep d :: evs); rewrite Ht, <- app_assoc; reflexivity.
Qed.

(** X19. When generation succeeds and the publisher returns a repository
    address, the three results are added to the payload under [repo_url],
    [commit_sha] and [pages_url], after the four fields of the job, and
    the first call after the publisher's is the post of that payload to
    the callback URL of the job. *)
Theorem publish_success_notifies
        env cfg request s generated_code files repo_url pages_url commit_sha :
  let s1 := mkState (trace s ++ [llm_request cfg request])
                    (heap s ++ [initial_payload request]) in
  let published := create_or_update_repo env cfg (task request) files
                     (lit "Round " ++ str_of_int (round request) ++ lit ": "
                      ++ brief request) s1 in
  fst (generate_code env cfg request s) = Ok generated_code ->
  build_files request generated_code = Ok files ->
  fst published = Ok (Some repo_url, Some pages_url, Some commit_sha) ->
  repo_url <> [] ->
  exists rest,
    trace (snd (process_task_in_background env cfg request s))
    = trace (snd published)
      ++ EvPostNotify (evaluation_url request)
           (initial_payload request
            ++ [ (lit "repo_url", PStr repo_url);
                 (lit "commit_sha", PStr commit_sha);
                 (lit "pages_url", PStr pages_url) ])
         :: rest.
Proof.
  cbv zeta. intros Hgen Hb Hpub Hrepo.
  pose proof (keeps_heap_create_or_update_repo env cfg (task request) files
                (lit "Round " ++ str_of_int (round request) ++ lit ": " ++ brief request)
                (mkState (trace s ++ [llm_request cfg request])
                         (heap s ++ [initial_payload request]))) as Hh.
  rewrite (process_after_generation _ _ _ _ _ Hgen).
  unfold try_except. rewrite (deploy_unfold _ _ _ _ _ _ _ Hb).
  destruct (create_or_update_repo env cfg (task request) files _ _)
    as [[result|e] s3]; cbn [fst snd heap] in *; [|discriminate].
  injection Hpub as ->.
  assert (Ht : truthy (Some repo_url) = true) by (destruct repo_url; [contradiction|reflexivity]).
  rewrite Ht. cbn [negb pyval_of_opt]. rewrite Hh, heap_read_length, heap_write_length.
  rewrite notify_grader_unfold. cbn [truthy].
  match goal with
  | |- context [notify_attempts env 4 1 ?u ?p ?s4] =>
      destruct (notify_attempts_first_post env u p 3 1 s4) as (rest & Hfirst);
      destruct (notify_attempts env 4 1 u p s4) as [[[]|e] s5] eqn:En
  end; cbn [snd trace heap any_Exception] in *; rewrite heap_read_length in Hfirst.
  - exists rest. exact Hfirst.
  - destruct (emits_notify_grader env (evaluation_url request) (List.length (heap s))
                (Some (lit "Deployment failed: " ++ exn_str e)) s5) as (evs & Ht' & _).
    exists (rest ++ evs). rewrite Ht', Hfirst, <- app_assoc. reflexivity.
Qed.

Lemma publish_success_notifies_witness :
  let env := account_env (Ok tt) (Ok demo_repo) (fun path => Ok (lit "sha-" ++ path))
                         (Ok tt) pages_created in
  let request := demo_request [] in
  lit "https://github.com/octocat/demo-site" <> []
  /\ In (EvPostNotify (lit "https://grader.example/cb")
           (initial_payload request
            ++ [ (lit "repo_url", PStr (lit "https://github.com/octocat/demo-site"));
                 (lit "commit_sha", PStr (lit "0a1b2c3"));
                 (lit "pages_url", PStr (lit "https://octocat.github.io/demo-site/")) ]))
        (trace (snd (process_task_in_background env demo_cfg request empty_state))).
Proof.
  cbv zeta.
  assert (Hne : lit "https://github.com/octocat/demo-site" <> []) by (vm_compute; discriminate).
  split; [exact Hne|].
  destruct (publish_success_notifies
              (account_env (Ok tt) (Ok demo_repo) (fun path => Ok (lit "sha-" ++ path))
                           (Ok tt) pages_created)
              demo_cfg (demo_request []) empty_state (lit "<p>ok</p>")
              [ (lit "index.html", lit "<p>ok</p>");
                (lit "README.md", readme_content (demo_request []) (lit "demo-site"));
                (lit "LICENSE", MIT_LICENSE_TEXT) ]
              (lit "https://github.com/octocat/demo-site")
              (lit "https://octocat.github.io/demo-site/")
              (lit "0a1b2c3") eq_refl eq_refl eq_refl Hne) as (rest & Ht).
  rewrite Ht. apply in_or_app. right. left. reflexivity.
Defined.

Lemma process_task_in_background_notifies_once_witness :
  let env := demo_env (Ok (llm_response (lit "<p>ok</p>"))) always_200 in
  callback_contained env
  /\ exists message s2,
       process_task_in_background env demo_cfg (demo_request []) empty_state
       = notify_grader env (lit "https://grader.example/cb") 0%nat message s2.
Proof.
  cbv zeta.
  assert (Hc : callback_contained
                 (demo_env (Ok (llm_response (lit "<p>ok</p>"))) always_200)).
  { intros history url body. exact I. }
  split; [exact Hc|].
  destruct (process_task_in_background_notifies_once
              (demo_env (Ok (llm_response (lit "<p>ok</p>"))) always_200)
              demo_cfg (demo_request []) empty_state Hc) as (message & s2 & evs & E & _).
  exists message, s2. exact E.
Defined.

(** ** What the job writes and what it reports *)

Lemma in_dict_set {V} (d : dict V) k v p c :
  In (p, c) (dict_set d k v) -> (p = k /\ c = v) \/ In (p, c) d.
Proof.
  induction d as [|[k' v'] d IH]; cbn [dict_set].
  - intros [H|[]]. injection H as <- <-. left. split; reflexivity.
  - destruct (str_eqb k' k) eqn:E.
    + apply str_eqb_eq in E. subst k'.
      intros [H|H]; [injection H as <- <-; left; split; reflexivity|right; right; exact H].
    + intros [H|H]; [right; left; exact H|].
      destruct (IH H) as [Hl|Hr]; [left; exact Hl|right; right; exact Hr].
Qed.

Lemma add_attachments_entries atts :
  forall base files p c,
    add_attachments atts base = Ok files ->
    In (p, c) files ->
    In (p, c) base
    \/ exists a, In a atts /\ att_name a = p /\ decode_attachment a = Ok (Some c).
Proof.
  induction atts as [|a atts IH]; intros base files p c H Hin; cbn [add_attachments] in H.
  - injection H as <-. left. exact Hin.
  - destruct (decode_attachment a) as [[[|c0 t]|]|e] eqn:Ea; cbn [res_bind] in H;
      try discriminate.
    + destruct (IH _ _ _ _ H Hin) as [Hb|(b & Hb & Hn & Hd)]; [left; exact Hb|].
      right. exists b. split; [right; exact Hb|split; assumption].
    + destruct (IH _ _ _ _ H Hin) as [Hb|(b & Hb & Hn & Hd)].
      * apply in_dict_set in Hb as [[-> ->]|Hb]; [|left; exact Hb].
        right. exists a. split; [left; reflexivity|split; [reflexivity|exact Ea]].
      * right. exists b. split; [right; exact Hb|split; assumption].
    + destruct (IH _ _ _ _ H Hin) as [Hb|(b & Hb & Hn & Hd)]; [left; exact Hb|].
      right. exists b. split; [right; exact Hb|split; assumption].
Qed.

(** *** The fields of the job in every notification *)

Lemma maintains_pure {A} I Q (m : M A) :
  keeps_heap m -> emits Q m -> maintains I Q m.
Proof.
  intros Hk He s HI. split; [rewrite Hk; exact HI|apply He].
Qed.

Lemma maintains_bind {A B} I Q (m : M A) (k : A -> M B) :
  maintains I Q m -> (forall a, maintains I Q (k a)) -> maintains I Q (bind m k).
Proof.
  intros Hm Hk s HI. unfold bind.
  destruct (Hm s HI) as (HI1 & evs & Ht & Hq).
  destruct (m s) as [[a|e] s1]; cbn [snd] in *.
  - destruct (Hk a s1 HI1) as (HI2 & evs' & Ht' & Hq').
    split; [exact HI2|]. exists (evs ++ evs'). rewrite Ht', Ht, app_assoc.
    split; [reflexivity|]. apply Forall_app. split; assumption.
  - split; [exact HI1|]. exists evs. split; assumption.
Qed.

Lemma maintains_try_except {A} I Q (body : M A) matches handler :
  maintains I Q body -> (forall e, maintains I Q (handler e)) ->
  maintains I Q (try_except body matches handler).
Proof.
  intros Hb Hh s HI. unfold try_except.
  destruct (Hb s HI) as (HI1 & evs & Ht & Hq).
  destruct (body s) as [[a|e] s1]; cbn [snd] in *.
  - split; [exact HI1|]. exists evs. split; assumption.
  - destruct (matches e).
    + destruct (Hh e s1 HI1) as (HI2 & evs' & Ht' & Hq').
      split; [exact HI2|]. exists (evs ++ evs'). rewrite Ht', Ht, app_assoc.
      split; [reflexivity|]. apply Forall_app. split; assumption.
    + split; [exact HI1|]. exists evs. split; assumption.
Qed.

Lemma maintains_heap_modify I Q p f :
  (forall h, I h -> I (heap_write p (f (heap_read p h)) h)) ->
  maintains I Q (heap_modify p f).
Proof.
  intros Hf s HI. split; [apply Hf; exact HI|].
  exists []. rewrite app_nil_r. split; [reflexivity|constructor].
Qed.

Lemma heap_write_same_length p d h : List.length (heap_write p d h) = List.length h.
Proof.
  revert p. induction h as [|x h IH]; intros p; [destruct p; reflexivity|].
  destruct p; cbn; [reflexivity|]. rewrite IH. reflexivity.
Qed.

Lemma maintains_notify_attempts env url p I (Q : Event -> Prop) n :
  (forall h, I h -> Q (EvPostNotify url (heap_read p h))) ->
  (forall w, Q (EvSleep w)) ->
  forall d, maintains I Q (notify_attempts env n d url p).
Proof.
  intros HP HS. induction n as [|n IH]; intros d s HI.
  - split; [exact HI|]. exists []. rewrite app_nil_r. split; [reflexivity|constructor].
  - rewrite notify_attempts_step. cbv zeta.
    assert (Hstop : forall r : Res unit,
               I (heap (snd (r, mkState (trace s ++ [EvPostNotify url (heap_read p (heap s))])
                                        (heap s))))
               /\ exists evs,
                    trace (snd (r, mkState (trace s ++ [EvPostNotify url (heap_read p (heap s))])
                                           (heap s)))
                    = trace s ++ evs /\ Forall Q evs).
    { intros r. split; [exact HI|]. eexists. split; [reflexivity|].
      constructor; [apply HP; exact HI|constructor]. }
    assert (Hgo : let run := notify_attempts env n (d * 2) url p
                               (mkState (trace s ++ [EvPostNotify url (heap_read p (heap s));
                                                     EvSleep d]) (heap s)) in
                  I (heap (snd run))
                  /\ exists evs, trace (snd run) = trace s ++ evs /\ Forall Q evs).
    { cbv zeta.
      destruct (IH (d * 2)
                   (mkState (trace s ++ [EvPostNotify url (heap_read p (heap s)); EvSleep d])
                            (heap s)) HI) as (HI' & evs & Ht & Hq).
      split; [exact HI'|]. cbn [trace] in Ht.
      exists ([EvPostNotify url (heap_read p (heap s)); EvSleep d] ++ evs).
      rewrite Ht, <- app_assoc. split; [reflexivity|].
      constructor; [apply HP; exact HI|]. constructor; [apply HS|exact Hq]. }
    destruct (env_post env (trace s) _) as [r|e];
      [destruct (status_code r =? 200)|destruct (is_RequestException e)];
      first [apply Hstop | apply Hgo].
Qed.

(** X21. Every request that a background job posts to a callback goes to
    the [evaluation_url] of the job and carries the job's [email], [task],
    [round] and [nonce] as they were received, whichever way the job ends
    and however often the notifier is called. *)
Theorem notifications_carry_job_fields env cfg request s :
  exists evs,
    trace (snd (process_task_in_background env cfg request s)) = trace s ++ evs
    /\ forall url body,
         In (EvPostNotify url body) evs ->
         url = evaluation_url request
         /\ carries_job_fields (email request) (task request) (round request)
                               (nonce request) body.
Proof.
  set (p := List.length (heap s)).
  set (I := fun h : list (dict pyval) =>
              (p < List.length h)%nat
              /\ carries_job_fields (email request) (task request) (round request)
                                    (nonce request) (heap_read p h)).
  set (Q := fun ev : Event =>
              forall url body, ev = EvPostNotify url body ->
                               url = evaluation_url request
                               /\ carries_job_fields (email request) (task request)
                                    (round request) (nonce request) body).
  assert (Hother : forall ev, is_notify_post ev = false -> Q ev).
  { intros ev Hev url body ->. discriminate. }
  assert (Hset : forall d k v,
             k = lit "error" \/ k = lit "repo_url" \/ k = lit "commit_sha"
             \/ k = lit "pages_url" ->
             carries_job_fields (email request) (task request) (round request)
                                (nonce request) d ->
             carries_job_fields (email request) (task request) (round request)
                                (nonce request) (dict_set d k v)).
  { intros d k v Hk (H1 & H2 & H3 & H4). unfold carries_job_fields.
    rewrite !dict_get_set_other; [auto| | | |];
      intros E; subst k; destruct Hk as [Hk|[Hk|[Hk|Hk]]]; vm_compute in Hk; discriminate. }
  assert (Hnotify : forall msg,
             maintains I Q (notify_grader env (evaluation_url request) p msg)).
  { intros msg. unfold notify_grader. apply maintains_bind.
    - destruct (truthy msg).
      + apply maintains_heap_modify. intros h [Hlen Hc]. split.
        * rewrite heap_write_same_length. exact Hlen.
        * rewrite heap_read_write_same by exact Hlen. apply Hset; [left; reflexivity|exact Hc].
      + apply maintains_pure; [intros s0; reflexivity|apply emits_ret].
    - intros _. apply maintains_notify_attempts.
      + intros h [_ Hc] url body E. injection E as <- <-. split; [reflexivity|exact Hc].
      + intros w. apply Hother. reflexivity. }
  assert (HI0 : I (heap s ++ [initial_payload request])).
  { split; [rewrite length_app; cbn; subst p; lia|].
    subst p. rewrite heap_read_length. repeat split. }
  rewrite process_task_in_background_unfold. cbv zeta. fold p.
  pose proof (generate_code_state env cfg request
                (mkState (trace s) (heap s ++ [initial_payload request]))) as Hs.
  destruct (generate_code env cfg request
              (mkState (trace s) (heap s ++ [initial_payload request])))
    as [[generated_code|e] s1]; cbn [snd trace heap] in Hs; subst s1.
  - assert (Hd : maintains I Q
                   (try_except (deploy env cfg request p generated_code) any_Exception
                      (fun e => notify_grader env (evaluation_url request) p
                                  (Some (lit "Deployment failed: " ++ exn_str e))))).
    { apply maintains_try_except; [|intros e; apply Hnotify].
      unfold deploy. cbv zeta. apply maintains_bind.
      - apply maintains_pure; [intros s0; reflexivity|apply emits_lift].
      - intros files. apply maintains_bind.
        + apply maintains_pure; [apply keeps_heap_create_or_update_repo|].
          eapply emits_weaken; [|apply emits_create_or_update_repo].
          intros ev [[Hr|[w ->]] _]; apply Hother; [|reflexivity].
          destruct ev; try reflexivity; discriminate.
        + intros [[repo_url pages_url] commit_sha].
          destruct (negb (truthy repo_url)).
          * apply maintains_pure; [intros s0; reflexivity|apply emits_raise].
          * apply maintains_bind; [|intros _; apply Hnotify].
            apply maintains_heap_modify. intros h [Hlen Hc]. split.
            -- rewrite heap_write_same_length. exact Hlen.
            -- rewrite heap_read_write_same by exact Hlen.
               unfold dict_update. cbn [fold_left fst snd].
               repeat apply Hset; auto. }
    destruct (Hd (mkState (trace s ++ [llm_request cfg request])
                          (heap s ++ [initial_payload request])) HI0)
      as (_ & evs & Ht & Hq).
    exists (llm_request cfg request :: evs). split.
    + rewrite Ht. cbn [trace]. rewrite <- app_assoc. reflexivity.
    + intros url body [H|Hin]; [discriminate|].
      rewrite Forall_forall in Hq. exact (Hq _ Hin url body eq_refl).
  - destruct (Hnotify (Some (lit "LLM generation failed: " ++ exn_str e))
                (mkState (trace s ++ [llm_request cfg request])
                         (heap s ++ [initial_payload request])) HI0)
      as (_ & evs & Ht & Hq).
    exists (llm_request cfg request :: evs). split.
    + rewrite Ht. cbn [trace]. rewrite <- app_assoc. reflexivity.
    + intros url body [H|Hin]; [discriminate|].
      rewrite Forall_forall in Hq. exact (Hq _ Hin url body eq_refl).
Qed.



(** ** What the decoder rejects *)

Lemma count_digits_cons c s :
  count_digits (c :: s) = if is_b64_digit c then S (count_digits s) else count_digits s.
Proof. unfold count_digits. cbn [filter]. destruct (is_b64_digit c); reflexivity. Qed.

Lemma is_b64_digit_pad : is_b64_digit BASE64_PAD = false.
Proof. reflexivity. Qed.

Lemma mod4_wrap d : ((3 + S d) mod 4 = (0 + d) mod 4)%nat.
Proof.
  replace (3 + S d)%nat with (0 + d + 1 * 4)%nat by lia. apply Nat.Div0.mod_add.
Qed.

(** Reading a piece of text either ends at a pad sequence or leaves the
    loop at the group position that the number of digits gives. *)
Lemma a2b_loop_run pre rest :
  forall q l p out,
    (q < 4)%nat ->
    (exists o, a2b_loop (pre ++ rest) q l p out = Ok o)
    \/ (exists l' p' out',
           a2b_loop (pre ++ rest) q l p out
           = a2b_loop rest ((q + count_digits pre) mod 4) l' p' out').
Proof.
  induction pre as [|c pre IH]; intros q l p out Hq.
  - right. exists l, p, out. cbn [app]. change (count_digits []) with 0%nat.
    rewrite Nat.add_0_r, Nat.mod_small by exact Hq. reflexivity.
  - cbn [app]. rewrite count_digits_cons.
    destruct (Z.eqb_spec c BASE64_PAD) as [->|Hne].
    + rewrite a2b_loop_pad, is_b64_digit_pad.
      destruct (Nat.leb 2 q); [destruct (Nat.leb 4 (q + S p))|]; eauto.
    + apply Z.eqb_neq in Hne. rewrite is_b64_digit_step by exact Hne.
      destruct (is_b64_digit c); [|apply IH; exact Hq].
      destruct q as [|[|[|[|q]]]]; try lia.
      * destruct (IH 1%nat (table_a2b_base64 c) 0%nat out ltac:(lia)) as [H|H]; [left; exact H|].
        right. replace (0 + S (count_digits pre))%nat with (1 + count_digits pre)%nat by lia.
        exact H.
      * match goal with |- context [a2b_loop _ 2 ?l' 0 ?o'] =>
          destruct (IH 2%nat l' 0%nat o' ltac:(lia)) as [H|H] end; [left; exact H|].
        right. replace (1 + S (count_digits pre))%nat with (2 + count_digits pre)%nat by lia.
        exact H.
      * match goal with |- context [a2b_loop _ 3 ?l' 0 ?o'] =>
          destruct (IH 3%nat l' 0%nat o' ltac:(lia)) as [H|H] end; [left; exact H|].
        right. replace (2 + S (count_digits pre))%nat with (3 + count_digits pre)%nat by lia.
        exact H.
      * match goal with |- context [a2b_loop _ 0 ?l' 0 ?o'] =>
          destruct (IH 0%nat l' 0%nat o' ltac:(lia)) as [H|H] end; [left; exact H|].
        right. rewrite mod4_wrap. exact H.
Qed.

Lemma a2b_loop_completes s l p out :
  pad_completes 0 s -> exists o, a2b_loop s 0 l p out = Ok o.
Proof.
  intros (pre & post & -> & Hc).
  destruct (a2b_loop_run pre (BASE64_PAD :: post) 0 l p out ltac:(lia))
    as [H|(l' & p' & out' & H)]; [exact H|].
  rewrite H, a2b_loop_pad. destruct Hc as [->|[-> [post' ->]]]; cbn [Nat.leb Nat.add].
  - eauto.
  - destruct p' as [|p']; cbn [Nat.leb]; [|eauto].
    rewrite a2b_loop_pad. cbn [Nat.leb Nat.add]. eauto.
Qed.

Lemma a2b_loop_whole_groups s l p out :
  (count_digits s mod 4 = 0)%nat -> exists o, a2b_loop s 0 l p out = Ok o.
Proof.
  intros Hd.
  destruct (a2b_loop_run s [] 0 l p out ltac:(lia)) as [H|(l' & p' & out' & H)].
  - rewrite app_nil_r in H. exact H.
  - rewrite app_nil_r in H. rewrite H. cbn [Nat.add]. rewrite Hd. cbn. eauto.
Qed.

Lemma pad_completes_skip q c s :
  is_b64_digit c = false -> pad_completes q s -> pad_completes q (c :: s).
Proof.
  intros Hc (pre & post & -> & H). exists (c :: pre), post.
  split; [reflexivity|]. rewrite count_digits_cons, Hc. exact H.
Qed.

Lemma pad_completes_digit q q' c s :
  is_b64_digit c = true ->
  (forall d, (q + S d) mod 4 = (q' + d) mod 4)%nat ->
  pad_completes q' s -> pad_completes q (c :: s).
Proof.
  intros Hc Hq (pre & post & -> & H). exists (c :: pre), post.
  split; [reflexivity|]. rewrite count_digits_cons, Hc, Hq. exact H.
Qed.

(** A run that returns read whole groups to the end or met a pad sequence
    that ends a group. *)
Lemma a2b_loop_ok_inv s :
  forallb significant s = true ->
  forall q l p out o,
    (q < 4)%nat ->
    a2b_loop s q l p out = Ok o ->
    ((q + count_digits s) mod 4 = 0)%nat
    \/ pad_completes q s
    \/ ((2 <= q)%nat /\ (4 <= q + S p)%nat /\ exists post, s = BASE64_PAD :: post).
Proof.
  induction s as [|c s IH]; intros Hs q l p out o Hq H.
  - left. cbn [a2b_loop] in H. destruct q; [reflexivity|discriminate].
  - cbn [forallb] in Hs. apply andb_true_iff in Hs as [Hc Hs].
    rewrite count_digits_cons.
    destruct (Z.eqb_spec c BASE64_PAD) as [->|Hne].
    + rewrite a2b_loop_pad in H. rewrite is_b64_digit_pad.
      destruct (Nat.leb 2 q) eqn:E2.
      * apply Nat.leb_le in E2.
        destruct (Nat.leb 4 (q + S p)) eqn:E4.
        -- apply Nat.leb_le in E4. right. right. eauto.
        -- apply Nat.leb_gt in E4.
           destruct (IH Hs q l (S p) out o Hq H) as [H1|[H2|(_ & H4 & post & ->)]].
           ++ left. exact H1.
           ++ right. left. apply pad_completes_skip; [reflexivity|exact H2].
           ++ right. left. exists [], (BASE64_PAD :: post). split; [reflexivity|].
              right. change (count_digits []) with 0%nat.
              assert (q = 2%nat) by lia. subst q. split; [reflexivity|eauto].
      * apply Nat.leb_gt in E2.
        destruct (IH Hs q l p out o Hq H) as [H1|[H2|(H3 & _)]].
        -- left. exact H1.
        -- right. left. apply pad_completes_skip; [reflexivity|exact H2].
        -- lia.
    + assert (Hd : is_b64_digit c = true).
      { unfold significant in Hc. apply Z.eqb_neq in Hne. rewrite Hne in Hc. exact Hc. }
      apply Z.eqb_neq in Hne. rewrite is_b64_digit_step in H by exact Hne.
      rewrite Hd in H |- *.
      assert (Hstep : forall q',
                 (q' < 4)%nat ->
                 (forall d, (q + S d) mod 4 = (q' + d) mod 4)%nat ->
                 (q' = 3 -> (q + 1) mod 4 = 3)%nat ->
                 forall l' out',
                   a2b_loop s q' l' 0 out' = Ok o ->
                   ((q + S (count_digits s)) mod 4 = 0)%nat
                   \/ pad_completes q (c :: s)
                   \/ ((2 <= q)%nat /\ (4 <= q + S p)%nat
                       /\ exists post, c :: s = BASE64_PAD :: post)).
      { intros q' Hq' Hmod H3 l' out' Hrun.
        destruct (IH Hs q' l' 0%nat out' o Hq' Hrun) as [H1|[H2|(Ha & Hb & post & ->)]].
        - left. rewrite Hmod. exact H1.
        - right. left. eapply pad_completes_digit; eassumption.
        - right. left. exists [c], post. split; [reflexivity|]. left.
          rewrite count_digits_cons, Hd. change (count_digits []) with 0%nat.
          apply H3. lia. }
      destruct q as [|[|[|[|q]]]]; try lia.
      * apply (Hstep 1%nat ltac:(lia)) in H; [exact H| |lia].
        intros d. reflexivity.
      * apply (Hstep 2%nat ltac:(lia)) in H; [exact H| |lia].
        intros d. reflexivity.
      * apply (Hstep 3%nat ltac:(lia)) in H; [exact H| |reflexivity].
        intros d. reflexivity.
      * apply (Hstep 0%nat ltac:(lia)) in H; [exact H| |lia].
        intros d. apply mod4_wrap.
Qed.

Lemma forallb_filter_self {A} (f : A -> bool) l : forallb f (filter f l) = true.
Proof.
  induction l as [|x l IH]; [reflexivity|]. cbn [filter].
  destruct (f x) eqn:E; [cbn [forallb]; rewrite E|]; exact IH.
Qed.

(** The base64 decoder fails exactly on text that ends inside a group. *)
Lemma a2b_base64_raises_iff encoded :
  (exists e, a2b_base64 encoded = Raise e) <-> incomplete_base64 encoded.
Proof.
  unfold a2b_base64, incomplete_base64. rewrite <- a2b_loop_filter.
  set (s := filter significant encoded).
  assert (Hs : forallb significant s = true) by apply forallb_filter_self.
  split.
  - intros [e He]. split.
    + intros Hd. destruct (a2b_loop_whole_groups s 0 0%nat [] Hd) as [o Ho]. congruence.
    + intros Hc. destruct (a2b_loop_completes s 0 0%nat [] Hc) as [o Ho]. congruence.
  - intros [Hd Hc].
    destruct (a2b_loop s 0 0 0 []) as [o|e] eqn:E; [|eauto].
    exfalso.
    destruct (a2b_loop_ok_inv s Hs 0%nat 0 0%nat [] o ltac:(lia) E) as [H1|[H2|(H3 & _)]].
    + apply Hd. exact H1.
    + apply Hc. exact H2.
    + lia.
Qed.

Lemma find_comma_some s h t :
  find_comma s = Some (h, t) -> ~ In comma h /\ s = h ++ comma :: t.
Proof.
  revert h. induction s as [|c s IH]; intros h H; [discriminate|].
  cbn [find_comma] in H. destruct (Z.eqb_spec c comma) as [->|Hne].
  - injection H as <- <-. split; [intros []|reflexivity].
  - destruct (find_comma s) as [[h' t']|]; [|discriminate].
    injection H as <- <-. destruct (IH h' eq_refl) as [Hn ->].
    split; [|reflexivity]. intros [Hc|Hin]; [congruence|exact (Hn Hin)].
Qed.

Lemma decode_attachment_none_iff a :
  decode_attachment a = Ok None <-> Malformed (att_url a).
Proof.
  unfold decode_attachment, decode_attachment_body, split_comma_1, Malformed.
  destruct (find_comma (att_url a)) as [[header encoded]|]; [|split; intros; [exact I|reflexivity]].
  cbn [unpack2 res_bind]. unfold b64decode.
  destruct (forallb is_ascii encoded) eqn:Ea.
  - pose proof (a2b_base64_raises_iff encoded) as Hiff.
    destruct (a2b_base64 encoded) as [raw|e] eqn:Eb; cbn [res_bind res_try].
    + unfold bytes_decode_utf8.
      destruct (utf8_decode raw) as [x|] eqn:Eu; cbn [res_bind res_try]; split.
      * discriminate.
      * intros [H|[[_ H]|(raw' & Hr & Hu)]]; [discriminate| |].
        -- apply Hiff in H as [e He]. discriminate.
        -- injection Hr as <-. congruence.
      * intros _. right. right. exists raw. split; [reflexivity|exact Eu].
      * reflexivity.
    + split; [|reflexivity].
      intros _. right. left. split; [reflexivity|]. apply Hiff. eauto.
  - cbn [res_bind res_try]. split; [intros _; left; reflexivity|reflexivity].
Qed.

(** Pads that do not end a group do not save the text: [aG=], [aG=k] and
    [aGk] are rejected; [aG==], [aGk=], [aG=k=] and [aG#=#=] are decoded. *)
Example decode_attachment_pad_cases :
  let decode payload := decode_attachment (mkAttachment (lit "f") (lit "data:," ++ payload)) in
  decode (lit "aG=") = Ok None
  /\ decode (lit "aG=k") = Ok None
  /\ decode (lit "aGk") = Ok None
  /\ decode (lit "aG==") = Ok (Some (lit "h"))
  /\ decode (lit "aGk=") = Ok (Some (lit "hi"))
  /\ decode (lit "aG=k=") = Ok (Some (lit "hi"))
  /\ decode (lit "aG#=#=") = Ok (Some (lit "h")).
Proof. vm_compute. repeat split. Qed.

(** C5 (amended). [decode_attachment] never raises.  It yields no content
    exactly for the malformed payloads: those without a comma and those
    whose text after the first comma has a character outside ASCII, or
    ends inside a base64 group (with the characters that are neither
    digits nor pads left out, the digits are not a multiple of four and no
    pad sequence ends a group), or decodes to bytes that are not UTF-8.
    Characters after the comma that are neither digits nor pads are not
    rejected: an ASCII payload decodes as the payload without them.  An
    attachment for which no content is yielded is left out of the files
    to commit, which are those of the job without it. *)
Theorem malformed_attachment_omitted a :
  (exists content, decode_attachment a = Ok content)
  /\ (decode_attachment a = Ok None <-> Malformed (att_url a))
  /\ (forall header encoded,
         find_comma (att_url a) = Some (header, encoded) ->
         forallb is_ascii encoded = true ->
         decode_attachment a
         = decode_attachment
             (mkAttachment (att_name a) (header ++ comma :: filter significant encoded)))
  /\ (decode_attachment a = Ok None ->
      forall pre post files,
        add_attachments (pre ++ a :: post) files = add_attachments (pre ++ post) files).
Proof.
  split; [apply decode_attachment_total|].
  split; [apply decode_attachment_none_iff|].
  split.
  - intros header encoded Hf Ha.
    destruct (find_comma_some _ _ _ Hf) as [Hh _].
    unfold decode_attachment, decode_attachment_body, split_comma_1. cbn [att_url].
    rewrite Hf, find_comma_app by exact Hh. cbn [unpack2 res_bind].
    unfold b64decode, a2b_base64.
    rewrite Ha, (forallb_filter is_ascii significant encoded Ha), a2b_loop_filter.
    reflexivity.
  - intros Hd pre post files. eapply add_attachments_skip; [exact Hd|reflexivity].
Qed.

Lemma malformed_attachment_omitted_witness :
  let bad := mkAttachment (lit "bad.bin") (lit "data:text/plain;base64,aG=") in
  let good := mkAttachment (lit "a.txt") (lit "data:,aGk=") in
  decode_attachment bad = Ok None
  /\ Malformed (att_url bad)
  /\ add_attachments ([good] ++ bad :: [good]) [(lit "index.html", lit "<p></p>")]
     = add_attachments ([good] ++ [good]) [(lit "index.html", lit "<p></p>")].
Proof.
  cbv zeta.
  assert (Hd : decode_attachment
                 (mkAttachment (lit "bad.bin") (lit "data:text/plain;base64,aG="))
               = Ok None) by (vm_compute; reflexivity).
  destruct (malformed_attachment_omitted
              (mkAttachment (lit "bad.bin") (lit "data:text/plain;base64,aG=")))
    as (_ & Hiff & _ & Homit).
  split; [exact Hd|]. split; [apply Hiff; exact Hd|]. apply Homit. exact Hd.
Defined.

(** ** Whitespace around the generated content *)

Lemma lstrip_split s :
  exists pre,
    s = pre ++ lstrip s
    /\ forallb isspace pre = true
    /\ (forall c rest, lstrip s = c :: rest -> isspace c = false).
Proof.
  induction s as [|d s (pre & Hs & Hpre & Hhd)].
  - exists []. cbn. repeat split. intros c rest H. discriminate.
  - cbn [lstrip]. destruct (isspace d) eqn:Ed.
    + exists (d :: pre). cbn [app forallb]. rewrite Ed, Hpre, <- Hs. auto.
    + exists []. cbn [app forallb]. repeat split.
      intros c rest H. injection H as <- _. exact Ed.
Qed.

Lemma rstrip_split s :
  exists post,
    s = rstrip s ++ post
    /\ forallb isspace post = true
    /\ (forall init c, rstrip s = init ++ [c] -> isspace c = false).
Proof.
  unfold rstrip. destruct (lstrip_split (rev s)) as (pre & Hs & Hpre & Hhd).
  exists (rev pre). split; [|split].
  - rewrite <- rev_app_distr, <- Hs, rev_involutive. reflexivity.
  - apply forallb_rev. exact Hpre.
  - intros init c H. apply (f_equal (@rev Z)) in H.
    rewrite rev_involutive, rev_app_distr in H. cbn [rev app] in H.
    exact (Hhd _ _ H).
Qed.

Lemma lstrip_all_space s : forallb isspace s = true -> lstrip s = [].
Proof.
  induction s as [|c s IH]; [reflexivity|]. cbn [forallb lstrip].
  intros H. apply andb_true_iff in H as [-> H]. exact (IH H).
Qed.

(** [strip] removes the leading and trailing whitespace. *)
Lemma strip_is_trim content : is_trim_of content (strip content).
Proof.
  unfold strip, is_trim_of.
  destruct (lstrip_split content) as (pre & Hs & Hpre & Hhd).
  destruct (rstrip_split (lstrip content)) as (post & Ht & Hpost & Hlast).
  exists pre, post. repeat split; try assumption.
  - rewrite <- Ht. exact Hs.
  - intros c rest H. rewrite H in Ht. exact (Hhd _ _ Ht).
Qed.

(** The text without its leading and trailing whitespace is unique, and
    [strip] computes it. *)
Lemma is_trim_strip content core : is_trim_of content core -> strip content = core.
Proof.
  intros (pre & post & -> & Hpre & Hpost & Hhd & Hlast). unfold strip.
  destruct core as [|c rest].
  - cbn [app]. rewrite lstrip_all_space; [reflexivity|].
    rewrite forallb_app, Hpre, Hpost. reflexivity.
  - cbn [app]. rewrite lstrip_padded by (try exact Hpre; exact (Hhd _ _ eq_refl)).
    destruct (exists_last (l := c :: rest) ltac:(discriminate)) as (init & d & E).
    change (c :: rest ++ post) with ((c :: rest) ++ post).
    rewrite E, <- app_assoc. cbn [app].
    apply rstrip_padded; [exact Hpost|exact (Hlast _ _ E)].
Qed.

(** C7. When the generation service answers 200 with a body whose first
    choice has a message with text content, that content has exactly one
    core: the content without its leading and trailing whitespace.  The
    generated code is that core with, once each, a leading [```html] and
    then a trailing [```] removed when present.  In particular, when the
    core is [```html<div>calc</div>```] and the job has no attachments,
    every write of [index.html] carries [<div>calc</div>]. *)
Theorem generated_code_unfenced
        env cfg request s response body first rest message content :
  env_post env (trace s) (llm_request cfg request) = Ok response ->
  status_code response = 200 ->
  json response = Ok (JDict body) ->
  dict_get body (lit "choices") = Some (JList (JDict first :: rest)) ->
  dict_get first (lit "message") = Some (JDict message) ->
  dict_get message (lit "content") = Some (JStr content) ->
  (exists core, is_trim_of content core)
  /\ (forall core core', is_trim_of content core -> is_trim_of content core' -> core = core')
  /\ (forall core,
         is_trim_of content core ->
         fst (generate_code env cfg request s) = Ok (unfence core)
         /\ (attachments request = [] ->
             core = lit "```html<div>calc</div>```" ->
             exists evs,
               trace (snd (process_task_in_background env cfg request s)) = trace s ++ evs
               /\ forall ev c,
                    In ev evs -> written_file ev = Some (lit "index.html", c) ->
                    c = lit "<div>calc</div>")).
Proof.
  intros Hpost Hstatus Hjson Hchoices Hmessage Hcontent.
  split; [exists (strip content); apply strip_is_trim|].
  split.
  { intros core core' H H'. apply is_trim_strip in H, H'. congruence. }
  intros core Hcore. apply is_trim_strip in Hcore.
  assert (Hgen : fst (generate_code env cfg request s) = Ok (unfence core)).
  { rewrite generate_code_unfold. cbv zeta. rewrite Hpost, Hstatus. cbn [Z.eqb Pos.eqb negb].
    unfold first_choice_content. rewrite Hjson. cbn [res_bind getitem_str].
    rewrite Hchoices. cbn [res_bind getitem_0 getitem_str].
    rewrite Hmessage. cbn [res_bind getitem_str].
    rewrite Hcontent. cbn [res_bind method_strip fst].
    rewrite strip_fences_unfence, Hcore. reflexivity. }
  split; [exact Hgen|].
  intros Hatts ->.
  destruct (process_task_in_background_writes env cfg request s) as (evs & Ht & Hw).
  exists evs. split; [exact Ht|].
  intros ev c Hin E.
  destruct (Hw ev _ _ Hin E) as (code & files & Hcode & Hfiles & Hi).
  rewrite Hgen in Hcode. injection Hcode as <-.
  unfold build_files in Hfiles. rewrite Hatts in Hfiles. cbn [add_attachments] in Hfiles.
  injection Hfiles as <-.
  destruct Hi as [Hi|[Hi|[Hi|[]]]].
  - injection Hi as <-. vm_compute. reflexivity.
  - exfalso. apply (f_equal fst) in Hi. vm_compute in Hi. discriminate.
  - exfalso. apply (f_equal fst) in Hi. vm_compute in Hi. discriminate.
Qed.

Lemma padded_content_trim :
  is_trim_of (32 :: newline :: lit "```html<div>calc</div>```" ++ [newline; 9])
             (lit "```html<div>calc</div>```").
Proof.
  exists [32; newline], [newline; 9]. split; [reflexivity|].
  split; [reflexivity|]. split; [reflexivity|]. split.
  - intros c rest H. injection H as <- _. reflexivity.
  - intros init c H. apply (f_equal (@rev Z)) in H. rewrite rev_app_distr in H.
    vm_compute in H. injection H as <- _. reflexivity.
Qed.

Lemma generated_code_unfenced_witness :
  let content := 32 :: newline :: lit "```html<div>calc</div>```" ++ [newline; 9] in
  let env := demo_env (Ok (llm_response content)) always_200 in
  is_trim_of content (lit "```html<div>calc</div>```")
  /\ unfence (lit "```html<div>calc</div>```") = lit "<div>calc</div>"
  /\ fst (generate_code env demo_cfg (demo_request []) empty_state)
     = Ok (lit "<div>calc</div>")
  /\ (exists evs,
        trace (snd (process_task_in_background env demo_cfg (demo_request []) empty_state))
        = trace empty_state ++ evs
        /\ forall ev c,
             In ev evs -> written_file ev = Some (lit "index.html", c) ->
             c = lit "<div>calc</div>")
  /\ In (EvCreateFile (lit "index.html") (lit "Round 1: a calculator")
                      (lit "<div>calc</div>"))
        (trace (snd (process_task_in_background env demo_cfg (demo_request [])
                                                empty_state))).
Proof.
  cbv zeta.
  set (content := 32 :: newline :: lit "```html<div>calc</div>```" ++ [newline; 9]).
  destruct (generated_code_unfenced
              (demo_env (Ok (llm_response content)) always_200)
              demo_cfg (demo_request []) empty_state
              (llm_response content)
              [(lit "choices",
                JList [JDict [(lit "message",
                               JDict [(lit "content", JStr content)])]])]
              [(lit "message", JDict [(lit "content", JStr content)])]
              []
              [(lit "content", JStr content)]
              content
              eq_refl eq_refl eq_refl eq_refl eq_refl eq_refl) as (_ & _ & H).
  destruct (H _ padded_content_trim) as [Hgen Hwrites].
  split; [exact padded_content_trim|].
  split; [vm_compute; reflexivity|].
  split; [rewrite Hgen; vm_compute; reflexivity|].
  split; [apply Hwrites; reflexivity|].
  vm_compute. do 6 right. left. reflexivity.
Defined.

(** ** The notifier and other exceptions *)

(** When the attempts before the [k]-th one fail and the [k]-th raises an
    exception that is not one of the requests library, the loop is left
    with that exception right after the post. *)
Lemma notify_attempts_crash env url p n e :
  forall d s k,
    let P := EvPostNotify url (heap_read p (heap s)) in
    (k < n)%nat ->
    (forall j, (j < k)%nat ->
               failed env (trace s ++ firstn (2 * j) (schedule n d P)) P = true) ->
    env_post env (trace s ++ firstn (2 * k) (schedule n d P)) P = Raise e ->
    is_RequestException e = false ->
    notify_attempts env n d url p s
    = (Raise e, mkState (trace s ++ firstn (2 * k + 1) (schedule n d P)) (heap s)).
Proof.
  induction n as [|n IH]; intros d s k P Hk Hfail Hpost He; [lia|].
  destruct k as [|k].
  - cbn [Nat.mul firstn] in Hpost. rewrite app_nil_r in Hpost.
    rewrite notify_attempts_step. cbv zeta. fold P. rewrite Hpost, He. reflexivity.
  - pose proof (Hfail 0%nat ltac:(lia)) as H0.
    cbn [Nat.mul firstn] in H0. rewrite app_nil_r in H0.
    rewrite notify_attempts_failed by exact H0. fold P.
    rewrite (IH (d * 2) (mkState (trace s ++ [P; EvSleep d]) (heap s)) k).
    + cbn [trace heap]. fold P. f_equal. f_equal.
      replace (2 * S k + 1)%nat with (S (S (2 * k + 1))) by lia.
      cbn [schedule firstn]. rewrite <- app_assoc. reflexivity.
    + lia.
    + intros j Hj. cbn [trace heap]. fold P.
      specialize (Hfail (S j) ltac:(lia)).
      replace (2 * S j)%nat with (S (S (2 * j))) in Hfail by lia.
      cbn [schedule firstn] in Hfail. rewrite <- app_assoc. exact Hfail.
    + cbn [trace heap]. fold P.
      replace (2 * S k)%nat with (S (S (2 * k))) in Hpost by lia.
      cbn [schedule firstn] in Hpost. rewrite <- app_assoc. exact Hpost.
    + exact He.
Qed.

(** X10. When an attempt of [notify_grader], the first or a later one
    reached because the attempts before it failed, raises an exception that
    is not one of the requests library, there is no further attempt: the
    exception leaves the call right after that post, without a wait.  The
    calls made are the retry schedule up to and including that post, and
    the payload has been given its error key, if any. *)
Theorem notify_grader_propagates env url payload error_message s k e :
  let s1 := if truthy error_message
            then mkState (trace s)
                   (heap_write payload
                      (dict_set (heap_read payload (heap s)) (lit "error")
                                (pyval_of_opt error_message))
                      (heap s))
            else s in
  let body := heap_read payload (heap s1) in
  let P := EvPostNotify url body in
  (k < 4)%nat ->
  (forall j, (j < k)%nat ->
             failed env (trace s ++ firstn (2 * j) (retry_schedule url body)) P = true) ->
  env_post env (trace s ++ firstn (2 * k) (retry_schedule url body)) P = Raise e ->
  is_RequestException e = false ->
  notify_grader env url payload error_message s
  = (Raise e,
     mkState (trace s ++ firstn (2 * k + 1) (retry_schedule url body)) (heap s1))
  /\ last (firstn (2 * k + 1) (retry_schedule url body)) EvGetUser = P
  /\ count_posts (firstn (2 * k + 1) (retry_schedule url body)) = S k.
Proof.
  cbv zeta. intros Hk Hfail Hpost He.
  rewrite notify_grader_unfold.
  set (s1 := if truthy error_message then _ else s) in *.
  assert (Ht : trace s1 = trace s) by (subst s1; destruct (truthy error_message); reflexivity).
  split.
  - rewrite <- Ht in *. unfold retry_schedule in *.
    apply notify_attempts_crash; assumption.
  - unfold retry_schedule.
    destruct k as [|[|[|[|k]]]]; try lia; split; reflexivity.
Qed.

Lemma notify_grader_propagates_witness :
  let env := demo_env (Ok (llm_response [])) fails_then_raises in
  let s := mkState [] [[(lit "task", PStr (lit "demo-site"))]] in
  let P := EvPostNotify (lit "https://grader.example/cb")
                        [(lit "task", PStr (lit "demo-site"))] in
  is_RequestException (mkExn OtherException (lit "unexpected")) = false
  /\ notify_grader env (lit "https://grader.example/cb") 0%nat None s
     = (Raise (mkExn OtherException (lit "unexpected")),
        mkState [P; EvSleep 1; P; EvSleep 2; P] (heap s)).
Proof.
  cbv zeta. split; [reflexivity|].
  refine (proj1 (notify_grader_propagates
           (demo_env (Ok (llm_response [])) fails_then_raises)
           (lit "https://grader.example/cb") 0%nat None
           (mkState [] [[(lit "task", PStr (lit "demo-site"))]])
           2%nat
           (mkExn OtherException (lit "unexpected")) _ _ eq_refl eq_refl)).
  - lia.
  - intros [|[|j]] Hj; [reflexivity|reflexivity|lia].
Defined.

(** ** The files a job writes *)

(** X20. Every file that a background job writes to the repository is
    written after a generation that succeeded, and is one of the three
    fixed files with its content (the generated code under [index.html],
    the README, the licence) or an attachment of the job under its name,
    with the content it decodes to.  Nothing else is ever written, and
    when generation fails no file is written at all. *)
Theorem process_writes_only_job_files env cfg request s :
  exists evs,
    trace (snd (process_task_in_background env cfg request s)) = trace s ++ evs
    /\ (forall ev path content,
           In ev evs -> written_file ev = Some (path, content) ->
           exists generated_code,
             fst (generate_code env cfg request s) = Ok generated_code
             /\ (In (path, content)
                    [ (lit "index.html", generated_code);
                      (lit "README.md", readme_content request (task request));
                      (lit "LICENSE", MIT_LICENSE_TEXT) ]
                 \/ exists a, In a (attachments request) /\ att_name a = path
                              /\ decode_attachment a = Ok (Some content)))
    /\ (forall e,
           fst (generate_code env cfg request s) = Raise e ->
           forall ev, In ev evs -> written_file ev = None).
Proof.
  destruct (process_task_in_background_writes env cfg request s) as (evs & Ht & Hw).
  exists evs. split; [exact Ht|]. split.
  - intros ev path content Hin E.
    destruct (Hw ev path content Hin E) as (code & files & Hcode & Hfiles & Hi).
    exists code. split; [exact Hcode|].
    unfold build_files in Hfiles.
    exact (add_attachments_entries _ _ _ _ _ Hfiles Hi).
  - intros e He ev Hin.
    destruct (written_file ev) as [[path content]|] eqn:E; [|reflexivity].
    destruct (Hw ev path content Hin E) as (code & _ & Hcode & _).
    rewrite He in Hcode. discriminate.
Qed.

Lemma process_writes_only_job_files_witness :
  let env := demo_env (Ok (llm_response (lit "<p>ok</p>"))) always_200 in
  let failing := demo_env (Ok (mkResponse 500 (lit "boom") (Ok JNone))) always_200 in
  let atts := [mkAttachment (lit "data.csv") (lit "data:text/csv;base64,YSxi")] in
  (exists evs,
     trace (snd (process_task_in_background env demo_cfg (demo_request atts) empty_state))
     = evs
     /\ In (EvCreateFile (lit "data.csv") (lit "Round 1: a calculator") (lit "a,b")) evs
     /\ forall ev path content,
          In ev evs -> written_file ev = Some (path, content) ->
          path = lit "index.html" \/ path = lit "README.md" \/ path = lit "LICENSE"
          \/ path = lit "data.csv")
  /\ (exists evs,
        trace (snd (process_task_in_background failing demo_cfg (demo_request atts)
                                               empty_state))
        = evs
        /\ forall ev, In ev evs -> written_file ev = None).
Proof.
  cbv zeta. split.
  - destruct (process_writes_only_job_files
                (demo_env (Ok (llm_response (lit "<p>ok</p>"))) always_200) demo_cfg
                (demo_request [mkAttachment (lit "data.csv") (lit "data:text/csv;base64,YSxi")])
                empty_state) as (evs & Ht & Hw & _).
    exists evs. split; [exact Ht|]. split.
    + cbn [trace empty_state app] in Ht. rewrite <- Ht. vm_compute.
      do 12 right. left. reflexivity.
    + intros ev path content Hin E.
      destruct (Hw ev path content Hin E) as (code & _ & [Hi|(a & Ha & Hn & _)]).
      * destruct Hi as [Hi|[Hi|[Hi|[]]]]; injection Hi as <- _; auto.
      * destruct Ha as [<-|[]]. do 3 right. symmetry. exact Hn.
  - destruct (process_writes_only_job_files
                (demo_env (Ok (mkResponse 500 (lit "boom") (Ok JNone))) always_200) demo_cfg
                (demo_request [mkAttachment (lit "data.csv") (lit "data:text/csv;base64,YSxi")])
                empty_state) as (evs & Ht & _ & Hn).
    exists evs. split; [exact Ht|].
    refine (Hn (mkExn PlainException (lit "AI Pipe API Error: 500 - boom")) _).
    vm_compute. reflexivity.
Defined.
